(** * giteasy: the issue-discovery and ranking core of [src/services/github.ts]
    and the aggregation loop of [src/components/Dashboard.tsx].

    The TypeScript code is embedded shallowly.  Strings are [string]
    (sequences of 8-bit characters, the ASCII subset of JavaScript's strings),
    the platform's integers are [Z], an asynchronous call that can reject is a
    value of [result], and the JavaScript built-ins the code relies on
    ([includes], [toLowerCase], [split], [join], [slice], [some], [sort],
    [URLSearchParams]) are written out in module [JS]. *)

From Stdlib Require Import String Ascii List ZArith Bool Lia.
From Stdlib Require Import DecimalString.
From Stdlib Require Import Reals ROrderedType Lra.
From Stdlib Require Import Sorted Permutation.
Import ListNotations.

Local Open Scope list_scope.
Local Open Scope string_scope.

(** ** JavaScript built-ins used by the service *)

Module JS.

(** The double-quote character, which the query templates embed. *)
Definition dquote : string := String (ascii_of_nat 34) EmptyString.

(** [s.includes(sub)]: [sub] occurs in [s] as a contiguous substring. *)
Fixpoint includes (s sub : string) : bool :=
  if String.prefix sub s then true
  else match s with
       | EmptyString => false
       | String _ s' => includes s' sub
       end.

(** [String.prototype.toLowerCase] on the ASCII range: [A]-[Z] are mapped to
    [a]-[z], every other character is left as it is. *)
Definition lower_ascii (c : ascii) : ascii :=
  let n := nat_of_ascii c in
  if (65 <=? n)%nat && (n <=? 90)%nat then ascii_of_nat (n + 32) else c.

Fixpoint toLowerCase (s : string) : string :=
  match s with
  | EmptyString => EmptyString
  | String c s' => String (lower_ascii c) (toLowerCase s')
  end.

(** [arr.some(p)]. *)
Definition some {A} (p : A -> bool) (arr : list A) : bool := existsb p arr.

(** [arr.slice(0, n)]. *)
Definition slice0 {A} (n : nat) (arr : list A) : list A := firstn n arr.

(** [arr.slice(-n)]: the last [n] elements. *)
Definition slice_last {A} (n : nat) (arr : list A) : list A :=
  skipn (List.length arr - n) arr.

(** [arr.join(sep)]. *)
Fixpoint join (sep : string) (arr : list string) : string :=
  match arr with
  | [] => ""
  | [x] => x
  | x :: rest => x ++ sep ++ join sep rest
  end.

(** [s.split(c)] for a one-character separator: the pieces between the
    occurrences of [c]; a string without [c] gives one piece. *)
Fixpoint split (c : ascii) (s : string) : list string :=
  match s with
  | EmptyString => [""]
  | String a s' =>
      if Ascii.eqb a c then "" :: split c s'
      else match split c s' with
           | [] => [String a ""]
           | piece :: rest => String a piece :: rest
           end
  end.

(** A destructured array element interpolated into a template string:
    a missing element is [undefined] and prints as such. *)
Definition nth_interp (n : nat) (arr : list string) : string :=
  nth n arr "undefined".

(** Truthiness of an optional string ([undefined] and [''] are falsy). *)
Definition truthy (s : option string) : bool :=
  match s with
  | None => false
  | Some s => negb (s =? "")
  end.

(** [arr.sort(compare)]: the sort is stable, so for a consistent comparator
    the result is the one a stable insertion sort gives.  [cmp x y] is the sign
    of [compare(x, y)]: [Gt] moves [x] behind [y]. *)
Fixpoint insert {A} (cmp : A -> A -> comparison) (x : A) (l : list A) : list A :=
  match l with
  | [] => [x]
  | y :: l' =>
      match cmp x y with
      | Gt => y :: insert cmp x l'
      | _ => x :: l
      end
  end.

Definition sort {A} (cmp : A -> A -> comparison) (arr : list A) : list A :=
  fold_right (insert cmp) [] arr.

(** A number that can be [NaN] ([None]), for integer-valued expressions. *)
Definition num := option Z.

(** [b - a]. *)
Definition sub (b a : num) : num :=
  match b, a with
  | Some x, Some y => Some (x - y)%Z
  | _, _ => None
  end.

(** The sign [sort] reads off a comparator's result; [NaN] counts as [+0]. *)
Definition sign (d : num) : comparison :=
  match d with
  | None => Eq
  | Some d => (d ?= 0)%Z
  end.

(** [String(n)] for an integer. *)
Definition string_of_Z (z : Z) : string :=
  NilZero.string_of_int (Z.to_int z).

End JS.

(** ** Data model (the interfaces of [github.ts]) *)

(** A parsed JSON value, as [response.json()] produces one for an error body,
    and the type of fields declared [any].  Numbers are integers. *)
#[warnings="-register-all"]
Inductive json : Type :=
| JNull
| JBool (b : bool)
| JNum (n : Z)
| JStr (s : string)
| JArr (elems : list json)
| JObj (fields : list (string * json)).

Record Label := { name : string; color : string }.

Record Owner := { login : string; avatar_url : string }.

Inductive IssueState := open | closed.

Record GitHubRepository := {
  repo_id : Z;
  repo_name : string;
  full_name : string;
  description : string;
  stargazers_count : Z;
  open_issues_count : Z;
  language : string;
  repo_updated_at : string;
  private : bool;
  owner : Owner;
  topics : option (list string);
  has_issues : bool;
  (* read through [(b as any).forks_count]; absent when [None] *)
  forks_count : option Z
}.

Record GitHubIssue := {
  id : Z;
  number : Z;
  title : string;
  body : string;
  state : IssueState;
  created_at : string;
  updated_at : string;
  labels : list Label;
  user : Owner;
  repository_url : string;
  html_url : string;
  comments : Z;
  assignee : json;
  (* read through [(b as any).reactions?.total_count]; absent when [None] *)
  reactions_total_count : option Z;
  (* the property the two-stage strategy adds with a spread; absent when [None] *)
  repository_stars : option Z
}.

Inductive Priority := low | medium | high.
Inductive Difficulty := beginner | intermediate | advanced.

(** ** Classification engine *)

(** [beginnerLabels], github.ts lines 55-75. *)
Definition beginnerLabels : list string :=
  [ "good first issue"; "good-first-issue"; "beginner"; "beginner-friendly";
    "easy"; "starter"; "newcomer"; "first-timers-only"; "up-for-grabs";
    "help wanted"; "documentation"; "docs"; "typo"; "enhancement"; "feature";
    "hacktoberfest"; "low-hanging-fruit"; "easy-fix"; "junior-job" ].

(** [issue.labels.map(l => l.name.toLowerCase())]. *)
Definition lowerLabels (issue : GitHubIssue) : list string :=
  map (fun l => JS.toLowerCase (name l)) (labels issue).

(** The guard shared by [categorizeIssue] and [getPriorityFromIssue]:
    [labels.some(l => this.beginnerLabels.some(bl => l.includes(bl)))]. *)
Definition hasBeginnerLabel (labels : list string) : bool :=
  JS.some (fun l => JS.some (fun bl => JS.includes l bl) beginnerLabels) labels.

(** [categorizeIssue], github.ts lines 502-565. *)
Definition categorizeIssue (issue : GitHubIssue) : string :=
  let title := JS.toLowerCase (title issue) in
  let labels := lowerLabels issue in
  let inc := JS.includes in
  let beginnerBranch : option string :=
    if hasBeginnerLabel labels then
      if JS.some (fun l => inc l "good first issue" || inc l "good-first-issue") labels
      then Some "good-first-issue"
      else if JS.some (fun l => inc l "documentation" || inc l "docs") labels
      then Some "documentation"
      else if JS.some (fun l => inc l "beginner" || inc l "easy") labels
      then Some "beginner-friendly"
      else if JS.some (fun l => inc l "help wanted" || inc l "up-for-grabs") labels
      then Some "help-wanted"
      else None
    else None in
  match beginnerBranch with
  | Some category => category
  | None =>
    if JS.some (fun l => inc l "feature" || inc l "new feature") labels
       || inc title "add " || inc title "implement"
    then "feature"
    else if JS.some (fun l => inc l "performance" || inc l "optimization") labels
       || inc title "optimize" || inc title "performance"
    then "performance"
    else if JS.some (fun l => inc l "ui" || inc l "ux" || inc l "design") labels
       || inc title "ui" || inc title "design"
    then "ui-ux"
    else if JS.some (fun l => inc l "test" || inc l "testing") labels
       || inc title "test"
    then "testing"
    else if JS.some (fun l => inc l "refactor" || inc l "cleanup") labels
       || inc title "refactor" || inc title "cleanup"
    then "refactoring"
    else if JS.some (fun l => inc l "accessibility" || inc l "a11y") labels
       || inc title "accessibility"
    then "accessibility"
    else if JS.some (fun l => inc l "api") labels || inc title "api"
    then "api"
    else if JS.some (fun l => inc l "database" || inc l "db") labels
       || inc title "database"
    then "database"
    else if JS.some (fun l => inc l "deploy" || inc l "ci" || inc l "cd") labels
       || inc title "deploy"
    then "deployment"
    else if JS.some (fun l => inc l "security" || inc l "vulnerability") labels
    then "security"
    else if JS.some (fun l => inc l "bug" || inc l "fix") labels
       || inc title "bug" || inc title "error"
    then "bug"
    else if JS.some (fun l => inc l "feature" || inc l "enhancement") labels
       || inc title "feature"
    then "enhancement"
    else if JS.some (fun l => inc l "typo" || inc l "spelling") labels
    then "typo"
    else "other"
  end.

(** [getPriorityFromIssue], github.ts lines 567-583. *)
Definition getPriorityFromIssue (issue : GitHubIssue) : Priority :=
  let labels := lowerLabels issue in
  let inc := JS.includes in
  if hasBeginnerLabel labels then low
  else if JS.some (fun l => inc l "critical" || inc l "urgent" || inc l "high") labels
  then high
  else if JS.some (fun l => inc l "medium" || inc l "important") labels
  then medium
  else low.

(** [getDifficultyFromIssue], github.ts lines 585-614. *)
Definition getDifficultyFromIssue (issue : GitHubIssue) : Difficulty :=
  let labels := lowerLabels issue in
  let title := JS.toLowerCase (title issue) in
  let inc := JS.includes in
  if JS.some (fun l =>
       inc l "good first issue" || inc l "beginner" || inc l "easy"
       || inc l "starter" || inc l "first-timers-only"
       || inc l "documentation" || inc l "typo") labels
  then beginner
  else if JS.some (fun l =>
       inc l "advanced" || inc l "complex" || inc l "architecture"
       || inc l "performance" || inc l "security") labels
       || inc title "refactor" || inc title "optimize"
  then advanced
  else intermediate.

(** ** Promises, exceptions and the outbound HTTP capability *)

(** A thrown JavaScript value: the constructor's name and the message. *)
Record exn := JsError { exn_name : string; message : string }.

(** The outcome of awaiting a promise. *)
Inductive result (T : Type) : Type :=
| Resolved (v : T)
| Rejected (e : exn).
Arguments Resolved {T} v.
Arguments Rejected {T} e.

Definition bind {A B} (r : result A) (k : A -> result B) : result B :=
  match r with
  | Resolved v => k v
  | Rejected e => Rejected e
  end.

(** [try { body } catch (error) { handler }]. *)
Definition try_catch {A} (body : result A) (handler : exn -> result A) : result A :=
  match body with
  | Resolved v => Resolved v
  | Rejected e => handler e
  end.

Declare Scope promise_scope.
Delimit Scope promise_scope with promise.
Notation "'await' x <- c ;; k" := (bind c (fun x => k))
  (at level 61, x name, c at next level, right associativity) : promise_scope.
Local Open Scope promise_scope.

(** [Promise.all]: the values in order, or the first rejection. *)
Fixpoint Promise_all {A} (ps : list (result A)) : result (list A) :=
  match ps with
  | [] => Resolved []
  | p :: rest =>
      match p with
      | Rejected e => Rejected e
      | Resolved v =>
          match Promise_all rest with
          | Rejected e => Rejected e
          | Resolved vs => Resolved (v :: vs)
          end
      end
  end.

Record Request := { url : string; headers : list (string * string) }.

(** What [fetch] followed by [response.json()] can give, for a payload that
    TypeScript asserts to be of type [T]. *)
Inductive Response (T : Type) : Type :=
| NetworkFailure (e : exn)
    (* [fetch] itself rejects *)
| HttpOk (payload : result T)
    (* [response.ok]; [response.json()] resolves to the payload or rejects *)
| HttpError (status : Z) (body : option json).
    (* [!response.ok]; [response.json()] resolves to [body], or rejects ([None]) *)
Arguments NetworkFailure {T} e.
Arguments HttpOk {T} payload.
Arguments HttpError {T} status body.

(** [{ items: T[] }], the shape of both search endpoints' answers. *)
Record SearchResult (T : Type) := { items : list T }.
Arguments items {T} _.
Arguments Build_SearchResult {T} _.

(** The platform, one typed [fetch] per endpoint family. *)
Record Platform := {
  fetch_repositories : Request -> Response (SearchResult GitHubRepository);
  fetch_issues : Request -> Response (SearchResult GitHubIssue);
  fetch_repo_issues : Request -> Response (list GitHubIssue)
}.

(** The own property [key] of a parsed object; a key given twice keeps its
    last value, as [JSON.parse] does.  [None] is [undefined]. *)
Definition json_field (key : string) (fields : list (string * json)) : option json :=
  option_map snd (find (fun kv => fst kv =? key) (rev fields)).

(** Property access [j.message]: reading a property of [null] throws, and
    the other non-objects have no such property. *)
Definition get_message (j : json) : result (option json) :=
  match j with
  | JNull =>
      Rejected (JsError "TypeError" "Cannot read properties of null (reading 'message')")
  | JObj fields => Resolved (json_field "message" fields)
  | _ => Resolved None
  end.

(** Truthiness of a possibly undefined JSON value. *)
Definition js_truthy (v : option json) : bool :=
  match v with
  | None | Some JNull => false
  | Some (JBool b) => b
  | Some (JNum n) => negb (n =? 0)%Z
  | Some (JStr s) => negb (s =? "")
  | Some (JArr _) | Some (JObj _) => true
  end.

(** [String(j)], the conversion [new Error(j)] applies to its argument. *)
Fixpoint js_String (j : json) : string :=
  match j with
  | JNull => "null"
  | JBool true => "true"
  | JBool false => "false"
  | JNum n => JS.string_of_Z n
  | JStr s => s
  | JArr elems =>
      JS.join "," (map (fun e => match e with
                                 | JNull => ""
                                 | _ => js_String e
                                 end) elems)
  | JObj _ => "[object Object]"
  end.

Definition baseUrl : string := "https://api.github.com".

(** The request [makeRequest] hands to [fetch], github.ts lines 151-165.
    Every call site passes no [options]; [token] is the value [getToken()]
    returns. *)
Definition requestFor (token : option string) (endpoint : string) : Request :=
  let headers :=
    [ ("Accept", "application/vnd.github.v3+json");
      ("Content-Type", "application/json") ] in
  let headers :=
    match token with
    | Some t => if JS.truthy token
                then List.app headers [("Authorization", "token " ++ t)]
                else headers
    | None => headers
    end in
  {| url := baseUrl ++ endpoint; headers := headers |}.

(** [makeRequest], github.ts lines 150-173. *)
Definition makeRequest {T} (token : option string)
    (fetch : Request -> Response T) (endpoint : string) : result T :=
  match fetch (requestFor token endpoint) with
  | NetworkFailure e => Rejected e
  | HttpError status body =>
      let error :=
        match body with
        | Some j => j
        | None => JObj [("message", JStr "Unknown error")]
        end in
      await m <- get_message error ;;
      Rejected (JsError "Error"
                  (if js_truthy m
                   then match m with Some v => js_String v | None => "" end
                   else "HTTP " ++ JS.string_of_Z status))
  | HttpOk payload => payload
  end.

(** ** [URLSearchParams] *)

Module URL.

Definition hex_digit (n : nat) : ascii :=
  nth n [ "0"; "1"; "2"; "3"; "4"; "5"; "6"; "7"; "8"; "9";
          "A"; "B"; "C"; "D"; "E"; "F" ]%char "0"%char.

(** The [application/x-www-form-urlencoded] serialisation of one character. *)
Definition encode_char (c : ascii) : string :=
  let n := nat_of_ascii c in
  if (n =? 32)%nat then "+"
  else if ((48 <=? n) && (n <=? 57) || (65 <=? n) && (n <=? 90)
           || (97 <=? n) && (n <=? 122)
           || (n =? 42) || (n =? 45) || (n =? 46) || (n =? 95))%nat
  then String c ""
  else String "%" (String (hex_digit (n / 16)) (String (hex_digit (n mod 16)) "")).

Fixpoint encode (s : string) : string :=
  match s with
  | EmptyString => ""
  | String c s' => encode_char c ++ encode s'
  end.

(** [new URLSearchParams({...})], an ordered list of name/value pairs. *)
Definition URLSearchParams := list (string * string).

(** [`${params}`]. *)
Definition toString (params : URLSearchParams) : string :=
  JS.join "&" (map (fun kv => encode (fst kv) ++ "=" ++ encode (snd kv)) params).

End URL.

(** ** Sort keys *)

Module RepoSort.
Inductive t := stars | updated | forks.
Definition to_string (k : t) : string :=
  match k with stars => "stars" | updated => "updated" | forks => "forks" end.
Definition eqb (a b : t) : bool :=
  match a, b with
  | stars, stars | updated, updated | forks, forks => true
  | _, _ => false
  end.
End RepoSort.

Module IssueSort.
Inductive t := updated | stars | created.
Definition to_string (k : t) : string :=
  match k with updated => "updated" | stars => "stars" | created => "created" end.
Definition eqb (a b : t) : bool :=
  match a, b with
  | updated, updated | stars, stars | created, created => true
  | _, _ => false
  end.
End IssueSort.

(** [Math.log10] on the reals. *)
Definition log10 (x : R) : R := (ln x / ln 10)%R.

(** The sign of a real-valued comparator result; [None] is [NaN]. *)
Definition signR (d : option R) : comparison :=
  match d with
  | None => Eq
  | Some d => Rcompare d 0
  end.

(** [{ ...issue, repository_stars: n }]. *)
Definition with_repository_stars (issue : GitHubIssue) (n : Z) : GitHubIssue :=
  {| id := id issue; number := number issue; title := title issue;
     body := body issue; state := state issue;
     created_at := created_at issue; updated_at := updated_at issue;
     labels := labels issue; user := user issue;
     repository_url := repository_url issue; html_url := html_url issue;
     comments := comments issue; assignee := assignee issue;
     reactions_total_count := reactions_total_count issue;
     repository_stars := Some n |}.

(** ** The service, over its environment *)

Section Service.

(** [new Date(s).getTime()]; [None] is [NaN], the time value of an invalid date. *)
Variable Date_getTime : string -> option Z.
(** [new Date().getTime()], the clock, read as one instant per operation. *)
Variable now : Z.
(** The credential [getToken()] returns. *)
Variable token : option string.
Variable platform : Platform.

(** The comparator of [searchRepositories] and [searchBeginnerRepos],
    github.ts lines 219-230 and 454-465. *)
Definition repoCompare (k : RepoSort.t) (a b : GitHubRepository) : JS.num :=
  match k with
  | RepoSort.stars => Some (stargazers_count b - stargazers_count a)%Z
  | RepoSort.updated =>
      JS.sub (Date_getTime (repo_updated_at b)) (Date_getTime (repo_updated_at a))
  | RepoSort.forks => JS.sub (forks_count b) (forks_count a)
  end.

(** [searchRepositories], github.ts lines 203-234.  [primarySort] defaults to
    ['stars'] at the call site. *)
Definition searchRepositories (query : string) (primarySort : RepoSort.t)
    (secondarySort : option RepoSort.t) : result (SearchResult GitHubRepository) :=
  let params : URL.URLSearchParams :=
    [ ("q", query); ("sort", RepoSort.to_string primarySort);
      ("order", "desc"); ("per_page", "50") ] in
  await response <- makeRequest token (fetch_repositories platform)
                      ("/search/repositories?" ++ URL.toString params) ;;
  match secondarySort with
  | Some secondary =>
      if negb (RepoSort.eqb secondary primarySort)
      then Resolved {| items := JS.sort (fun a b => JS.sign (repoCompare secondary a b))
                                        (items response) |}
      else Resolved response
  | None => Resolved response
  end.

(** [searchBeginnerRepos], github.ts lines 430-469. *)
Definition searchBeginnerRepos (language : option string) (primarySort : RepoSort.t)
    (secondarySort : option RepoSort.t) : result (SearchResult GitHubRepository) :=
  let query := "topic:good-first-issue OR topic:beginner-friendly OR topic:hacktoberfest" in
  let query :=
    match language with
    | Some l => if JS.truthy language then query ++ " language:" ++ l else query
    | None => query
    end in
  let query := query ++ " stars:>100" in
  let params : URL.URLSearchParams :=
    [ ("q", query); ("sort", RepoSort.to_string primarySort);
      ("order", "desc"); ("per_page", "30") ] in
  await response <- makeRequest token (fetch_repositories platform)
                      ("/search/repositories?" ++ URL.toString params) ;;
  match secondarySort with
  | Some secondary =>
      if negb (RepoSort.eqb secondary primarySort)
      then Resolved {| items := JS.sort (fun a b => JS.sign (repoCompare secondary a b))
                                        (items response) |}
      else Resolved response
  | None => Resolved response
  end.

(** One sort key of the issue comparator, github.ts lines 278-288 and 292-302. *)
Definition issueKeyCompare (k : IssueSort.t) (a b : GitHubIssue) : JS.num :=
  match k with
  | IssueSort.stars =>
      Some (match reactions_total_count b with Some n => n | None => 0 end
            - match reactions_total_count a with Some n => n | None => 0 end)%Z
  | IssueSort.updated =>
      JS.sub (Date_getTime (updated_at b)) (Date_getTime (updated_at a))
  | IssueSort.created =>
      JS.sub (Date_getTime (created_at b)) (Date_getTime (created_at a))
  end.

(** The comparator of [searchBeginnerIssues], github.ts lines 275-306. *)
Definition issueCompare (primarySort : IssueSort.t) (secondarySort : option IssueSort.t)
    (a b : GitHubIssue) : JS.num :=
  let comparison := issueKeyCompare primarySort a b in
  match comparison, secondarySort with
  | Some 0%Z, Some secondary =>
      if negb (IssueSort.eqb secondary primarySort)
      then issueKeyCompare secondary a b
      else comparison
  | _, _ => comparison
  end.

(** The query of the single-stage search, github.ts lines 248-262. *)
Definition issueQuery (language label : option string) : string :=
  let query := "is:issue is:open" in
  let query :=
    match label with
    | Some l => if JS.truthy label
                then query ++ " label:" ++ JS.dquote ++ l ++ JS.dquote
                else query ++ " label:" ++ JS.dquote ++ "good first issue" ++ JS.dquote
    | None => query ++ " label:" ++ JS.dquote ++ "good first issue" ++ JS.dquote
    end in
  let query :=
    match language with
    | Some l => if JS.truthy language then query ++ " language:" ++ l else query
    | None => query
    end in
  query ++ " comments:>=1 comments:<=10".

(** The request of the single-stage search, github.ts lines 265-272. *)
Definition issueSearchEndpoint (language label : option string)
    (primarySort : IssueSort.t) : string :=
  let params : URL.URLSearchParams :=
    [ ("q", issueQuery language label);
      ("sort", match primarySort with
               | IssueSort.stars => "reactions"
               | _ => IssueSort.to_string primarySort
               end);
      ("order", "desc"); ("per_page", "100") ] in
  "/search/issues?" ++ URL.toString params.

(** The single-stage search: [searchBeginnerIssues] below its hybrid test,
    github.ts lines 248-313. *)
Definition searchIssuesSingleStage (language label : option string)
    (primarySort : IssueSort.t) (secondarySort : option IssueSort.t)
    : result (SearchResult GitHubIssue) :=
  await response <- makeRequest token (fetch_issues platform)
                      (issueSearchEndpoint language label primarySort) ;;
  let sorted :=
    JS.sort (fun a b => JS.sign (issueCompare primarySort secondarySort a b))
            (items response) in
  if (50 <? List.length sorted)%nat
  then Resolved {| items := JS.slice0 50 sorted |}
  else Resolved {| items := sorted |}.

(** [calculateHybridScore], github.ts lines 394-407, over the reals; [None] is
    the [NaN] an invalid [updated_at] propagates. *)
Definition calculateHybridScore (issue : GitHubIssue) (repoStars : Z) : option R :=
  match Date_getTime (updated_at issue) with
  | None => None
  | Some updated =>
      let issueAge := IZR (now - updated) in
      let daysSinceUpdate := (issueAge / (1000 * 60 * 60 * 24))%R in
      let recencyScore := Rmax 0 (100 - daysSinceUpdate) in
      let popularityScore := (log10 (Rmax 1 (IZR repoStars)) * 10)%R in
      Some ((recencyScore * 0.6) + (popularityScore * 0.4))%R
  end.

(** The query of the candidate-repository search, github.ts lines 322-328. *)
Definition repoQuery (language : option string) : string :=
  let repoQuery := "topic:good-first-issue OR topic:beginner-friendly OR topic:hacktoberfest" in
  let repoQuery :=
    match language with
    | Some l => if JS.truthy language then repoQuery ++ " language:" ++ l else repoQuery
    | None => repoQuery
    end in
  repoQuery ++ " stars:>500".

Definition repoSearchEndpoint (language : option string) : string :=
  let repoParams : URL.URLSearchParams :=
    [ ("q", repoQuery language); ("sort", "stars");
      ("order", "desc"); ("per_page", "20") ] in
  "/search/repositories?" ++ URL.toString repoParams.

(** The query of the scoped issue search, github.ts lines 343-356. *)
Definition scopedIssueQuery (label : option string) (repoNames : list string) : string :=
  let issueQuery := "is:issue is:open" in
  let issueQuery :=
    match label with
    | Some l => if JS.truthy label
                then issueQuery ++ " label:" ++ JS.dquote ++ l ++ JS.dquote
                else issueQuery ++ " label:" ++ JS.dquote ++ "good first issue" ++ JS.dquote
    | None => issueQuery ++ " label:" ++ JS.dquote ++ "good first issue" ++ JS.dquote
    end in
  let repoFilter := JS.join " OR " (map (fun name => "repo:" ++ name) repoNames) in
  let issueQuery := issueQuery ++ " (" ++ repoFilter ++ ")" in
  issueQuery ++ " comments:>=1 comments:<=15".

Definition scopedIssueEndpoint (label : option string) (repoNames : list string) : string :=
  let issueParams : URL.URLSearchParams :=
    [ ("q", scopedIssueQuery label repoNames); ("sort", "updated");
      ("order", "desc"); ("per_page", "50") ] in
  "/search/issues?" ++ URL.toString issueParams.

(** The score comparator of the two-stage strategy, github.ts lines 378-382. *)
Definition scoreCompare (a b : GitHubIssue) : option R :=
  let score x :=
    match repository_stars x with
    | Some n => calculateHybridScore x n
    | None => None
    end in
  match score b, score a with
  | Some bScore, Some aScore => Some (bScore - aScore)%R
  | _, _ => None
  end.

(** [searchRecentIssuesFromStarredRepos], github.ts lines 317-391.  The call
    [this.searchBeginnerIssues(language, label, 'updated')] of the handler
    passes no secondary key, so it runs the single-stage search (see
    [fallback_call]). *)
Definition searchRecentIssuesFromStarredRepos (language label : option string)
    : result (SearchResult GitHubIssue) :=
  try_catch
    (await repoResponse <- makeRequest token (fetch_repositories platform)
                             (repoSearchEndpoint language) ;;
     let repoNames := JS.slice0 10 (map full_name (items repoResponse)) in
     await issueResponse <- makeRequest token (fetch_issues platform)
                              (scopedIssueEndpoint label repoNames) ;;
     let enhancedIssues :=
       map (fun issue =>
              let repoFullName :=
                JS.join "/" (JS.slice_last 2 (JS.split "/" (repository_url issue))) in
              let repo := find (fun r => full_name r =? repoFullName)
                               (items repoResponse) in
              with_repository_stars issue
                match repo with
                | Some r => stargazers_count r
                | None => 0%Z
                end)
           (items issueResponse) in
     Resolved {| items := JS.sort (fun a b => signR (scoreCompare a b)) enhancedIssues |})
    (fun error => searchIssuesSingleStage language label IssueSort.updated None).

(** [searchBeginnerIssues], github.ts lines 237-314.  [primarySort] defaults
    to ['updated'] at the call site. *)
Definition searchBeginnerIssues (language label : option string)
    (primarySort : IssueSort.t) (secondarySort : option IssueSort.t)
    : result (SearchResult GitHubIssue) :=
  match primarySort, secondarySort with
  | IssueSort.updated, Some IssueSort.stars =>
      searchRecentIssuesFromStarredRepos language label
  | _, _ => searchIssuesSingleStage language label primarySort secondarySort
  end.

(** [getRepositoryIssues], github.ts lines 193-201, with its default state. *)
Definition getRepositoryIssues (owner repo : string) : result (list GitHubIssue) :=
  let params : URL.URLSearchParams :=
    [ ("state", "open"); ("sort", "updated"); ("per_page", "100") ] in
  makeRequest token (fetch_repo_issues platform)
    ("/repos/" ++ owner ++ "/" ++ repo ++ "/issues?" ++ URL.toString params).

End Service.

(** ** The view-side types (the types file) *)

Module Types.

Record Repository := {
  id : Z;
  name : string;
  full_name : string;
  description : string;
  stargazers_count : Z;
  open_issues_count : Z;
  language : string;
  private : bool;
  topics : option (list string);
  owner : option Owner
}.

Record Issue := {
  issue_id : Z;
  title : string;
  type : string;
  priority : Priority;
  difficulty : option Difficulty;
  status : IssueState;
  createdAt : string;
  repository : string;
  repositoryFullName : option string;
  url : option string;
  author : option string;
  labels : option (list string);
  comments : option Z;
  assignee : option json
}.

Record NotificationPreferences := { instant : bool; daily : bool; weekly : bool }.

Record UserData := {
  username : string;
  githubUsername : option string;
  repositoryUrl : option string;
  issueTypes : list string;
  repositories : option (list Repository);
  notificationPreferences : NotificationPreferences
}.

End Types.

(** ** The aggregation engine ([fetchAllIssues] of Dashboard.tsx) *)

(** The pieces of component state [fetchAllIssues] writes. *)
Record DashboardState := {
  allIssues : list Types.Issue;
  loading : bool;
  lastRefresh : Z
}.

Definition batchSize : nat := 3.

(** [arr.slice(i, j)]. *)
Definition slice {A} (i j : nat) (arr : list A) : list A :=
  firstn (j - i) (skipn i arr).

(** The loop [for (let i = 0; i < length; i += batchSize)] that cuts the
    repositories into batches, Dashboard.tsx lines 105-108.  [fuel] bounds the
    iterations; the length of the list is always enough. *)
Fixpoint batchLoop {A} (fuel i : nat) (repositories : list A) : list (list A) :=
  match fuel with
  | O => []
  | S fuel' =>
      if (i <? List.length repositories)%nat
      then slice i (i + batchSize) repositories
             :: batchLoop fuel' (i + batchSize) repositories
      else []
  end.

Definition makeBatches {A} (repositories : list A) : list (list A) :=
  batchLoop (List.length repositories) 0 repositories.

Section Aggregation.

Variable token : option string.
Variable platform : Platform.
(** [new Date(s).toLocaleDateString()], which depends on the host's locale. *)
Variable toLocaleDateString : string -> string.
(** [new Date()], as a time value. *)
Variable now : Z.

(** The object built for one platform issue, Dashboard.tsx lines 118-133. *)
Definition toIssue (repo : Types.Repository) (issue : GitHubIssue) : Types.Issue :=
  {| Types.issue_id := id issue;
     Types.title := title issue;
     Types.type := categorizeIssue issue;
     Types.priority := getPriorityFromIssue issue;
     Types.difficulty := Some (getDifficultyFromIssue issue);
     Types.status := state issue;
     Types.createdAt := toLocaleDateString (created_at issue);
     Types.repository := Types.name repo;
     Types.repositoryFullName := Some (Types.full_name repo);
     Types.url := Some (html_url issue);
     Types.author := Some (login (user issue));
     Types.labels := Some (map name (labels issue));
     Types.comments := Some (comments issue);
     Types.assignee := Some (assignee issue) |}.

(** The asynchronous function mapped over a batch, Dashboard.tsx lines 113-138:
    a failed fetch is caught here and gives the empty list. *)
Definition fetchRepoIssues (repo : Types.Repository) : result (list Types.Issue) :=
  try_catch
    (let parts := JS.split "/" (Types.full_name repo) in
     let owner := JS.nth_interp 0 parts in
     let repoName := JS.nth_interp 1 parts in
     await githubIssues <- getRepositoryIssues token platform owner repoName ;;
     Resolved (map (toIssue repo) (JS.slice0 20 githubIssues)))
    (fun error => Resolved []).

(** The loop over the batches, Dashboard.tsx lines 112-142: the batch's
    promises are awaited together, then appended to [allIssuesData]. *)
Fixpoint runBatches (batches : list (list Types.Repository))
    (allIssuesData : list Types.Issue) : result (list Types.Issue) :=
  match batches with
  | [] => Resolved allIssuesData
  | batch :: rest =>
      let batchPromises := map fetchRepoIssues batch in
      await batchResults <- Promise_all batchPromises ;;
      runBatches rest (List.app allIssuesData (concat batchResults))
  end.

(** The body of the [try] block, Dashboard.tsx lines 101-147, up to the
    filtered list handed to [setAllIssues]. *)
Definition aggregate (repositories : list Types.Repository) (issueTypes : list string)
    : result (list Types.Issue) :=
  let batches := makeBatches repositories in
  await allIssuesData <- runBatches batches [] ;;
  Resolved (filter (fun issue => existsb (String.eqb (Types.type issue)) issueTypes)
                   allIssuesData).

(** [fetchAllIssues], Dashboard.tsx lines 93-156, as a state transformer. *)
Definition fetchAllIssues (userData : Types.UserData) (st : DashboardState)
    : DashboardState :=
  match Types.repositories userData with
  | None | Some [] =>
      {| allIssues := allIssues st; loading := false; lastRefresh := lastRefresh st |}
  | Some repositories =>
      match aggregate repositories (Types.issueTypes userData) with
      | Resolved filteredIssues =>
          {| allIssues := filteredIssues; loading := false; lastRefresh := now |}
      | Rejected error =>
          {| allIssues := allIssues st; loading := false; lastRefresh := lastRefresh st |}
      end
  end.

(** The fetch [fetchRepoIssues] awaits for a repository. *)
Definition repoFetch (repo : Types.Repository) : result (list GitHubIssue) :=
  let parts := JS.split "/" (Types.full_name repo) in
  getRepositoryIssues token platform (JS.nth_interp 0 parts) (JS.nth_interp 1 parts).

Definition fetchSucceeds (repo : Types.Repository) : bool :=
  match repoFetch repo with
  | Resolved _ => true
  | Rejected _ => false
  end.

(** What a repository adds to the aggregate: its first 20 issues, classified,
    when its fetch succeeds. *)
Definition contribution (repo : Types.Repository) : list Types.Issue :=
  match repoFetch repo with
  | Resolved githubIssues => map (toIssue repo) (JS.slice0 20 githubIssues)
  | Rejected _ => []
  end.

(** The category filter of [fetchAllIssues]. *)
Definition wanted (issueTypes : list string) (issue : Types.Issue) : bool :=
  existsb (String.eqb (Types.type issue)) issueTypes.

End Aggregation.

(** ** A concrete clock: the platform's timestamp format *)

Module Iso8601.

Definition digit (c : ascii) : option Z :=
  let n := nat_of_ascii c in
  if (48 <=? n)%nat && (n <=? 57)%nat then Some (Z.of_nat (n - 48)) else None.

Fixpoint number (cs : list ascii) (acc : Z) : option Z :=
  match cs with
  | [] => Some acc
  | c :: cs' =>
      match digit c with
      | Some d => number cs' (10 * acc + d)
      | None => None
      end
  end.

Definition leap (y : Z) : bool :=
  ((y mod 4 =? 0) && negb (y mod 100 =? 0) || (y mod 400 =? 0))%Z.

Definition days_in_month (y m : Z) : Z :=
  if (m =? 2)%Z then (if leap y then 29 else 28)
  else if ((m =? 4) || (m =? 6) || (m =? 9) || (m =? 11))%Z then 30 else 31.

(** Days from 1970-01-01 to the given civil date. *)
Definition days_from_civil (y m d : Z) : Z :=
  let y' := if (m <=? 2)%Z then (y - 1)%Z else y in
  let era := (y' / 400)%Z in
  let yoe := (y' - era * 400)%Z in
  let mp := if (2 <? m)%Z then (m - 3)%Z else (m + 9)%Z in
  let doy := ((153 * mp + 2) / 5 + d - 1)%Z in
  let doe := (yoe * 365 + yoe / 4 - yoe / 100 + doy)%Z in
  (era * 146097 + doe - 719468)%Z.

(** The time value, in milliseconds, of a timestamp [YYYY-MM-DDTHH:MM:SSZ]
    (the format of the platform's [created_at] and [updated_at]); any other
    string is an invalid date. *)
Definition getTime (s : string) : option Z :=
  match list_ascii_of_string s with
  | [y1; y2; y3; y4; "-"; m1; m2; "-"; d1; d2; "T";
     h1; h2; ":"; i1; i2; ":"; s1; s2; "Z"]%char =>
      match number [y1; y2; y3; y4] 0, number [m1; m2] 0, number [d1; d2] 0,
            number [h1; h2] 0, number [i1; i2] 0, number [s1; s2] 0 with
      | Some y, Some m, Some d, Some h, Some mi, Some sec =>
          if ((1 <=? m) && (m <=? 12) && (1 <=? d) && (d <=? days_in_month y m)
              && (h <=? 23) && (mi <=? 59) && (sec <=? 59))%Z
          then Some ((((days_from_civil y m d * 24 + h) * 60 + mi) * 60 + sec) * 1000)%Z
          else None
      | _, _, _, _, _, _ => None
      end
  | _ => None
  end.

End Iso8601.

(** ** Predicates used to state the properties *)

(** The categories the beginner branch of [categorizeIssue] can return. *)
Definition beginnerCategories : list string :=
  [ "good-first-issue"; "documentation"; "beginner-friendly"; "help-wanted" ].

(** A bug-signal label, as the [bug] rule of [categorizeIssue] reads it. *)
Definition isBugLabel (l : string) : bool :=
  JS.includes l "bug" || JS.includes l "fix".

(** The allowlist members that the beginner branch of [categorizeIssue] maps
    to a category (its four inner tests, github.ts lines 508-519). *)
Definition mapsToBeginnerCategory (l : string) : bool :=
  JS.includes l "good first issue" || JS.includes l "good-first-issue"
  || JS.includes l "documentation" || JS.includes l "docs"
  || JS.includes l "beginner" || JS.includes l "easy"
  || JS.includes l "help wanted" || JS.includes l "up-for-grabs".

(** The value an issue is ordered by under a sort key; an invalid date,
    which has no such value, is given 0. *)
Definition issueKeyValue (Date_getTime : string -> option Z) (k : IssueSort.t)
    (issue : GitHubIssue) : Z :=
  match k with
  | IssueSort.stars =>
      match reactions_total_count issue with Some n => n | None => 0%Z end
  | IssueSort.updated =>
      match Date_getTime (updated_at issue) with Some t => t | None => 0%Z end
  | IssueSort.created =>
      match Date_getTime (created_at issue) with Some t => t | None => 0%Z end
  end.

Definition validDates (Date_getTime : string -> option Z) (issue : GitHubIssue) : Prop :=
  Date_getTime (updated_at issue) <> None /\ Date_getTime (created_at issue) <> None.

(** The secondary key the comparator reads: one that is given and differs
    from the primary key. *)
Definition effectiveSecondary (primarySort : IssueSort.t)
    (secondarySort : option IssueSort.t) : option IssueSort.t :=
  match secondarySort with
  | Some k => if IssueSort.eqb k primarySort then None else Some k
  | None => None
  end.

(** The key the comparator falls back on when the primary keys are equal. *)
Definition tieBreakValue (Date_getTime : string -> option Z)
    (primarySort : IssueSort.t) (secondarySort : option IssueSort.t)
    (issue : GitHubIssue) : Z :=
  match effectiveSecondary primarySort secondarySort with
  | Some k => issueKeyValue Date_getTime k issue
  | None => 0%Z
  end.

(** Descending order on a first key, then descending on a second one. *)
Definition lexDesc {A} (k1 k2 : A -> Z) (x y : A) : comparison :=
  match (k1 y ?= k1 x)%Z with
  | Eq => (k2 y ?= k2 x)%Z
  | c => c
  end.

(** The number of positions of [s] at which [sub] occurs. *)
Fixpoint count_occurrences (sub s : string) : nat :=
  (if String.prefix sub s then 1 else 0)
  + match s with
    | EmptyString => 0
    | String _ s' => count_occurrences sub s'
    end.

(** The clauses of a query: the pieces between spaces that are outside double
    quotes. *)
Fixpoint clausesFrom (s : string) (inQuote : bool) (current : string) : list string :=
  match s with
  | EmptyString => if current =? "" then [] else [current]
  | String c s' =>
      if Ascii.eqb c " " && negb inQuote
      then (if current =? "" then clausesFrom s' false ""
            else current :: clausesFrom s' false "")
      else clausesFrom s'
             (if Ascii.eqb c (ascii_of_nat 34) then negb inQuote else inQuote)
             (current ++ String c "")
  end.

Definition clauses (query : string) : list string := clausesFrom query false "".

(** The fractional number of days from [updated] to [now], both time values
    in milliseconds. *)
Definition daysSince (now updated : Z) : R := (IZR (now - updated) / 86400000)%R.

(** ** Environments for the examples *)

(** An issue with the given title, label names and [updated_at]; the other
    fields hold placeholder values. *)
Definition mkIssueAt (t : string) (labelNames : list string) (updated : string)
    : GitHubIssue :=
  {| id := 1; number := 1; title := t; body := ""; state := open;
     created_at := "2024-01-01T00:00:00Z"; updated_at := updated;
     labels := map (fun n => {| name := n; color := "ededed" |}) labelNames;
     user := {| login := "octocat"; avatar_url := "" |};
     repository_url := "https://api.github.com/repos/octocat/hello";
     html_url := "https://github.com/octocat/hello/issues/1";
     comments := 1; assignee := JNull;
     reactions_total_count := None; repository_stars := None |}.

Definition mkIssue (t : string) (labelNames : list string) : GitHubIssue :=
  mkIssueAt t labelNames "2024-01-01T00:00:00Z".

Definition sampleIssue : GitHubIssue := mkIssue "Improve the install guide" ["help wanted"].

(** A platform whose repository search finds nothing, whose issue search
    answers [scoped] to a query with the empty repository group [()] and one
    issue to any other query. *)
Definition noCandidatesPlatform (scoped : Response (SearchResult GitHubIssue)) : Platform :=
  {| fetch_repositories := fun _ => HttpOk (Resolved {| items := [] |});
     fetch_issues := fun req =>
       if JS.includes (url req) "%28%29" then scoped
       else HttpOk (Resolved {| items := [sampleIssue] |});
     fetch_repo_issues := fun _ => HttpOk (Resolved []) |}.

Definition mkRepository (owner name : string) : Types.Repository :=
  {| Types.id := 7; Types.name := name;
     Types.full_name := owner ++ "/" ++ name;
     Types.description := ""; Types.stargazers_count := 10;
     Types.open_issues_count := 2; Types.language := "Go";
     Types.private := false; Types.topics := None; Types.owner := None |}.

(** Five monitored repositories; the third has been deleted. *)
Definition fiveRepositories : list Types.Repository :=
  [ mkRepository "octo" "alpha"; mkRepository "octo" "beta";
    mkRepository "ghost" "deleted"; mkRepository "octo" "delta";
    mkRepository "octo" "epsilon" ].

(** A platform that answers 404 for the deleted repository and two issues
    for every other one. *)
Definition flakyPlatform : Platform :=
  {| fetch_repositories := fun _ => HttpOk (Resolved {| items := [] |});
     fetch_issues := fun _ => HttpOk (Resolved {| items := [] |});
     fetch_repo_issues := fun req =>
       if JS.includes (url req) "/repos/ghost/deleted/"
       then HttpError 404 (Some (JObj [("message", JStr "Not Found")]))
       else HttpOk (Resolved [ mkIssue "Fix crash on startup" ["good first issue"; "bug"];
                               mkIssue "How do I configure this?" ["question"] ]) |}.

Definition fiveReposUser : Types.UserData :=
  {| Types.username := "newcomer"; Types.githubUsername := None;
     Types.repositoryUrl := None;
     Types.issueTypes := ["good-first-issue"; "bug"];
     Types.repositories := Some fiveRepositories;
     Types.notificationPreferences :=
       {| Types.instant := true; Types.daily := false; Types.weekly := false |} |}.

Definition emptyDashboard : DashboardState :=
  {| allIssues := []; loading := true; lastRefresh := 0 |}.

(** What [flakyPlatform] answers for a monitored repository: nothing for the
    deleted one, the same two issues for every other one. *)
Definition flakyAnswer (repo : Types.Repository) : option (list GitHubIssue) :=
  if Types.full_name repo =? "ghost/deleted" then None
  else Some [ mkIssue "Fix crash on startup" ["good first issue"; "bug"];
              mkIssue "How do I configure this?" ["question"] ].

(** The dashboard's entries for the two issues [flakyPlatform] answers for
    the repository [octo/repoName], with the identity as date format. *)
Definition dashboardEntry (repoName t category : string) (d : Difficulty)
    (labelNames : list string) : Types.Issue :=
  {| Types.issue_id := 1;
     Types.title := t;
     Types.type := category;
     Types.priority := low;
     Types.difficulty := Some d;
     Types.status := open;
     Types.createdAt := "2024-01-01T00:00:00Z";
     Types.repository := repoName;
     Types.repositoryFullName := Some ("octo/" ++ repoName);
     Types.url := Some "https://github.com/octocat/hello/issues/1";
     Types.author := Some "octocat";
     Types.labels := Some labelNames;
     Types.comments := Some 1%Z;
     Types.assignee := Some JNull |}.

Definition startupCrash (repoName : string) : Types.Issue :=
  dashboardEntry repoName "Fix crash on startup" "good-first-issue" beginner
    ["good first issue"; "bug"].

Definition configQuestion (repoName : string) : Types.Issue :=
  dashboardEntry repoName "How do I configure this?" "other" intermediate
    ["question"].

Definition mkRepo (fullName : string) (stars : Z) (updated : string) : GitHubRepository :=
  {| repo_id := 1; repo_name := fullName; full_name := fullName; description := "";
     stargazers_count := stars; open_issues_count := 3; language := "Go";
     repo_updated_at := updated; private := false;
     owner := {| login := "octo"; avatar_url := "" |};
     topics := None; has_issues := true; forks_count := Some 0%Z |}.

Definition popularRepo : GitHubRepository := mkRepo "octo/popular" 900 "2023-03-01T00:00:00Z".
Definition recentRepo : GitHubRepository := mkRepo "octo/recent" 100 "2024-03-01T00:00:00Z".

(** A platform whose repository search answers two repositories in
    descending order of stars, as a request with [sort=stars] is answered. *)
Definition twoReposPlatform : Platform :=
  {| fetch_repositories := fun _ =>
       HttpOk (Resolved {| items := [popularRepo; recentRepo] |});
     fetch_issues := fun _ => HttpOk (Resolved {| items := [] |});
     fetch_repo_issues := fun _ => HttpOk (Resolved []) |}.

(** An issue with a reaction count and an [updated_at]. *)
Definition mkReactedIssue (t : string) (reactions : Z) (updated : string) : GitHubIssue :=
  {| id := 1; number := 1; title := t; body := ""; state := open;
     created_at := "2024-01-01T00:00:00Z"; updated_at := updated;
     labels := [{| name := "good first issue"; color := "7057ff" |}];
     user := {| login := "octocat"; avatar_url := "" |};
     repository_url := "https://api.github.com/repos/octocat/hello";
     html_url := "https://github.com/octocat/hello/issues/1";
     comments := 1; assignee := JNull;
     reactions_total_count := Some reactions; repository_stars := None |}.

Definition issueOld5 := mkReactedIssue "old, 5 reactions" 5 "2024-01-01T00:00:00Z".
Definition issueNew5 := mkReactedIssue "new, 5 reactions" 5 "2024-01-03T00:00:00Z".
Definition issueMid9 := mkReactedIssue "mid, 9 reactions" 9 "2024-01-02T00:00:00Z".

Definition threeIssuesPlatform : Platform :=
  {| fetch_repositories := fun _ => HttpOk (Resolved {| items := [] |});
     fetch_issues := fun _ =>
       HttpOk (Resolved {| items := [issueOld5; issueNew5; issueMid9] |});
     fetch_repo_issues := fun _ => HttpOk (Resolved []) |}.

(** ** The credential store ([setToken], [getToken], [clearToken]) *)

(** [localStorage]: the stored items, at most one per key. *)
Module Storage.

Definition t := list (string * string).

Definition getItem (key : string) (st : t) : option string :=
  option_map snd (find (fun kv => fst kv =? key) st).

Definition removeItem (key : string) (st : t) : t :=
  filter (fun kv => negb (fst kv =? key)) st.

Definition setItem (key value : string) (st : t) : t :=
  (key, value) :: removeItem key st.

End Storage.

(** The mutable state of the service object, with the browser's store. *)
Record ServiceState := {
  token_cache : option string;      (* [this.token] *)
  localStorage : Storage.t
}.

(** [setToken], github.ts lines 133-136. *)
Definition setToken (t : string) (s : ServiceState) : ServiceState :=
  {| token_cache := Some t;
     localStorage := Storage.setItem "github_token" t (localStorage s) |}.

(** [getToken], github.ts lines 138-143: the value and the state after the
    lazy read. *)
Definition getToken (s : ServiceState) : option string * ServiceState :=
  if negb (JS.truthy (token_cache s))
  then let stored := Storage.getItem "github_token" (localStorage s) in
       (stored, {| token_cache := stored; localStorage := localStorage s |})
  else (token_cache s, s).

(** [clearToken], github.ts lines 145-148. *)
Definition clearToken (s : ServiceState) : ServiceState :=
  {| token_cache := None;
     localStorage := Storage.removeItem "github_token" (localStorage s) |}.

(** ** Further operations of the service *)

Module User.
(** [GitHubUser], github.ts lines 1-8. *)
Record t := {
  login : string;
  id : Z;
  avatar_url : string;
  name : string;
  email : string;
  public_repos : Z
}.
End User.

(** [beginnerRepos], github.ts lines 78-131. *)
Definition beginnerRepos : list string :=
  [ "freeCodeCamp/freeCodeCamp"; "microsoft/vscode"; "facebook/react";
    "vuejs/vue"; "angular/angular"; "nodejs/node"; "tensorflow/tensorflow";
    "kubernetes/kubernetes"; "elastic/elasticsearch"; "atom/atom";
    "rails/rails"; "django/django"; "laravel/laravel"; "symfony/symfony";
    "spring-projects/spring-boot"; "apache/kafka"; "mozilla/pdf.js";
    "gatsbyjs/gatsby"; "nuxt/nuxt.js"; "nestjs/nest"; "expressjs/express";
    "socketio/socket.io"; "lodash/lodash"; "moment/moment"; "chartjs/Chart.js";
    "prettier/prettier"; "eslint/eslint"; "webpack/webpack"; "babel/babel";
    "storybookjs/storybook"; "jestjs/jest"; "cypress-io/cypress";
    "puppeteer/puppeteer"; "microsoft/TypeScript"; "golang/go";
    "rust-lang/rust"; "python/cpython"; "openjdk/jdk"; "dotnet/core";
    "flutter/flutter"; "ionic-team/ionic-framework"; "apache/spark";
    "pandas-dev/pandas"; "numpy/numpy"; "scikit-learn/scikit-learn";
    "jupyter/notebook"; "home-assistant/core"; "ansible/ansible";
    "docker/docker-ce"; "grafana/grafana"; "prometheus/prometheus";
    "hashicorp/terraform" ].

Section MoreService.

Variable token : option string.
(** [fetch] at the types of the single-repository and user endpoints. *)
Variable fetch_repository : Request -> Response GitHubRepository.
Variable fetch_user : Request -> Response User.t.
Variable fetch_user_repos : Request -> Response (list GitHubRepository).

(** [getCurrentUser], github.ts lines 175-177. *)
Definition getCurrentUser : result User.t :=
  makeRequest token fetch_user "/user".

(** [getUserRepositories], github.ts lines 179-187. *)
Definition getUserRepositories (username : option string)
    : result (list GitHubRepository) :=
  let endpoint :=
    match username with
    | Some u => if JS.truthy username then "/users/" ++ u ++ "/repos" else "/user/repos"
    | None => "/user/repos"
    end in
  let params : URL.URLSearchParams := [ ("sort", "updated"); ("per_page", "100") ] in
  makeRequest token fetch_user_repos (endpoint ++ "?" ++ URL.toString params).

(** [getRepository], github.ts lines 189-191. *)
Definition getRepository (owner repo : string) : result GitHubRepository :=
  makeRequest token fetch_repository ("/repos/" ++ owner ++ "/" ++ repo).

(** The loop of [getBeginnerFriendlyRepos], github.ts lines 416-424: a
    repository that cannot be fetched is skipped. *)
Fixpoint beginnerReposLoop (repoSubset : list string) (repos : list GitHubRepository)
    : result (list GitHubRepository) :=
  match repoSubset with
  | [] => Resolved repos
  | repoPath :: rest =>
      await repos' <-
        try_catch
          (let parts := JS.split "/" repoPath in
           await repository <- getRepository (JS.nth_interp 0 parts)
                                             (JS.nth_interp 1 parts) ;;
           Resolved (List.app repos [repository]))
          (fun error => Resolved repos) ;;
      beginnerReposLoop rest repos'
  end.

(** [getBeginnerFriendlyRepos], github.ts lines 410-427. *)
Definition getBeginnerFriendlyRepos : result (list GitHubRepository) :=
  let repoSubset := JS.slice0 20 beginnerRepos in
  beginnerReposLoop repoSubset [].

End MoreService.

(** ** [parseRepositoryUrl] *)

Module Parsed.
(** [{ owner: string; repo: string }]. *)
Record t := { owner : string; repo : string }.
End Parsed.

(** The longest prefix without [/], as [[^\/]+] takes it, and what follows. *)
Fixpoint span_segment (s : string) : string * string :=
  match s with
  | EmptyString => ("", "")
  | String c s' =>
      if Ascii.eqb c "/" then ("", s)
      else let (segment, rest) := span_segment s' in (String c segment, rest)
  end.

(** [s] without the prefix [p], when it has it. *)
Fixpoint strip_prefix (p s : string) : option string :=
  match p, s with
  | EmptyString, _ => Some s
  | String a p', String b s' => if Ascii.eqb a b then strip_prefix p' s' else None
  | String _ _, EmptyString => None
  end.

(** A match of [/github\.com\/([^\/]+)\/([^\/]+)/] that starts at the first
    character of [s].  Both groups are greedy, and what must follow the first
    one is a [/], so each group is the whole run of characters up to the next
    [/]. *)
Definition match_here (s : string) : option Parsed.t :=
  match strip_prefix "github.com/" s with
  | None => None
  | Some rest =>
      let (owner, rest1) := span_segment rest in
      if owner =? "" then None
      else match rest1 with
           | String "/" rest2 =>
               let (repo, _) := span_segment rest2 in
               if repo =? "" then None
               else Some {| Parsed.owner := owner; Parsed.repo := repo |}
           | _ => None
           end
  end.

(** [parseRepositoryUrl], github.ts lines 494-500: the leftmost match. *)
Fixpoint parseRepositoryUrl (url : string) : option Parsed.t :=
  match match_here url with
  | Some parsed => Some parsed
  | None =>
      match url with
      | EmptyString => None
      | String _ url' => parseRepositoryUrl url'
      end
  end.

(** A string has no [/]. *)
Definition no_slash (s : string) : Prop := JS.includes s "/" = false.

(** ** Further definitions: the view components and the hooks *)

(** The form of the strings the pattern matches at their start. *)
Definition repository_address (s owner repo : string) : Prop :=
  owner <> "" /\ repo <> "" /\ no_slash owner /\ no_slash repo
  /\ exists tail, (tail = "" \/ exists t, tail = String "/" t)
                  /\ s = "github.com/" ++ owner ++ "/" ++ repo ++ tail.


(** ** The authentication hook ([useGitHub]) *)

(** The state of [useGitHub], hooks/useGitHub.ts lines 5-8. *)
Module Auth.
Record State := {
  user : option User.t;
  isAuthenticated : bool;
  loading : bool;
  error : option string
}.

Section AuthHook.

Variable fetch_user : Request -> Response User.t.

(** [fetchCurrentUser], hooks/useGitHub.ts lines 19-33, on the service's and
    the hook's state.  [makeRequest] reads the credential through
    [getToken]; every rejection of the model is an [Error]. *)
Definition fetchCurrentUser (w : ServiceState * State) : ServiceState * State :=
  let (svc, h) := w in
  let (token, svc) := getToken svc in
  match getCurrentUser token fetch_user with
  | Resolved userData =>
      (svc, {| user := Some userData; isAuthenticated := true;
               loading := false; error := None |})
  | Rejected err =>
      (clearToken svc,
       {| user := user h; isAuthenticated := false;
          loading := false; error := Some (message err) |})
  end.

(** [login], hooks/useGitHub.ts lines 35-38. *)
Definition login (token : string) (w : ServiceState * State)
    : ServiceState * State :=
  fetchCurrentUser (setToken token (fst w), snd w).

(** [logout], hooks/useGitHub.ts lines 40-45. *)
Definition logout (w : ServiceState * State) : ServiceState * State :=
  (clearToken (fst w),
   {| user := None; isAuthenticated := false;
      loading := loading (snd w); error := None |}).

End AuthHook.

End Auth.

(** The repositories [getBeginnerFriendlyRepos] obtains for one entry of the
    list: the fetched repository, or nothing when the fetch fails. *)
Definition fetchedRepo (token : option string)
    (fetch_repository : Request -> Response GitHubRepository)
    (repoPath : string) : list GitHubRepository :=
  let parts := JS.split "/" repoPath in
  match getRepository token fetch_repository
          (JS.nth_interp 0 parts) (JS.nth_interp 1 parts) with
  | Resolved repository => [repository]
  | Rejected _ => []
  end.

(** A platform that cannot be reached. *)
Definition downPlatform : Platform :=
  {| fetch_repositories := fun _ => NetworkFailure (JsError "TypeError" "Failed to fetch");
     fetch_issues := fun _ => NetworkFailure (JsError "TypeError" "Failed to fetch");
     fetch_repo_issues := fun _ => NetworkFailure (JsError "TypeError" "Failed to fetch") |}.

(** An issue of the repository with the given [repository_url]. *)
Definition mkIssueOf (t : string) (repositoryUrl : string) : GitHubIssue :=
  {| id := 11; number := 3; title := t; body := ""; state := open;
     created_at := "2024-01-01T00:00:00Z"; updated_at := "2024-01-06T00:00:00Z";
     labels := [{| name := "good first issue"; color := "7057ff" |}];
     user := {| login := "octocat"; avatar_url := "" |};
     repository_url := repositoryUrl;
     html_url := "https://github.com/octo/popular/issues/3";
     comments := 2; assignee := JNull;
     reactions_total_count := None; repository_stars := None |}.

(** A platform on which both stages of the two-stage strategy succeed. *)
Definition starredPlatform : Platform :=
  {| fetch_repositories := fun _ =>
       HttpOk (Resolved {| items := [popularRepo; recentRepo] |});
     fetch_issues := fun _ =>
       HttpOk (Resolved {| items :=
         [ mkIssueOf "Document the CLI" "https://api.github.com/repos/octo/popular" ] |});
     fetch_repo_issues := fun _ => HttpOk (Resolved []) |}.

(** The closed set of categories. *)
Definition allCategories : list string :=
  [ "good-first-issue"; "documentation"; "beginner-friendly"; "help-wanted";
    "feature"; "performance"; "ui-ux"; "testing"; "refactoring";
    "accessibility"; "api"; "database"; "deployment"; "security"; "bug";
    "enhancement"; "typo"; "other" ].

(** ** The repository selector (RepositorySelector.tsx) *)

Module Selector.

(** The component's own [Repository], RepositorySelector.tsx lines 6-16. *)
Record Repository := {
  id : Z;
  name : string;
  full_name : string;
  description : string;
  stargazers_count : Z;
  open_issues_count : Z;
  language : string;
  private : bool;
  topics : option (list string)
}.

(** [handleRepositoryToggle], RepositorySelector.tsx lines 57-64: the list
    handed to [onRepositoriesChange]. *)
Definition handleRepositoryToggle (selectedRepositories : list Repository)
    (repo : Repository) : list Repository :=
  let isSelected := JS.some (fun r => (id r =? id repo)%Z) selectedRepositories in
  if isSelected
  then filter (fun r => negb (id r =? id repo)%Z) selectedRepositories
  else List.app selectedRepositories [repo].

(** The selection, which the parent replaces on [onRepositoriesChange], and
    the component state [handleCustomRepoAdd] writes. *)
Record State := {
  selectedRepositories : list Repository;
  customRepoUrl : string;
  addingCustomRepo : bool
}.

End Selector.

(** [handleCustomRepoAdd], RepositorySelector.tsx lines 66-95. *)
Definition handleCustomRepoAdd (token : option string)
    (fetch_repository : Request -> Response GitHubRepository)
    (st : Selector.State) : Selector.State :=
  match parseRepositoryUrl (Selector.customRepoUrl st) with
  | None => st
  | Some parsed =>
      match getRepository token fetch_repository
              (Parsed.owner parsed) (Parsed.repo parsed) with
      | Resolved repo =>
          let mappedRepo :=
            {| Selector.id := repo_id repo;
               Selector.name := repo_name repo;
               Selector.full_name := full_name repo;
               Selector.description := description repo;
               Selector.stargazers_count := stargazers_count repo;
               Selector.open_issues_count := open_issues_count repo;
               Selector.language := if language repo =? "" then "Unknown"
                                    else language repo;
               Selector.private := private repo;
               Selector.topics := topics repo |} in
          {| Selector.selectedRepositories :=
               if negb (JS.some (fun r => (Selector.id r =? Selector.id mappedRepo)%Z)
                                (Selector.selectedRepositories st))
               then List.app (Selector.selectedRepositories st) [mappedRepo]
               else Selector.selectedRepositories st;
             Selector.customRepoUrl := "";
             Selector.addingCustomRepo := false |}
      | Rejected error =>
          {| Selector.selectedRepositories := Selector.selectedRepositories st;
             Selector.customRepoUrl := Selector.customRepoUrl st;
             Selector.addingCustomRepo := false |}
      end
  end.


(** ** The set-up form (LandingPage.tsx) *)

(** [formData], LandingPage.tsx lines 17-21. *)
Record FormData := {
  form_username : string;
  form_issueTypes : list string;
  form_repositories : list Types.Repository
}.

(** [handleIssueTypeToggle], LandingPage.tsx lines 44-51. *)
Definition handleIssueTypeToggle (type : string) (prev : FormData) : FormData :=
  {| form_username := form_username prev;
     form_issueTypes :=
       if existsb (String.eqb type) (form_issueTypes prev)
       then filter (fun t => negb (t =? type)) (form_issueTypes prev)
       else List.app (form_issueTypes prev) [type];
     form_repositories := form_repositories prev |}.

(** [handleSubmit], LandingPage.tsx lines 57-72: the data handed to
    [onGetStarted], when the form is complete. *)
Definition handleSubmit (formData : FormData) (user : option User.t)
    : option Types.UserData :=
  if negb (form_username formData =? "")
     && (0 <? List.length (form_issueTypes formData))%nat
     && (0 <? List.length (form_repositories formData))%nat
  then Some {| Types.username := form_username formData;
               Types.githubUsername := option_map User.login user;
               Types.repositoryUrl := None;
               Types.issueTypes := form_issueTypes formData;
               Types.repositories := Some (form_repositories formData);
               Types.notificationPreferences :=
                 {| Types.instant := true; Types.daily := false;
                    Types.weekly := false |} |}
  else None.

(** ** The dashboard's derived lists and repository removal (Dashboard.tsx) *)

Section DashboardViews.

(** [new Date(s).getTime()] on the locale-formatted [createdAt]. *)
Variable Date_getTime : string -> option Z.

(** The comparator [(a, b) => new Date(b.createdAt) - new Date(a.createdAt)],
    Dashboard.tsx lines 214 and 221. *)
Definition byCreatedAt (a b : Types.Issue) : comparison :=
  JS.sign (JS.sub (Date_getTime (Types.createdAt b))
                  (Date_getTime (Types.createdAt a))).

Definition isOpen (issue : Types.Issue) : bool :=
  match Types.status issue with open => true | closed => false end.

(** [openIssues], Dashboard.tsx lines 212-214. *)
Definition openIssues (allIssues : list Types.Issue) : list Types.Issue :=
  JS.sort byCreatedAt (filter isOpen allIssues).

(** [beginnerFriendlyIssues], Dashboard.tsx lines 216-221. *)
Definition beginnerFriendlyIssues (allIssues : list Types.Issue) : list Types.Issue :=
  JS.sort byCreatedAt
    (filter (fun issue =>
               isOpen issue
               && existsb (String.eqb (Types.type issue))
                    ["good-first-issue"; "beginner-friendly"; "documentation"])
            allIssues).

(** [notifications], Dashboard.tsx line 223. *)
Definition notifications (allIssues : list Types.Issue) : list Types.Issue :=
  JS.slice0 10 (beginnerFriendlyIssues allIssues).

End DashboardViews.

(** [handleRemoveRepository] with [handleRepositoriesChange], Dashboard.tsx
    lines 231-241: the new user data and the browser's store, in which it is
    saved as [JSON.stringify] writes it. *)
Definition handleRemoveRepository (JSON_stringify : Types.UserData -> string)
    (repoId : Z) (w : Types.UserData * Storage.t) : Types.UserData * Storage.t :=
  let (updatedUserData, storage) := w in
  let newRepositories :=
    match Types.repositories updatedUserData with
    | Some repositories =>
        filter (fun repo => negb (Types.id repo =? repoId)%Z) repositories
    | None => []
    end in
  let newUserData :=
    {| Types.username := Types.username updatedUserData;
       Types.githubUsername := Types.githubUsername updatedUserData;
       Types.repositoryUrl := Types.repositoryUrl updatedUserData;
       Types.issueTypes := Types.issueTypes updatedUserData;
       Types.repositories := Some newRepositories;
       Types.notificationPreferences :=
         Types.notificationPreferences updatedUserData |} in
  (newUserData,
   Storage.setItem "giteasy_user_data" (JSON_stringify newUserData) storage).

(** ** The search hooks (hooks/useGitHub.ts) *)

(** The white space [String.prototype.trim] removes, on the ASCII range:
    tab, line feed, vertical tab, form feed, carriage return and space. *)
Definition is_space (c : ascii) : bool :=
  let n := nat_of_ascii c in
  ((9 <=? n) && (n <=? 13) || (n =? 32))%nat.

Fixpoint trimStart (s : string) : string :=
  match s with
  | EmptyString => EmptyString
  | String c s' => if is_space c then trimStart s' else s
  end.

(** [s.trimEnd()]: what is left when the white space at the end is dropped. *)
Fixpoint trimEnd (s : string) : string :=
  match s with
  | EmptyString => EmptyString
  | String c s' =>
      match trimEnd s' with
      | EmptyString => if is_space c then EmptyString else String c EmptyString
      | rest => String c rest
      end
  end.

(** [s.trim()]. *)
Definition trim (s : string) : string := trimEnd (trimStart s).

(** The state of [useRepositorySearch], hooks/useGitHub.ts lines 182-184. *)
Module RepoSearch.
Record State := {
  results : list GitHubRepository;
  loading : bool;
  error : option string
}.
End RepoSearch.

(** [search] of [useRepositorySearch], hooks/useGitHub.ts lines 186-207. *)
Definition hookSearch (Date_getTime : string -> option Z) (token : option string)
    (platform : Platform) (query : string) (primarySort : RepoSort.t)
    (secondarySort : option RepoSort.t) (st : RepoSearch.State) : RepoSearch.State :=
  if trim query =? ""
  then {| RepoSearch.results := []; RepoSearch.loading := RepoSearch.loading st;
          RepoSearch.error := RepoSearch.error st |}
  else match searchRepositories Date_getTime token platform query
                 primarySort secondarySort with
       | Resolved response =>
           {| RepoSearch.results := items response; RepoSearch.loading := false;
              RepoSearch.error := None |}
       | Rejected err =>
           {| RepoSearch.results := []; RepoSearch.loading := false;
              RepoSearch.error := Some (message err) |}
       end.

(** ** The application shell (App.tsx) and signing out *)

Inductive Page := landing | dashboard.

Record AppState := {
  currentPage : Page;
  userData : option Types.UserData;
  isInitializing : bool
}.

(** Property access [j.username]; reading a property of [null] throws. *)
Definition get_username (j : json) : result (option json) :=
  match j with
  | JNull =>
      Rejected (JsError "TypeError" "Cannot read properties of null (reading 'username')")
  | JObj fields => Resolved (json_field "username" fields)
  | _ => Resolved None
  end.

Section App.

(** [JSON.stringify] on user data, [JSON.parse], and the parsed value seen at
    the type [UserData], as the assignment to the typed state sees it. *)
Variable JSON_stringify : Types.UserData -> string.
Variable JSON_parse : string -> result json.
Variable asUserData : json -> Types.UserData.

(** The effect that loads the saved session, App.tsx lines 13-34. *)
Definition loadSavedSession (w : AppState * Storage.t) : AppState * Storage.t :=
  let (st, storage) := w in
  let savedUserData := Storage.getItem "giteasy_user_data" storage in
  let savedToken := Storage.getItem "github_token" storage in
  let (st, storage) :=
    match savedUserData with
    | Some saved =>
        if JS.truthy savedUserData
        then match (await parsedData <- JSON_parse saved ;;
                    if JS.truthy savedToken
                    then await username <- get_username parsedData ;;
                         Resolved (if js_truthy username
                                   then Some parsedData else None)
                    else Resolved None) with
             | Resolved (Some parsedData) =>
                 ({| currentPage := dashboard;
                     userData := Some (asUserData parsedData);
                     isInitializing := isInitializing st |}, storage)
             | Resolved None => (st, storage)
             | Rejected error =>
                 (st, Storage.removeItem "github_token"
                        (Storage.removeItem "giteasy_user_data" storage))
             end
        else (st, storage)
    | None => (st, storage)
    end in
  ({| currentPage := currentPage st; userData := userData st;
      isInitializing := false |}, storage).

(** [handleGetStarted], App.tsx lines 36-41. *)
Definition handleGetStarted (data : Types.UserData) (w : AppState * Storage.t)
    : AppState * Storage.t :=
  ({| currentPage := dashboard; userData := Some data;
      isInitializing := isInitializing (fst w) |},
   Storage.setItem "giteasy_user_data" (JSON_stringify data) (snd w)).

(** [handleLogout] of the shell, App.tsx lines 48-54. *)
Definition appHandleLogout (w : AppState * Storage.t) : AppState * Storage.t :=
  ({| currentPage := landing; userData := None;
      isInitializing := isInitializing (fst w) |},
   Storage.removeItem "github_token"
     (Storage.removeItem "giteasy_user_data" (snd w))).

(** [handleLogout] of the dashboard, Dashboard.tsx lines 247-250: the hook's
    [logout], then the shell's handler, on the one browser store. *)
Definition dashboardHandleLogout (w : ServiceState * Auth.State * AppState)
    : ServiceState * Auth.State * AppState :=
  let '(svc, auth, app) := w in
  let (svc, auth) := Auth.logout (svc, auth) in
  let (app, storage) := appHandleLogout (app, localStorage svc) in
  ({| token_cache := token_cache svc; localStorage := storage |}, auth, app).

End App.

(** A toy serialisation of user data for the examples: the user name behind
    a tag, read back as an object with that [username]. *)
Definition sampleStringify (data : Types.UserData) : string :=
  "user=" ++ Types.username data.

Definition sampleParse (s : string) : result json :=
  match strip_prefix "user=" s with
  | Some u => Resolved (JObj [("username", JStr u)])
  | None => Rejected (JsError "SyntaxError" "Unexpected token")
  end.

(** The characters that delimit the parts of a request line. *)
Definition delimiters : list ascii := ["&"; "="; "?"; "#"; " "]%char.

(** A repository whose full name has no owner part. *)
Definition soloRepository : Types.Repository :=
  {| Types.id := 8; Types.name := "solo"; Types.full_name := "solo";
     Types.description := ""; Types.stargazers_count := 0;
     Types.open_issues_count := 0; Types.language := "";
     Types.private := false; Types.topics := None; Types.owner := None |}.

(** * Properties *)

(** ** Classification engine *)

Lemma some_true_iff {A} (p : A -> bool) (l : list A) :
  JS.some p l = true <-> exists x, In x l /\ p x = true.
Proof. unfold JS.some. apply existsb_exists. Qed.

Lemma some_false_all {A} (p : A -> bool) (l : list A) :
  JS.some p l = false -> forall x, In x l -> p x = false.
Proof.
  intros Hs x Hin. destruct (p x) eqn:Hp; [|reflexivity].
  assert (JS.some p l = true) by (apply some_true_iff; eauto).
  congruence.
Qed.

(** A label that contains a given allowlist member passes the allowlist test. *)
Lemma allowlisted_label (l bl : string) :
  In bl beginnerLabels -> JS.includes l bl = true ->
  JS.some (fun bl => JS.includes l bl) beginnerLabels = true.
Proof. intros Hin Hinc. apply some_true_iff. exists bl. auto. Qed.

Lemma mapsToBeginnerCategory_allowlisted (l : string) :
  mapsToBeginnerCategory l = true ->
  JS.some (fun bl => JS.includes l bl) beginnerLabels = true.
Proof.
  unfold mapsToBeginnerCategory. intros H.
  repeat (apply orb_true_iff in H; destruct H as [H | H]);
    (eapply allowlisted_label; [| exact H]); simpl; tauto.
Qed.

Lemma hasBeginnerLabel_of_mapped (labels : list string) :
  JS.some mapsToBeginnerCategory labels = true -> hasBeginnerLabel labels = true.
Proof.
  intros H. apply some_true_iff in H. destruct H as (l & Hin & Hl).
  apply some_true_iff. exists l. split; [exact Hin|].
  now apply mapsToBeginnerCategory_allowlisted.
Qed.

(** C1, as amended: an issue with a label whose lowercase name contains one
    of the allowlist members the beginner branch maps to a category
    ([good first issue], [good-first-issue], [documentation], [docs],
    [beginner], [easy], [help wanted], [up-for-grabs]) and with a bug-signal
    label is given one of the four beginner categories, never [bug]. *)
Theorem categorizeIssue_beginner_over_bug (issue : GitHubIssue) :
  JS.some mapsToBeginnerCategory (lowerLabels issue) = true ->
  JS.some isBugLabel (lowerLabels issue) = true ->
  In (categorizeIssue issue) beginnerCategories /\ categorizeIssue issue <> "bug".
Proof.
  intros Hmapped _.
  assert (Hin : In (categorizeIssue issue) beginnerCategories).
  { unfold categorizeIssue.
    rewrite (hasBeginnerLabel_of_mapped _ Hmapped).
    set (labels := lowerLabels issue) in *.
    destruct (JS.some (fun l => JS.includes l "good first issue"
                                || JS.includes l "good-first-issue") labels) eqn:E1;
      [simpl; tauto|].
    destruct (JS.some (fun l => JS.includes l "documentation"
                                || JS.includes l "docs") labels) eqn:E2;
      [simpl; tauto|].
    destruct (JS.some (fun l => JS.includes l "beginner"
                                || JS.includes l "easy") labels) eqn:E3;
      [simpl; tauto|].
    destruct (JS.some (fun l => JS.includes l "help wanted"
                                || JS.includes l "up-for-grabs") labels) eqn:E4;
      [simpl; tauto|].
    exfalso.
    apply some_true_iff in Hmapped. destruct Hmapped as (l & Hl & Hm).
    pose proof (some_false_all _ _ E1 l Hl) as F1.
    pose proof (some_false_all _ _ E2 l Hl) as F2.
    pose proof (some_false_all _ _ E3 l Hl) as F3.
    pose proof (some_false_all _ _ E4 l Hl) as F4.
    simpl in F1, F2, F3, F4.
    apply orb_false_iff in F1, F2, F3, F4.
    destruct F1 as [A1 B1], F2 as [A2 B2], F3 as [A3 B3], F4 as [A4 B4].
    unfold mapsToBeginnerCategory in Hm.
    rewrite A1, B1, A2, B2, A3, B3, A4, B4 in Hm. discriminate. }
  split; [exact Hin|].
  intros Hbug. rewrite Hbug in Hin. simpl in Hin.
  repeat (destruct Hin as [Hin | Hin]; [discriminate|]). exact Hin.
Qed.

Lemma categorizeIssue_beginner_over_bug_witness :
  let issue := mkIssue "Crash on startup" ["easy-fix"; "bug"] in
  In (categorizeIssue issue) beginnerCategories /\ categorizeIssue issue <> "bug".
Proof.
  apply (categorizeIssue_beginner_over_bug
           (mkIssue "Crash on startup" ["easy-fix"; "bug"])); reflexivity.
Defined.

(** C1, as stated, fails: [starter] is on the allowlist, yet an issue
    labelled [starter] and [bug] leaves the beginner branch without a
    category and is classified [bug]. *)
Lemma categorizeIssue_starter_bug :
  let issue := mkIssue "Crash on startup" ["starter"; "bug"] in
  hasBeginnerLabel (lowerLabels issue) = true
  /\ JS.some isBugLabel (lowerLabels issue) = true
  /\ categorizeIssue issue = "bug"
  /\ ~ In (categorizeIssue issue) beginnerCategories.
Proof.
  cbv zeta. repeat split; try (vm_compute; reflexivity).
  vm_compute. intros H.
  repeat (destruct H as [H | H]; [discriminate|]). exact H.
Qed.

(** C8: the issue labelled [good first issue] and [bug] and titled
    "Fix crash on startup" is categorised [good-first-issue], with priority
    [low] and difficulty [beginner]. *)
Theorem scenario_good_first_issue_with_bug :
  let issue := mkIssue "Fix crash on startup" ["good first issue"; "bug"] in
  categorizeIssue issue = "good-first-issue"
  /\ getPriorityFromIssue issue = low
  /\ getDifficultyFromIssue issue = beginner.
Proof. cbv zeta. repeat split; vm_compute; reflexivity. Qed.

(** C10: an issue with a label whose lowercase name contains [enhancement]
    or [feature] has priority [low], whatever its other labels are (so also
    next to a [critical], [urgent] or [high] label): both words are on the
    allowlist, which is tested before the urgency labels. *)
Theorem getPriorityFromIssue_enhancement_feature_low (issue : GitHubIssue) :
  JS.some (fun l => JS.includes l "enhancement" || JS.includes l "feature")
          (lowerLabels issue) = true ->
  getPriorityFromIssue issue = low.
Proof.
  intros H. unfold getPriorityFromIssue.
  assert (Hb : hasBeginnerLabel (lowerLabels issue) = true).
  { apply some_true_iff in H. destruct H as (l & Hin & Hl).
    apply some_true_iff. exists l. split; [exact Hin|].
    apply orb_true_iff in Hl. destruct Hl as [Hl | Hl];
      (eapply allowlisted_label; [| exact Hl]); simpl; tauto. }
  rewrite Hb. reflexivity.
Qed.

Lemma getPriorityFromIssue_enhancement_feature_low_witness :
  let issue := mkIssue "Data loss on save" ["Feature request"; "critical"] in
  JS.some (fun l => JS.includes l "critical" || JS.includes l "urgent"
                    || JS.includes l "high") (lowerLabels issue) = true
  /\ getPriorityFromIssue issue = low.
Proof.
  split; [reflexivity|].
  apply (getPriorityFromIssue_enhancement_feature_low
           (mkIssue "Data loss on save" ["Feature request"; "critical"])).
  reflexivity.
Defined.

(** ** Retrieval client *)

(** C3, as amended: a non-success response always makes [makeRequest]
    reject; the error's message is the platform's message when the body
    parses as JSON with a truthy [message] (a non-empty string is given as it
    is), it is "Unknown error" when the body does not parse as JSON, and it
    is "HTTP <status>" when the body parses as JSON, other than [null], whose
    [message] is absent or falsy. *)
Theorem makeRequest_error_message {T} (token : option string)
    (fetch : Request -> Response T) (endpoint : string)
    (status : Z) (body : option json) :
  fetch (requestFor token endpoint) = HttpError status body ->
  exists e, makeRequest token fetch endpoint = Rejected e
    /\ (body = None -> e = JsError "Error" "Unknown error")
    /\ (forall j v, body = Some j -> get_message j = Resolved (Some v) ->
          js_truthy (Some v) = true -> e = JsError "Error" (js_String v))
    /\ (forall fields m, body = Some (JObj fields) ->
          json_field "message" fields = Some (JStr m) -> m <> "" ->
          e = JsError "Error" m)
    /\ (forall j m, body = Some j -> get_message j = Resolved m ->
          js_truthy m = false ->
          e = JsError "Error" ("HTTP " ++ JS.string_of_Z status)).
Proof.
  intros Hfetch. unfold makeRequest. rewrite Hfetch.
  destruct body as [j|].
  - destruct (get_message j) as [m|e0] eqn:Hm; simpl.
    + eexists. split; [reflexivity|].
      split; [discriminate|]. split; [|split].
      * intros j' v [= <-] Hv Ht. rewrite Hm in Hv. injection Hv as ->.
        change (js_truthy (Some v) = true) in Ht. now rewrite Ht.
      * intros fields s [= ->] Hf Hs. simpl in Hm. rewrite Hf in Hm.
        injection Hm as <-. simpl.
        destruct (String.eqb_spec s ""); [contradiction|reflexivity].
      * intros j' m' [= <-] Hm' Ht. rewrite Hm in Hm'. injection Hm' as ->.
        now rewrite Ht.
    + eexists. split; [reflexivity|].
      split; [discriminate|]. split; [|split].
      * intros j' v [= <-] Hv. rewrite Hm in Hv. discriminate.
      * intros fields s [= ->]. discriminate.
      * intros j' m' [= <-] Hm'. rewrite Hm in Hm'. discriminate.
  - simpl. eexists. split; [reflexivity|].
    split; [reflexivity|]. repeat split; intros; discriminate.
Qed.

Lemma makeRequest_error_message_witness :
  exists e,
    makeRequest (T := unit) (Some "t0ken")
      (fun _ => HttpError 404 (Some (JObj [("message", JStr "Not Found")]))) "/user"
    = Rejected e
    /\ e = JsError "Error" "Not Found".
Proof.
  destruct (makeRequest_error_message (T := unit) (Some "t0ken")
              (fun _ => HttpError 404 (Some (JObj [("message", JStr "Not Found")])))
              "/user" 404 (Some (JObj [("message", JStr "Not Found")])) eq_refl)
    as (e & He & _ & _ & Hmsg & _).
  exists e. split; [exact He|].
  apply (Hmsg [("message", JStr "Not Found")] "Not Found");
    [reflexivity | reflexivity | discriminate].
Defined.

(** C3, as stated, fails: a non-success response whose body is not JSON
    gives the message "Unknown error", not "HTTP 502". *)
Lemma makeRequest_unparseable_body :
  makeRequest (T := unit) None (fun _ => HttpError 502 None) "/user"
  = Rejected (JsError "Error" "Unknown error")
  /\ makeRequest (T := unit) None (fun _ => HttpError 502 None) "/user"
     <> Rejected (JsError "Error" ("HTTP " ++ JS.string_of_Z 502)).
Proof. split; [reflexivity|]. vm_compute. discriminate. Qed.

(** ** Two-stage discovery strategy *)

(** The handler's call [this.searchBeginnerIssues(language, label, 'updated')]
    is the single-stage search: without a secondary key the hybrid test fails. *)
Lemma fallback_call Date_getTime now token platform language label :
  searchBeginnerIssues Date_getTime now token platform language label
    IssueSort.updated None
  = searchIssuesSingleStage Date_getTime token platform language label
      IssueSort.updated None.
Proof. reflexivity. Qed.

(** A failure of the candidate-repository request is caught and answered by
    the single-stage search. *)
Lemma two_stage_fallback_stage_A Date_getTime now token platform language label e :
  makeRequest token (fetch_repositories platform) (repoSearchEndpoint language)
    = Rejected e ->
  searchRecentIssuesFromStarredRepos Date_getTime now token platform language label
  = searchBeginnerIssues Date_getTime now token platform language label
      IssueSort.updated None.
Proof.
  intros HA. unfold searchRecentIssuesFromStarredRepos. rewrite HA. reflexivity.
Qed.

(** C2, as amended: when the candidate-repository search returns zero
    repositories, the scoped issue search is still sent, with the empty
    repository group; if that request fails, the strategy's result is the
    result of the single-stage search with the same language and label and
    sort key [updated]. *)
Theorem two_stage_empty_candidates_fallback
    Date_getTime now token platform language label e :
  makeRequest token (fetch_repositories platform) (repoSearchEndpoint language)
    = Resolved {| items := [] |} ->
  makeRequest token (fetch_issues platform) (scopedIssueEndpoint label [])
    = Rejected e ->
  searchRecentIssuesFromStarredRepos Date_getTime now token platform language label
  = searchBeginnerIssues Date_getTime now token platform language label
      IssueSort.updated None.
Proof.
  intros HA HB. unfold searchRecentIssuesFromStarredRepos.
  rewrite HA. simpl. rewrite HB. reflexivity.
Qed.

Lemma two_stage_empty_candidates_fallback_witness :
  let platform :=
    noCandidatesPlatform
      (HttpError 422 (Some (JObj [("message", JStr "Validation Failed")]))) in
  searchRecentIssuesFromStarredRepos Iso8601.getTime 1704067200000 None platform
    (Some "Go") (Some "help wanted")
  = searchBeginnerIssues Iso8601.getTime 1704067200000 None platform
      (Some "Go") (Some "help wanted") IssueSort.updated None.
Proof.
  apply (two_stage_empty_candidates_fallback Iso8601.getTime 1704067200000 None
           (noCandidatesPlatform
              (HttpError 422 (Some (JObj [("message", JStr "Validation Failed")]))))
           (Some "Go") (Some "help wanted")
           (JsError "Error" "Validation Failed")); reflexivity.
Defined.

(** C2, as stated, fails: the repository search returns zero repositories,
    the platform answers the scoped query with an empty list, and the
    strategy returns that empty list, while the single-stage search returns
    one issue. *)
Lemma two_stage_empty_candidates_no_fallback :
  let platform := noCandidatesPlatform (HttpOk (Resolved {| items := [] |})) in
  makeRequest None (fetch_repositories platform) (repoSearchEndpoint (Some "Go"))
    = Resolved {| items := [] |}
  /\ searchRecentIssuesFromStarredRepos Iso8601.getTime 1704067200000 None platform
       (Some "Go") (Some "help wanted")
     = Resolved {| items := [] |}
  /\ searchBeginnerIssues Iso8601.getTime 1704067200000 None platform
       (Some "Go") (Some "help wanted") IssueSort.updated None
     = Resolved {| items := [sampleIssue] |}
  /\ searchRecentIssuesFromStarredRepos Iso8601.getTime 1704067200000 None platform
       (Some "Go") (Some "help wanted")
     <> searchBeginnerIssues Iso8601.getTime 1704067200000 None platform
          (Some "Go") (Some "help wanted") IssueSort.updated None.
Proof.
  cbv zeta.
  assert (H1 : searchRecentIssuesFromStarredRepos Iso8601.getTime 1704067200000 None
                 (noCandidatesPlatform (HttpOk (Resolved {| items := [] |})))
                 (Some "Go") (Some "help wanted") = Resolved {| items := [] |})
    by reflexivity.
  assert (H2 : searchBeginnerIssues Iso8601.getTime 1704067200000 None
                 (noCandidatesPlatform (HttpOk (Resolved {| items := [] |})))
                 (Some "Go") (Some "help wanted") IssueSort.updated None
               = Resolved {| items := [sampleIssue] |})
    by reflexivity.
  split; [reflexivity|]. split; [exact H1|]. split; [exact H2|].
  rewrite H1, H2. discriminate.
Qed.

(** ** Scoring *)

(** The score of an issue whose [updated_at] is a date. *)
Lemma calculateHybridScore_valid (Date_getTime : string -> option Z)
    (now : Z) (issue : GitHubIssue) (repoStars updated : Z) :
  Date_getTime (updated_at issue) = Some updated ->
  calculateHybridScore Date_getTime now issue repoStars
  = Some (0.6 * Rmax 0 (100 - daysSince now updated)
          + 0.4 * (log10 (Rmax 1 (IZR repoStars)) * 10))%R.
Proof.
  intros E. unfold calculateHybridScore, daysSince. rewrite E.
  f_equal.
  replace (1000 * 60 * 60 * 24)%R with 86400000%R by lra.
  ring.
Qed.

(** C4: the hybrid score is
    [0.6 * max(0, 100 - daysSinceUpdate) + 0.4 * (log10(max(1, repoStars)) * 10)]
    with [daysSinceUpdate] the fractional number of days between now and the
    issue's [updated_at] (and [NaN] when that is no date); the recency
    contribution is never negative. *)
Theorem calculateHybridScore_formula (Date_getTime : string -> option Z)
    (now : Z) (issue : GitHubIssue) (repoStars : Z) :
  calculateHybridScore Date_getTime now issue repoStars
  = option_map
      (fun updated =>
         0.6 * Rmax 0 (100 - daysSince now updated)
         + 0.4 * (log10 (Rmax 1 (IZR repoStars)) * 10))%R
      (Date_getTime (updated_at issue))
  /\ forall updated, (0 <= 0.6 * Rmax 0 (100 - daysSince now updated))%R.
Proof.
  split.
  - destruct (Date_getTime (updated_at issue)) as [updated|] eqn:E; simpl.
    + now apply calculateHybridScore_valid.
    + unfold calculateHybridScore. now rewrite E.
  - intros updated.
    pose proof (Rmax_l 0 (100 - daysSince now updated)). lra.
Qed.

(** The score grows with the time value of [updated_at]. *)
Lemma recency_monotone (now ta tb : Z) :
  (tb <= ta)%Z ->
  (Rmax 0 (100 - daysSince now tb) <= Rmax 0 (100 - daysSince now ta))%R.
Proof.
  intros Hle. unfold daysSince.
  assert (H : (IZR (now - ta) <= IZR (now - tb))%R) by (apply IZR_le; lia).
  apply Rle_max_compat_l. lra.
Qed.

(** C5: of two issues scored at the same instant with the same [repoStars],
    the one whose [updated_at] is more recent (or equal) has a score greater
    than or equal to the other's. *)
Theorem calculateHybridScore_monotone (Date_getTime : string -> option Z)
    (now : Z) (a b : GitHubIssue) (repoStars ta tb : Z) :
  Date_getTime (updated_at a) = Some ta ->
  Date_getTime (updated_at b) = Some tb ->
  (tb <= ta)%Z ->
  exists sa sb,
    calculateHybridScore Date_getTime now a repoStars = Some sa
    /\ calculateHybridScore Date_getTime now b repoStars = Some sb
    /\ (sb <= sa)%R.
Proof.
  intros Ha Hb Hle.
  eexists. eexists.
  split; [exact (calculateHybridScore_valid Date_getTime now a repoStars ta Ha)|].
  split; [exact (calculateHybridScore_valid Date_getTime now b repoStars tb Hb)|].
  pose proof (recency_monotone now ta tb Hle). lra.
Qed.

Lemma calculateHybridScore_monotone_witness :
  exists sa sb,
    calculateHybridScore Iso8601.getTime 1704672000000
      (mkIssueAt "Newer" ["help wanted"] "2024-01-05T08:30:00Z") 1200 = Some sa
    /\ calculateHybridScore Iso8601.getTime 1704672000000
         (mkIssueAt "Older" ["help wanted"] "2023-06-01T00:00:00Z") 1200 = Some sb
    /\ (sb <= sa)%R.
Proof.
  apply (calculateHybridScore_monotone Iso8601.getTime 1704672000000
           (mkIssueAt "Newer" ["help wanted"] "2024-01-05T08:30:00Z")
           (mkIssueAt "Older" ["help wanted"] "2023-06-01T00:00:00Z")
           1200 1704443400000 1685577600000);
    [vm_compute; reflexivity | vm_compute; reflexivity | lia].
Defined.

(** ** Aggregation engine *)

Lemma concat_batchLoop {A} (repositories : list A) (fuel i : nat) :
  (List.length repositories - i <= fuel)%nat ->
  concat (batchLoop fuel i repositories) = skipn i repositories.
Proof.
  revert i. induction fuel as [|fuel IH]; intros i Hfuel; simpl.
  - symmetry. apply skipn_all2. lia.
  - destruct (Nat.ltb_spec i (List.length repositories)) as [Hlt|Hge].
    + simpl. rewrite IH by (unfold batchSize; lia).
      unfold slice.
      replace (i + batchSize - i)%nat with batchSize by lia.
      rewrite Nat.add_comm, <- skipn_skipn.
      apply firstn_skipn.
    + symmetry. apply skipn_all2. lia.
Qed.

(** The batches, put end to end, are the repositories in their order. *)
Lemma concat_makeBatches {A} (repositories : list A) :
  concat (makeBatches repositories) = repositories.
Proof.
  unfold makeBatches. rewrite concat_batchLoop by lia. reflexivity.
Qed.

Lemma Promise_all_resolved {A B} (f : A -> result B) (g : A -> B) (l : list A) :
  (forall x, f x = Resolved (g x)) ->
  Promise_all (map f l) = Resolved (map g l).
Proof.
  intros Hf. induction l as [|x l IH]; simpl; [reflexivity|].
  rewrite Hf, IH. reflexivity.
Qed.

Section AggregationFacts.

Variable token : option string.
Variable platform : Platform.
Variable toLocaleDateString : string -> string.
Variable now : Z.

Let fetchRepo := fetchRepoIssues token platform toLocaleDateString.
Let contrib := contribution token platform toLocaleDateString.
Let succeeds := fetchSucceeds token platform.

(** The per-repository function never rejects. *)
Lemma fetchRepoIssues_resolves (repo : Types.Repository) :
  fetchRepo repo = Resolved (contrib repo).
Proof.
  unfold fetchRepo, contrib, fetchRepoIssues, contribution, repoFetch.
  destruct (getRepositoryIssues token platform _ _); reflexivity.
Qed.

Lemma contribution_of_failure (repo : Types.Repository) :
  succeeds repo = false -> contrib repo = [].
Proof.
  unfold succeeds, contrib, fetchSucceeds, contribution.
  destruct (repoFetch token platform repo); [discriminate|reflexivity].
Qed.

Lemma runBatches_resolves (batches : list (list Types.Repository))
    (allIssuesData : list Types.Issue) :
  runBatches token platform toLocaleDateString batches allIssuesData
  = Resolved (List.app allIssuesData (flat_map contrib (concat batches))).
Proof.
  revert allIssuesData.
  induction batches as [|batch rest IH]; intros acc; simpl.
  - now rewrite app_nil_r.
  - rewrite (Promise_all_resolved _ contrib) by apply fetchRepoIssues_resolves.
    simpl. rewrite IH, flat_map_app, <- app_assoc.
    now rewrite (flat_map_concat_map contrib batch).
Qed.

Lemma flat_map_successful (repositories : list Types.Repository) :
  flat_map contrib (filter succeeds repositories) = flat_map contrib repositories.
Proof.
  induction repositories as [|repo rest IH]; simpl; [reflexivity|].
  destruct (succeeds repo) eqn:E; simpl.
  - now rewrite IH.
  - now rewrite (contribution_of_failure repo E), IH.
Qed.

Lemma aggregate_resolves (repositories : list Types.Repository)
    (issueTypes : list string) :
  aggregate token platform toLocaleDateString repositories issueTypes
  = Resolved (filter (wanted issueTypes)
                (flat_map contrib (filter succeeds repositories))).
Proof.
  unfold aggregate. rewrite runBatches_resolves. simpl.
  now rewrite concat_makeBatches, flat_map_successful.
Qed.

(** A fetch the platform answers with a payload resolves to that payload. *)
Lemma makeRequest_answered {T} (fetch : Request -> Response T)
    (endpoint : string) (payload : T) :
  fetch (requestFor token endpoint) = HttpOk (Resolved payload) ->
  makeRequest token fetch endpoint = Resolved payload.
Proof.
  intros Hfetch. unfold makeRequest. now rewrite Hfetch.
Qed.

(** Any other answer, and no answer at all, makes the fetch reject. *)
Lemma makeRequest_unanswered {T} (fetch : Request -> Response T)
    (endpoint : string) :
  (forall payload, fetch (requestFor token endpoint) <> HttpOk (Resolved payload)) ->
  exists e, makeRequest token fetch endpoint = Rejected e.
Proof.
  intros Hfetch. unfold makeRequest.
  destruct (fetch (requestFor token endpoint)) as [e|[payload|e]|status body].
  - now exists e.
  - now destruct (Hfetch payload).
  - now exists e.
  - destruct (get_message _) as [m|e]; simpl; eauto.
Qed.

Lemma flat_map_agree {A B} (f g : A -> list B) (l : list A) :
  (forall x, In x l -> f x = g x) -> flat_map f l = flat_map g l.
Proof.
  intros Hfg. rewrite !flat_map_concat_map.
  f_equal. now apply map_ext_in.
Qed.

Lemma flat_map_nonempty {A B} (f : A -> list B) (keep : A -> bool) (l : list A) :
  (forall x, keep x = false -> f x = []) ->
  flat_map f (filter keep l) = flat_map f l.
Proof.
  intros Hf. induction l as [|x l IH]; simpl; [reflexivity|].
  destruct (keep x) eqn:E; simpl; [now rewrite IH|].
  now rewrite (Hf x E), IH.
Qed.

Lemma Promise_all_resolved_in {A B} (f : A -> result B) (g : A -> B) (l : list A) :
  (forall x, In x l -> f x = Resolved (g x)) ->
  Promise_all (map f l) = Resolved (map g l).
Proof.
  intros Hf. induction l as [|x l IH]; simpl; [reflexivity|].
  rewrite (Hf x (or_introl eq_refl)), IH; [reflexivity|].
  intros y Hy. apply Hf. now right.
Qed.

(** C6: the platform's answer to the fetch made for each monitored
    repository is given by [answer]: a list of issues, or [None] when the
    fetch fails (the platform is unreachable, answers an error status, or a
    body that does not parse).  Then any repository whose fetch fails
    resolves to the empty list, the promises of every batch resolve together
    whatever failures the batch holds, and the run over the non-empty set of
    repositories does not throw: it stores, with the refresh time, exactly
    the issues of the repositories whose fetch succeeded, in their order,
    each the first 20 of the platform's payload, built field by field from
    the platform's issue and the three classification functions, and kept
    when its category is one the user selected. *)
Theorem fetchAllIssues_tolerates_failures (userData : Types.UserData)
    (st : DashboardState) (repo : Types.Repository) (rest : list Types.Repository)
    (answer : Types.Repository -> option (list GitHubIssue)) :
  let request := fun r : Types.Repository =>
    let parts := JS.split "/" (Types.full_name r) in
    requestFor token
      ("/repos/" ++ JS.nth_interp 0 parts ++ "/" ++ JS.nth_interp 1 parts
       ++ "/issues?state=open&sort=updated&per_page=100") in
  let classified := fun (r : Types.Repository) (issue : GitHubIssue) =>
    {| Types.issue_id := id issue;
       Types.title := title issue;
       Types.type := categorizeIssue issue;
       Types.priority := getPriorityFromIssue issue;
       Types.difficulty := Some (getDifficultyFromIssue issue);
       Types.status := state issue;
       Types.createdAt := toLocaleDateString (created_at issue);
       Types.repository := Types.name r;
       Types.repositoryFullName := Some (Types.full_name r);
       Types.url := Some (html_url issue);
       Types.author := Some (login (user issue));
       Types.labels := Some (map name (labels issue));
       Types.comments := Some (comments issue);
       Types.assignee := Some (assignee issue) |} in
  let issuesOf := fun r : Types.Repository =>
    match answer r with
    | Some githubIssues => map (classified r) (firstn 20 githubIssues)
    | None => []
    end in
  let succeeded := fun r : Types.Repository =>
    match answer r with Some _ => true | None => false end in
  Types.repositories userData = Some (repo :: rest) ->
  (forall r, In r (repo :: rest) ->
     match answer r with
     | Some githubIssues =>
         fetch_repo_issues platform (request r) = HttpOk (Resolved githubIssues)
     | None =>
         forall githubIssues,
           fetch_repo_issues platform (request r) <> HttpOk (Resolved githubIssues)
     end) ->
  (forall r,
     (forall githubIssues,
        fetch_repo_issues platform (request r) <> HttpOk (Resolved githubIssues)) ->
     fetchRepo r = Resolved [])
  /\ (forall batch, incl batch (repo :: rest) ->
        Promise_all (map fetchRepo batch) = Resolved (map issuesOf batch))
  /\ fetchAllIssues token platform toLocaleDateString now userData st
     = {| allIssues :=
            filter (fun issue =>
                      existsb (String.eqb (Types.type issue))
                              (Types.issueTypes userData))
              (flat_map issuesOf (filter succeeded (repo :: rest)));
          loading := false;
          lastRefresh := now |}.
Proof.
  intros request classified issuesOf succeeded Hrepos Hanswer.
  assert (Hfetch : forall r,
            repoFetch token platform r
            = makeRequest token (fetch_repo_issues platform)
                ("/repos/"
                 ++ JS.nth_interp 0 (JS.split "/" (Types.full_name r))
                 ++ "/"
                 ++ JS.nth_interp 1 (JS.split "/" (Types.full_name r))
                 ++ "/issues?state=open&sort=updated&per_page=100"))
    by reflexivity.
  assert (Hcontrib : forall r, In r (repo :: rest) -> contrib r = issuesOf r).
  { intros r Hr. specialize (Hanswer r Hr).
    unfold contrib, contribution, issuesOf. rewrite Hfetch.
    destruct (answer r) as [githubIssues|].
    - now rewrite (makeRequest_answered _ _ githubIssues Hanswer).
    - destruct (makeRequest_unanswered _ _ Hanswer) as [e He].
      now rewrite He. }
  assert (Hnone : forall r, succeeded r = false -> issuesOf r = []).
  { intros r. unfold succeeded, issuesOf.
    now destruct (answer r). }
  split; [|split].
  - intros r Hfailed. rewrite fetchRepoIssues_resolves.
    unfold contrib, contribution. rewrite Hfetch.
    destruct (makeRequest_unanswered _ _ Hfailed) as [e He].
    now rewrite He.
  - intros batch Hbatch. apply Promise_all_resolved_in.
    intros r Hr. rewrite fetchRepoIssues_resolves.
    now rewrite (Hcontrib r (Hbatch r Hr)).
  - unfold fetchAllIssues. rewrite Hrepos, aggregate_resolves.
    rewrite flat_map_successful, (flat_map_nonempty issuesOf succeeded _ Hnone).
    now rewrite (flat_map_agree contrib issuesOf _ Hcontrib).
Qed.

End AggregationFacts.

(** The scenario of five repositories of which the third fails: the third
    resolves to the empty list, its batch resolves with the issues of the
    two repositories beside it, and the stored issues are the four issues of
    the selected categories, one of each of the other four repositories. *)
Lemma fetchAllIssues_tolerates_failures_witness :
  fetchRepoIssues None flakyPlatform (fun s => s) (mkRepository "ghost" "deleted")
  = Resolved []
  /\ Promise_all
       (map (fetchRepoIssues None flakyPlatform (fun s => s))
          [ mkRepository "octo" "alpha"; mkRepository "octo" "beta";
            mkRepository "ghost" "deleted" ])
     = Resolved [ [ startupCrash "alpha"; configQuestion "alpha" ];
                  [ startupCrash "beta"; configQuestion "beta" ];
                  [] ]
  /\ fetchAllIssues None flakyPlatform (fun s => s) 1704067200000
       fiveReposUser emptyDashboard
     = {| allIssues := [ startupCrash "alpha"; startupCrash "beta";
                         startupCrash "delta"; startupCrash "epsilon" ];
          loading := false;
          lastRefresh := 1704067200000 |}.
Proof.
  assert (Hanswer : forall r, In r fiveRepositories ->
            match flakyAnswer r with
            | Some githubIssues =>
                fetch_repo_issues flakyPlatform
                  (requestFor None
                     ("/repos/" ++ JS.nth_interp 0 (JS.split "/" (Types.full_name r))
                      ++ "/" ++ JS.nth_interp 1 (JS.split "/" (Types.full_name r))
                      ++ "/issues?state=open&sort=updated&per_page=100"))
                = HttpOk (Resolved githubIssues)
            | None =>
                forall githubIssues,
                  fetch_repo_issues flakyPlatform
                    (requestFor None
                       ("/repos/" ++ JS.nth_interp 0 (JS.split "/" (Types.full_name r))
                        ++ "/" ++ JS.nth_interp 1 (JS.split "/" (Types.full_name r))
                        ++ "/issues?state=open&sort=updated&per_page=100"))
                  <> HttpOk (Resolved githubIssues)
            end).
  { intros r [<-|[<-|[<-|[<-|[<-|[]]]]]]; vm_compute;
      solve [reflexivity | intros githubIssues H; discriminate H]. }
  destruct (fetchAllIssues_tolerates_failures None flakyPlatform (fun s => s)
              1704067200000 fiveReposUser emptyDashboard
              (mkRepository "octo" "alpha")
              [ mkRepository "octo" "beta"; mkRepository "ghost" "deleted";
                mkRepository "octo" "delta"; mkRepository "octo" "epsilon" ]
              flakyAnswer eq_refl Hanswer) as [Hfailed [Hbatch Hrun]].
  split; [|split].
  - apply Hfailed. intros githubIssues H. vm_compute in H. discriminate H.
  - rewrite Hbatch; [reflexivity|].
    intros r [<-|[<-|[<-|[]]]]; simpl; tauto.
  - rewrite Hrun. reflexivity.
Defined.

(** ** Sort composition *)

Section SortFacts.

Context {A : Type}.

Lemma insert_perm (cmp : A -> A -> comparison) (x : A) (l : list A) :
  Permutation (x :: l) (JS.insert cmp x l).
Proof.
  induction l as [|y l IH]; simpl; [reflexivity|].
  destruct (cmp x y); try reflexivity.
  rewrite perm_swap. now apply perm_skip.
Qed.

(** [sort] rearranges the array. *)
Lemma sort_perm (cmp : A -> A -> comparison) (l : list A) :
  Permutation l (JS.sort cmp l).
Proof.
  induction l as [|x l IH]; simpl; [reflexivity|].
  rewrite <- insert_perm. now apply perm_skip.
Qed.

Lemma insert_ext (cmp cmp' : A -> A -> comparison) (x : A) (l : list A) :
  (forall y, In y l -> cmp x y = cmp' x y) ->
  JS.insert cmp x l = JS.insert cmp' x l.
Proof.
  induction l as [|y l IH]; intros H; simpl; [reflexivity|].
  rewrite <- (H y) by (left; reflexivity).
  destruct (cmp x y); try reflexivity.
  f_equal. apply IH. intros z Hz. apply H. now right.
Qed.

(** Only the comparator's values on the elements of the array matter. *)
Lemma sort_ext (cmp cmp' : A -> A -> comparison) (l : list A) :
  (forall x y, In x l -> In y l -> cmp x y = cmp' x y) ->
  JS.sort cmp l = JS.sort cmp' l.
Proof.
  induction l as [|x l IH]; intros H; simpl; [reflexivity|].
  rewrite <- IH by (intros; apply H; now right).
  apply insert_ext. intros y Hy. apply H; [now left|].
  right. eapply Permutation_in; [symmetry; apply sort_perm | exact Hy].
Qed.

Lemma insert_filter (cmp : A -> A -> comparison) (p : A -> bool) (x : A) (l : list A) :
  (forall a b, p a = true -> p b = true -> cmp a b <> Gt) ->
  filter p (JS.insert cmp x l) = filter p (x :: l).
Proof.
  intros Hp. induction l as [|y l IH]; simpl; [reflexivity|].
  destruct (cmp x y) eqn:E; try reflexivity.
  simpl. rewrite IH. simpl.
  destruct (p x) eqn:Px, (p y) eqn:Py; try reflexivity.
  now destruct (Hp x y Px Py).
Qed.

(** Stability: elements that the comparator never puts behind one another
    keep their relative order. *)
Lemma sort_stable (cmp : A -> A -> comparison) (p : A -> bool) (l : list A) :
  (forall a b, p a = true -> p b = true -> cmp a b <> Gt) ->
  filter p (JS.sort cmp l) = filter p l.
Proof.
  intros Hp. induction l as [|x l IH]; simpl; [reflexivity|].
  rewrite insert_filter by exact Hp. simpl. now rewrite IH.
Qed.

Variables k1 k2 : A -> Z.

Lemma lexDesc_not_Gt (x y : A) :
  lexDesc k1 k2 x y <> Gt <->
  (k1 y <= k1 x)%Z /\ (k1 x = k1 y -> (k2 y <= k2 x)%Z).
Proof.
  unfold lexDesc.
  destruct (Z.compare_spec (k1 y) (k1 x));
    [destruct (Z.compare_spec (k2 y) (k2 x))| |];
    (split;
     [ intros Hc; try (now contradiction Hc); split; intros; lia
     | intros Hk; try discriminate; intros _; lia ]).
Qed.

Lemma lexDesc_trans (x y z : A) :
  lexDesc k1 k2 x y <> Gt -> lexDesc k1 k2 y z <> Gt -> lexDesc k1 k2 x z <> Gt.
Proof. rewrite !lexDesc_not_Gt. lia. Qed.

Lemma lexDesc_total (x y : A) :
  lexDesc k1 k2 x y = Gt -> lexDesc k1 k2 y x <> Gt.
Proof.
  intros E. assert (Hn : ~ lexDesc k1 k2 x y <> Gt) by congruence.
  rewrite lexDesc_not_Gt in *. lia.
Qed.

Lemma insert_lexDesc_sorted (x : A) (l : list A) :
  StronglySorted (fun a b => lexDesc k1 k2 a b <> Gt) l ->
  StronglySorted (fun a b => lexDesc k1 k2 a b <> Gt) (JS.insert (lexDesc k1 k2) x l).
Proof.
  induction l as [|y l IH]; intros Hs; simpl.
  - constructor; constructor.
  - pose proof (StronglySorted_inv Hs) as [Hl Hy].
    destruct (lexDesc k1 k2 x y) eqn:E.
    + constructor; [exact Hs|]. constructor; [congruence|].
      eapply Forall_impl; [|exact Hy]. intros z Hz.
      apply (lexDesc_trans x y z); congruence.
    + constructor; [exact Hs|]. constructor; [congruence|].
      eapply Forall_impl; [|exact Hy]. intros z Hz.
      apply (lexDesc_trans x y z); congruence.
    + constructor; [now apply IH|].
      eapply Permutation_Forall; [apply insert_perm|].
      constructor; [now apply lexDesc_total | exact Hy].
Qed.

(** Sorting by the lexicographic comparator orders the array by it. *)
Lemma sort_lexDesc_sorted (l : list A) :
  StronglySorted (fun a b => lexDesc k1 k2 a b <> Gt) (JS.sort (lexDesc k1 k2) l).
Proof.
  induction l as [|x l IH]; simpl; [constructor|].
  now apply insert_lexDesc_sorted.
Qed.

End SortFacts.

Lemma StronglySorted_impl {A} (R S : A -> A -> Prop) (l : list A) :
  (forall a b, R a b -> S a b) -> StronglySorted R l -> StronglySorted S l.
Proof.
  intros HRS Hs. induction Hs as [|x l Hl IH Hx]; constructor; [exact IH|].
  eapply Forall_impl; [|exact Hx]. intros b. apply HRS.
Qed.

(** Without a secondary key the issue comparator is the primary key's. *)
Lemma issueCompare_no_secondary Date_getTime primarySort a b :
  issueCompare Date_getTime primarySort None a b
  = issueKeyCompare Date_getTime primarySort a b.
Proof.
  unfold issueCompare.
  destruct (issueKeyCompare Date_getTime primarySort a b) as [[| |]|]; reflexivity.
Qed.

(** A primary key that tells two issues apart decides their order. *)
Lemma issueCompare_primary_decides Date_getTime primarySort secondarySort a b d :
  issueKeyCompare Date_getTime primarySort a b = Some d -> d <> 0%Z ->
  issueCompare Date_getTime primarySort secondarySort a b = Some d.
Proof.
  intros Hk Hd. unfold issueCompare. rewrite Hk.
  destruct d; [contradiction | reflexivity | reflexivity].
Qed.

(** Between issues with equal primary keys a different secondary key decides. *)
Lemma issueCompare_secondary_breaks_ties Date_getTime primarySort secondary a b :
  issueKeyCompare Date_getTime primarySort a b = Some 0%Z ->
  IssueSort.eqb secondary primarySort = false ->
  issueCompare Date_getTime primarySort (Some secondary) a b
  = issueKeyCompare Date_getTime secondary a b.
Proof.
  intros Hk Hne. unfold issueCompare. rewrite Hk, Hne. reflexivity.
Qed.

(** The single-stage issue search composes its keys: with primary [stars]
    and secondary [updated] the two issues with five reactions are ordered by
    [updated_at], and without a secondary key they keep the platform's order. *)
Lemma searchBeginnerIssues_composes_keys :
  searchBeginnerIssues Iso8601.getTime 1704672000000 None threeIssuesPlatform
    None None IssueSort.stars (Some IssueSort.updated)
  = Resolved {| items := [issueMid9; issueNew5; issueOld5] |}
  /\ searchBeginnerIssues Iso8601.getTime 1704672000000 None threeIssuesPlatform
       None None IssueSort.stars None
     = Resolved {| items := [issueMid9; issueOld5; issueNew5] |}.
Proof. split; vm_compute; reflexivity. Qed.

Lemma issueKeyCompare_valid Date_getTime k a b :
  validDates Date_getTime a -> validDates Date_getTime b ->
  issueKeyCompare Date_getTime k a b
  = Some (issueKeyValue Date_getTime k b - issueKeyValue Date_getTime k a)%Z.
Proof.
  intros [Ua Ca] [Ub Cb]. unfold issueKeyCompare, issueKeyValue.
  destruct k; try reflexivity.
  - destruct (Date_getTime (updated_at a)), (Date_getTime (updated_at b));
      try contradiction; reflexivity.
  - destruct (Date_getTime (created_at a)), (Date_getTime (created_at b));
      try contradiction; reflexivity.
Qed.

(** On issues with valid dates the comparator of [searchBeginnerIssues] is
    the lexicographic one: primary key descending, then the effective
    secondary key descending. *)
Lemma issueCompare_lexicographic Date_getTime primarySort secondarySort a b :
  validDates Date_getTime a -> validDates Date_getTime b ->
  JS.sign (issueCompare Date_getTime primarySort secondarySort a b)
  = lexDesc (issueKeyValue Date_getTime primarySort)
            (tieBreakValue Date_getTime primarySort secondarySort) a b.
Proof.
  intros Va Vb. unfold issueCompare, lexDesc, tieBreakValue, effectiveSecondary.
  rewrite (issueKeyCompare_valid Date_getTime primarySort a b Va Vb).
  rewrite (Z.compare_sub (issueKeyValue Date_getTime primarySort b)).
  destruct (issueKeyValue Date_getTime primarySort b
            - issueKeyValue Date_getTime primarySort a)%Z eqn:D; simpl;
    try reflexivity.
  destruct secondarySort as [k|]; [|reflexivity].
  destruct (IssueSort.eqb k primarySort); simpl; [reflexivity|].
  rewrite (issueKeyCompare_valid Date_getTime k a b Va Vb). simpl.
  now rewrite <- Z.compare_sub.
Qed.

(** The sibling path: the single-stage issue search, on issues with valid
    dates, returns the first 50 of a rearrangement of the platform's items
    that is ordered by the primary key, in which the effective secondary key
    orders the items with equal primary keys, and in which, without an
    effective secondary key, the items with equal primary keys keep the
    platform's order. *)
Lemma searchIssuesSingleStage_composes Date_getTime token platform
    language label primarySort secondarySort response :
  makeRequest token (fetch_issues platform)
    (issueSearchEndpoint language label primarySort) = Resolved response ->
  Forall (validDates Date_getTime) (items response) ->
  exists sorted,
    searchIssuesSingleStage Date_getTime token platform language label
      primarySort secondarySort
    = Resolved {| items := firstn 50 sorted |}
    /\ Permutation (items response) sorted
    /\ StronglySorted
         (fun x y => (issueKeyValue Date_getTime primarySort y
                      <= issueKeyValue Date_getTime primarySort x)%Z) sorted
    /\ (forall k, effectiveSecondary primarySort secondarySort = Some k ->
         StronglySorted
           (fun x y => issueKeyValue Date_getTime primarySort x
                       = issueKeyValue Date_getTime primarySort y ->
                       (issueKeyValue Date_getTime k y
                        <= issueKeyValue Date_getTime k x)%Z) sorted)
    /\ (effectiveSecondary primarySort secondarySort = None ->
         forall v,
           filter (fun x => (issueKeyValue Date_getTime primarySort x =? v)%Z) sorted
           = filter (fun x => (issueKeyValue Date_getTime primarySort x =? v)%Z)
                    (items response)).
Proof.
  intros Hreq Hvalid.
  set (cmp := fun a b => JS.sign (issueCompare Date_getTime primarySort secondarySort a b)).
  set (k1 := issueKeyValue Date_getTime primarySort).
  set (k2 := tieBreakValue Date_getTime primarySort secondarySort).
  assert (Hext : JS.sort cmp (items response) = JS.sort (lexDesc k1 k2) (items response)).
  { apply sort_ext. intros x y Hx Hy. rewrite Forall_forall in Hvalid.
    apply issueCompare_lexicographic; auto. }
  exists (JS.sort cmp (items response)).
  split; [|split; [|split; [|split]]].
  - unfold searchIssuesSingleStage. rewrite Hreq. unfold bind. fold cmp.
    destruct (Nat.ltb_spec 50 (List.length (JS.sort cmp (items response))));
      [reflexivity|].
    now rewrite firstn_all2.
  - apply sort_perm.
  - rewrite Hext.
    eapply StronglySorted_impl; [|apply sort_lexDesc_sorted].
    intros a b Hab. now apply lexDesc_not_Gt in Hab.
  - intros k Hk. rewrite Hext.
    eapply StronglySorted_impl; [|apply sort_lexDesc_sorted].
    intros a b Hab Heq. apply lexDesc_not_Gt in Hab.
    destruct Hab as [_ Hab]. specialize (Hab Heq).
    unfold k2, tieBreakValue in Hab. now rewrite Hk in Hab.
  - intros Hnone v. rewrite Hext. apply sort_stable.
    intros a b Ha Hb. apply lexDesc_not_Gt.
    apply Z.eqb_eq in Ha, Hb. fold k1 in Ha, Hb.
    unfold k2, tieBreakValue. rewrite Hnone. lia.
Qed.

(** Whatever the primary key, [searchRepositories] with a different
    secondary key returns the platform's items sorted by the secondary key
    alone. *)
Lemma searchRepositories_sorts_by_secondary Date_getTime token platform query
    primarySort secondary response :
  makeRequest token (fetch_repositories platform)
    ("/search/repositories?"
     ++ URL.toString [ ("q", query); ("sort", RepoSort.to_string primarySort);
                       ("order", "desc"); ("per_page", "50") ])
  = Resolved response ->
  RepoSort.eqb secondary primarySort = false ->
  searchRepositories Date_getTime token platform query primarySort (Some secondary)
  = Resolved {| items := JS.sort (fun a b => JS.sign (repoCompare Date_getTime secondary a b))
                                 (items response) |}.
Proof.
  intros Hreq Hne. unfold searchRepositories. rewrite Hreq. simpl.
  rewrite Hne. reflexivity.
Qed.

(** C7, at the failing input: the platform answers [popularRepo] (900 stars)
    before [recentRepo] (100 stars) to a search by [stars]; with secondary key
    [updated], [searchRepositories] returns [recentRepo] first, although the
    primary key tells the two apart and puts [popularRepo] first. *)
Theorem searchRepositories_secondary_overrides_primary :
  searchRepositories Iso8601.getTime None twoReposPlatform "topic:hacktoberfest"
    RepoSort.stars (Some RepoSort.updated)
  = Resolved {| items := [recentRepo; popularRepo] |}
  /\ JS.sign (repoCompare Iso8601.getTime RepoSort.stars popularRepo recentRepo) = Lt
  /\ (stargazers_count recentRepo < stargazers_count popularRepo)%Z.
Proof. repeat split; vm_compute; reflexivity. Qed.

(** ** Query builder *)

(** Outside the hybrid combination, [searchBeginnerIssues] is the
    single-stage search. *)
Lemma searchBeginnerIssues_single_stage Date_getTime now token platform
    language label primarySort secondarySort :
  (primarySort, secondarySort) <> (IssueSort.updated, Some IssueSort.stars) ->
  searchBeginnerIssues Date_getTime now token platform language label
    primarySort secondarySort
  = searchIssuesSingleStage Date_getTime token platform language label
      primarySort secondarySort.
Proof.
  intros Hne. unfold searchBeginnerIssues.
  destruct primarySort; try reflexivity.
  destruct secondarySort as [[| |]|]; try reflexivity.
  now contradiction Hne.
Qed.

(** C9: the query of the single-stage search for language [Go] and label
    [help wanted] is
    [is:issue is:open label:"help wanted" language:Go comments:>=1 comments:<=10];
    the label clause, the language clause and the quality filter each occur
    in it exactly once, and no clause is repeated. *)
Theorem issueQuery_go_help_wanted :
  let query := issueQuery (Some "Go") (Some "help wanted") in
  let labelClause := "label:" ++ JS.dquote ++ "help wanted" ++ JS.dquote in
  query = "is:issue is:open " ++ labelClause ++ " language:Go comments:>=1 comments:<=10"
  /\ count_occurrences labelClause query = 1%nat
  /\ count_occurrences "language:Go" query = 1%nat
  /\ count_occurrences "comments:>=1 comments:<=10" query = 1%nat
  /\ clauses query
     = [ "is:issue"; "is:open"; labelClause; "language:Go";
         "comments:>=1"; "comments:<=10" ]
  /\ NoDup (clauses query)
  /\ forall primarySort,
       issueSearchEndpoint (Some "Go") (Some "help wanted") primarySort
       = "/search/issues?"
         ++ URL.toString [ ("q", query);
                           ("sort", match primarySort with
                                    | IssueSort.stars => "reactions"
                                    | _ => IssueSort.to_string primarySort
                                    end);
                           ("order", "desc"); ("per_page", "100") ].
Proof.
  cbv zeta.
  split; [vm_compute; reflexivity|].
  split; [vm_compute; reflexivity|].
  split; [vm_compute; reflexivity|].
  split; [vm_compute; reflexivity|].
  split; [vm_compute; reflexivity|].
  split; [|reflexivity].
  replace (clauses (issueQuery (Some "Go") (Some "help wanted")))
    with [ "is:issue"; "is:open";
           "label:" ++ JS.dquote ++ "help wanted" ++ JS.dquote;
           "language:Go"; "comments:>=1"; "comments:<=10" ]
    by (vm_compute; reflexivity).
  repeat constructor; simpl; intuition discriminate.
Qed.

(** * Further properties of the code *)

(** ** [parseRepositoryUrl] *)

Lemma string_app_assoc (a b c : string) : (a ++ b) ++ c = a ++ (b ++ c).
Proof. induction a as [|x a IH]; simpl; congruence. Qed.

Lemma string_app_empty_r (a : string) : a ++ "" = a.
Proof. induction a as [|x a IH]; simpl; congruence. Qed.

Lemma prefix_cons (a b : ascii) (p s : string) :
  String.prefix (String a p) (String b s)
  = if Ascii.eqb a b then String.prefix p s else false.
Proof.
  simpl. destruct (ascii_dec a b) as [->|Hne].
  - now rewrite Ascii.eqb_refl.
  - destruct (Ascii.eqb_spec a b); [contradiction|reflexivity].
Qed.

Lemma prefix_app (p t : string) : String.prefix p (p ++ t) = true.
Proof.
  induction p as [|a p IH]; [now destruct t|].
  change (String a p ++ t) with (String a (p ++ t)).
  now rewrite prefix_cons, Ascii.eqb_refl.
Qed.

Lemma includes_cons (c : ascii) (s sub : string) :
  JS.includes (String c s) sub
  = if String.prefix sub (String c s) then true else JS.includes s sub.
Proof. reflexivity. Qed.

Lemma includes_prefix (s sub : string) :
  String.prefix sub s = true -> JS.includes s sub = true.
Proof.
  intros H. destruct s as [|c s].
  - destruct sub; [reflexivity | discriminate H].
  - now rewrite includes_cons, H.
Qed.

Lemma includes_app (pre sub post : string) :
  JS.includes (pre ++ sub ++ post) sub = true.
Proof.
  induction pre as [|c pre IH].
  - apply includes_prefix. exact (prefix_app sub post).
  - change (String c pre ++ sub ++ post) with (String c (pre ++ sub ++ post)).
    rewrite includes_cons, IH. now destruct (String.prefix _ _).
Qed.

Lemma prefix_empty (s : string) : String.prefix "" s = true.
Proof. now destruct s. Qed.

Lemma includes_char_cons (d c : ascii) (s : string) :
  JS.includes (String c s) (String d "") = false <->
  c <> d /\ JS.includes s (String d "") = false.
Proof.
  rewrite includes_cons, prefix_cons, prefix_empty.
  destruct (Ascii.eqb_spec d c) as [<-|Hne].
  - split; [discriminate | intros [H _]; now contradiction H].
  - split; [intros H; split; [congruence | exact H] | intros [_ H]; exact H].
Qed.

Lemma no_slash_cons (c : ascii) (s : string) :
  no_slash (String c s) <-> c <> "/"%char /\ no_slash s.
Proof. apply includes_char_cons. Qed.

Lemma span_segment_app (segment rest : string) :
  no_slash segment ->
  span_segment (segment ++ String "/" rest) = (segment, String "/" rest).
Proof.
  induction segment as [|c segment IH]; intros Hns; [reflexivity|].
  apply no_slash_cons in Hns. destruct Hns as [Hc Hns].
  simpl. destruct (Ascii.eqb_spec c "/"); [contradiction|].
  now rewrite (IH Hns).
Qed.

Lemma span_segment_all (segment : string) :
  no_slash segment -> span_segment segment = (segment, "").
Proof.
  induction segment as [|c segment IH]; intros Hns; [reflexivity|].
  apply no_slash_cons in Hns. destruct Hns as [Hc Hns].
  simpl. destruct (Ascii.eqb_spec c "/"); [contradiction|].
  now rewrite (IH Hns).
Qed.

(** What [span_segment] returns: a slash-free segment and a rest that is
    empty or starts with [/]. *)
Lemma span_segment_spec (s segment rest : string) :
  span_segment s = (segment, rest) ->
  s = segment ++ rest /\ no_slash segment
  /\ (rest = "" \/ exists rest', rest = String "/" rest').
Proof.
  revert segment rest. induction s as [|c s IH]; intros segment rest H; simpl in H.
  - injection H as <- <-. repeat split. now left.
  - destruct (Ascii.eqb_spec c "/") as [->|Hne].
    + injection H as <- <-. repeat split. right. now exists s.
    + destruct (span_segment s) as [seg r] eqn:E. injection H as <- <-.
      destruct (IH seg r eq_refl) as (Hs & Hns & Hr).
      split; [simpl; now rewrite <- Hs|]. split; [|exact Hr].
      apply no_slash_cons. now split.
Qed.

Lemma strip_prefix_app (p s : string) : strip_prefix p (p ++ s) = Some s.
Proof.
  induction p as [|a p IH]; [now destruct s|].
  simpl. now rewrite Ascii.eqb_refl.
Qed.

Lemma strip_prefix_spec (p s rest : string) :
  strip_prefix p s = Some rest -> s = p ++ rest.
Proof.
  revert s. induction p as [|a p IH]; intros s H.
  - destruct s; simpl in H; now injection H as <-.
  - destruct s as [|b s]; simpl in H; [discriminate|].
    destruct (Ascii.eqb_spec a b) as [<-|]; [|discriminate].
    simpl. f_equal. now apply IH.
Qed.

Lemma match_here_built (owner repo tail : string) :
  owner <> "" -> repo <> "" -> no_slash owner -> no_slash repo ->
  tail = "" \/ (exists t, tail = String "/" t) ->
  match_here ("github.com/" ++ owner ++ "/" ++ repo ++ tail)
  = Some {| Parsed.owner := owner; Parsed.repo := repo |}.
Proof.
  intros Ho Hr Hso Hsr Htail. unfold match_here.
  rewrite strip_prefix_app.
  change (owner ++ "/" ++ repo ++ tail) with (owner ++ String "/" (repo ++ tail)).
  rewrite (span_segment_app owner _ Hso).
  destruct (String.eqb_spec owner ""); [contradiction|].
  assert (Hrepo : span_segment (repo ++ tail) = (repo, tail)).
  { destruct Htail as [-> | [t ->]].
    - rewrite string_app_empty_r. now apply span_segment_all.
    - now apply span_segment_app. }
  rewrite Hrepo.
  destruct (String.eqb_spec repo ""); [contradiction|reflexivity].
Qed.

Lemma strip_prefix_cons (a b : ascii) (p s : string) :
  strip_prefix (String a p) (String b s)
  = if Ascii.eqb a b then strip_prefix p s else None.
Proof. reflexivity. Qed.

Lemma match_here_needs_g (c : ascii) (s : string) :
  c <> "g"%char -> match_here (String c s) = None.
Proof.
  intros Hc. unfold match_here.
  change "github.com/" with (String "g" "ithub.com/").
  rewrite strip_prefix_cons.
  destruct (Ascii.eqb_spec "g"%char c) as [<-|]; [now contradiction Hc|reflexivity].
Qed.

Lemma no_g_cons (c : ascii) (s : string) :
  JS.includes (String c s) "g" = false -> c <> "g"%char /\ JS.includes s "g" = false.
Proof. apply includes_char_cons. Qed.

Lemma parseRepositoryUrl_eq (url : string) :
  parseRepositoryUrl url
  = match match_here url with
    | Some parsed => Some parsed
    | None => match url with
              | EmptyString => None
              | String _ url' => parseRepositoryUrl url'
              end
    end.
Proof. now destruct url. Qed.

(** A copied repository address is parsed into its owner and name: whatever
    precedes [github.com/] (a scheme, [www.]; no letter g), and whatever path
    follows the name. *)
Theorem parseRepositoryUrl_round_trip (pre owner repo tail : string) :
  JS.includes pre "g" = false ->
  owner <> "" -> repo <> "" -> no_slash owner -> no_slash repo ->
  tail = "" \/ (exists t, tail = String "/" t) ->
  parseRepositoryUrl (pre ++ "github.com/" ++ owner ++ "/" ++ repo ++ tail)
  = Some {| Parsed.owner := owner; Parsed.repo := repo |}.
Proof.
  intros Hpre Ho Hr Hso Hsr Htail.
  induction pre as [|c pre IH].
  - change ("" ++ "github.com/" ++ owner ++ "/" ++ repo ++ tail)
      with ("github.com/" ++ owner ++ "/" ++ repo ++ tail).
    rewrite parseRepositoryUrl_eq.
    now rewrite (match_here_built owner repo tail Ho Hr Hso Hsr Htail).
  - apply no_g_cons in Hpre. destruct Hpre as [Hc Hpre].
    change (String c pre ++ "github.com/" ++ owner ++ "/" ++ repo ++ tail)
      with (String c (pre ++ "github.com/" ++ owner ++ "/" ++ repo ++ tail)).
    rewrite parseRepositoryUrl_eq, (match_here_needs_g c _ Hc).
    now apply IH.
Qed.

Lemma parseRepositoryUrl_round_trip_witness :
  parseRepositoryUrl ("https://www." ++ "github.com/" ++ "rust-lang" ++ "/"
                      ++ "rust.git" ++ "/issues/42")
  = Some {| Parsed.owner := "rust-lang"; Parsed.repo := "rust.git" |}.
Proof.
  apply (parseRepositoryUrl_round_trip "https://www." "rust-lang" "rust.git"
           "/issues/42");
    [reflexivity | discriminate | discriminate | reflexivity | reflexivity
    | right; now exists "issues/42"].
Defined.

Lemma match_here_sound (s : string) (parsed : Parsed.t) :
  match_here s = Some parsed ->
  repository_address s (Parsed.owner parsed) (Parsed.repo parsed).
Proof.
  unfold match_here. intros H.
  destruct (strip_prefix "github.com/" s) as [rest|] eqn:Hp; [|discriminate].
  apply strip_prefix_spec in Hp.
  destruct (span_segment rest) as [owner rest1] eqn:Ho.
  apply span_segment_spec in Ho. destruct Ho as (Hrest & Hso & _).
  destruct (String.eqb_spec owner ""); [discriminate|].
  destruct rest1 as [|c rest2]; [discriminate|].
  destruct (Ascii.eqb_spec c "/") as [->|Hc].
  2:{ destruct c as [[] [] [] [] [] [] [] []]; try discriminate H.
      now contradiction Hc. }
  destruct (span_segment rest2) as [repo tail] eqn:Hr.
  apply span_segment_spec in Hr. destruct Hr as (Hrest2 & Hsr & Htail).
  destruct (String.eqb_spec repo ""); [discriminate|].
  injection H as <-. simpl.
  repeat (split; [assumption|]).
  exists tail. split; [exact Htail|].
  now rewrite Hp, Hrest, Hrest2.
Qed.

Lemma includes_later (c : ascii) (s sub : string) :
  JS.includes s sub = true -> JS.includes (String c s) sub = true.
Proof.
  intros H. rewrite includes_cons, H. now destruct (String.prefix _ _).
Qed.

(** Whatever [parseRepositoryUrl] returns was read off the address: owner and
    name are non-empty, hold no [/], and [github.com/owner/name] occurs in the
    input. *)
Theorem parseRepositoryUrl_sound (url : string) (parsed : Parsed.t) :
  parseRepositoryUrl url = Some parsed ->
  Parsed.owner parsed <> "" /\ Parsed.repo parsed <> ""
  /\ no_slash (Parsed.owner parsed) /\ no_slash (Parsed.repo parsed)
  /\ JS.includes url ("github.com/" ++ Parsed.owner parsed ++ "/"
                      ++ Parsed.repo parsed) = true.
Proof.
  induction url as [|c url IH]; rewrite parseRepositoryUrl_eq.
  - discriminate.
  - destruct (match_here (String c url)) as [p|] eqn:Hm.
    + intros [= <-]. apply match_here_sound in Hm.
      destruct Hm as (Ho & Hr & Hso & Hsr & tail & _ & Hs).
      repeat (split; [assumption|]).
      rewrite Hs.
      replace ("github.com/" ++ Parsed.owner p ++ "/" ++ Parsed.repo p ++ tail)
        with ("" ++ ("github.com/" ++ Parsed.owner p ++ "/" ++ Parsed.repo p) ++ tail)
        by (simpl; f_equal; now rewrite !string_app_assoc).
      apply includes_app.
    + intros H. destruct (IH H) as (Ho & Hr & Hso & Hsr & Hinc).
      repeat (split; [assumption|]). now apply includes_later.
Qed.

Lemma parseRepositoryUrl_sound_witness :
  Parsed.owner {| Parsed.owner := "vuejs"; Parsed.repo := "vue" |} <> ""
  /\ Parsed.repo {| Parsed.owner := "vuejs"; Parsed.repo := "vue" |} <> ""
  /\ no_slash "vuejs" /\ no_slash "vue"
  /\ JS.includes "see github.com//x and http://github.com/vuejs/vue/pulls"
       ("github.com/" ++ "vuejs" ++ "/" ++ "vue") = true.
Proof.
  apply (parseRepositoryUrl_sound
           "see github.com//x and http://github.com/vuejs/vue/pulls"
           {| Parsed.owner := "vuejs"; Parsed.repo := "vue" |}).
  vm_compute. reflexivity.
Defined.

(** [parseRepositoryUrl] returns [null] exactly on the strings in which no
    [github.com/] is followed by two non-empty segments separated by a [/]. *)
Theorem parseRepositoryUrl_accepts (url : string) :
  parseRepositoryUrl url <> None <->
  exists pre rest owner repo,
    url = pre ++ rest /\ repository_address rest owner repo.
Proof.
  split.
  - induction url as [|c url IH]; rewrite parseRepositoryUrl_eq.
    + intros H. now contradiction H.
    + destruct (match_here (String c url)) as [p|] eqn:Hm.
      * intros _. apply match_here_sound in Hm.
        exists "", (String c url), (Parsed.owner p), (Parsed.repo p). now split.
      * intros H. destruct (IH H) as (pre & rest & owner & repo & Hurl & Haddr).
        exists (String c pre), rest, owner, repo. split; [|exact Haddr].
        simpl. now rewrite Hurl.
  - intros (pre & rest & owner & repo & -> & Ho & Hr & Hso & Hsr & tail & Htail & ->).
    induction pre as [|c pre IH]; rewrite parseRepositoryUrl_eq.
    + change ("" ++ "github.com/" ++ owner ++ "/" ++ repo ++ tail)
        with ("github.com/" ++ owner ++ "/" ++ repo ++ tail).
      now rewrite (match_here_built owner repo tail Ho Hr Hso Hsr Htail).
    + destruct (match_here _); [discriminate|]. exact IH.
Qed.

(** ** Credential store and authentication *)

Lemma getItem_setItem (key value : string) (st : Storage.t) :
  Storage.getItem key (Storage.setItem key value st) = Some value.
Proof. unfold Storage.getItem, Storage.setItem. simpl. now rewrite String.eqb_refl. Qed.

Lemma getItem_removeItem (key : string) (st : Storage.t) :
  Storage.getItem key (Storage.removeItem key st) = None.
Proof.
  unfold Storage.getItem, Storage.removeItem.
  induction st as [|[k v] st IH]; simpl; [reflexivity|].
  destruct (k =? key) eqn:E; simpl; [exact IH|]. now rewrite E.
Qed.

Lemma getItem_removeItem_other (key key' : string) (st : Storage.t) :
  key' <> key ->
  Storage.getItem key' (Storage.removeItem key st) = Storage.getItem key' st.
Proof.
  intros Hne. unfold Storage.getItem, Storage.removeItem.
  induction st as [|[k v] st IH]; simpl; [reflexivity|].
  destruct (String.eqb_spec k key) as [->|Hk]; simpl.
  - destruct (String.eqb_spec key key'); [congruence | exact IH].
  - destruct (k =? key'); [reflexivity | exact IH].
Qed.

(** The credential store round trip: a token that was set is the one read
    back, from the cache and from the browser's store, even an empty one; a
    cleared credential is gone from both; other stored items are untouched;
    and a read leaves the value of the next read unchanged. *)
Theorem credential_store_round_trip (t : string) (s : ServiceState) :
  fst (getToken (setToken t s)) = Some t
  /\ Storage.getItem "github_token" (localStorage (setToken t s)) = Some t
  /\ fst (getToken (clearToken s)) = None
  /\ fst (getToken (clearToken (setToken t s))) = None
  /\ Storage.getItem "github_token" (localStorage (clearToken s)) = None
  /\ (forall key, key <> "github_token" ->
        Storage.getItem key (localStorage (clearToken (setToken t s)))
        = Storage.getItem key (localStorage s))
  /\ fst (getToken (snd (getToken s))) = fst (getToken s).
Proof.
  repeat match goal with |- _ /\ _ => split end.
  - unfold getToken, setToken. cbn [token_cache localStorage JS.truthy].
    destruct (t =? "") eqn:E; cbn [negb fst]; [|reflexivity].
    now rewrite getItem_setItem.
  - apply getItem_setItem.
  - unfold getToken, clearToken. cbn. apply getItem_removeItem.
  - unfold getToken, clearToken. cbn. apply getItem_removeItem.
  - apply getItem_removeItem.
  - intros key Hkey. unfold clearToken, setToken. cbn [localStorage].
    unfold Storage.setItem.
    rewrite (getItem_removeItem_other "github_token" key) by exact Hkey.
    unfold Storage.getItem at 1. cbn [find fst].
    destruct (String.eqb_spec "github_token" key); [congruence|].
    now apply getItem_removeItem_other.
  - unfold getToken.
    destruct (JS.truthy (token_cache s)) eqn:E; cbn [negb fst snd].
    + now rewrite E.
    + cbn [token_cache localStorage].
      destruct (JS.truthy (Storage.getItem "github_token" (localStorage s)));
        reflexivity.
Qed.

(** Signing in with a token: when the platform accepts the request for the
    user, the hook is authenticated and the token stays the credential; when
    the request is rejected, the hook reports the error's message and the
    token is removed from the cache and from the browser's store, so no later
    call reads it. *)
Theorem login_outcome (fetch_user : Request -> Response User.t)
    (token : string) (svc : ServiceState) (h : Auth.State) :
  let (svc', h') := Auth.login fetch_user token (svc, h) in
  match makeRequest (Some token) fetch_user "/user" with
  | Resolved userData =>
      Auth.user h' = Some userData /\ Auth.isAuthenticated h' = true
      /\ Auth.error h' = None
      /\ fst (getToken svc') = Some token
  | Rejected err =>
      Auth.isAuthenticated h' = false /\ Auth.error h' = Some (message err)
      /\ Auth.user h' = Auth.user h
      /\ fst (getToken svc') = None
      /\ Storage.getItem "github_token" (localStorage svc') = None
  end.
Proof.
  unfold Auth.login, Auth.fetchCurrentUser. cbn [fst snd].
  destruct (getToken (setToken token svc)) as [tok svc1] eqn:Hget.
  assert (Htok : tok = Some token).
  { pose proof (f_equal fst Hget) as H. cbn [fst] in H. rewrite <- H.
    unfold getToken, setToken. cbn [token_cache localStorage JS.truthy].
    destruct (token =? "") eqn:E; cbn [negb fst]; [|reflexivity].
    now rewrite getItem_setItem. }
  subst tok. unfold getCurrentUser.
  destruct (makeRequest (Some token) fetch_user "/user") as [u|e].
  - repeat match goal with |- _ /\ _ => split end; try reflexivity.
    replace svc1 with (snd (getToken (setToken token svc))) by now rewrite Hget.
    unfold getToken at 2, setToken. cbn [token_cache localStorage JS.truthy].
    unfold getToken.
    destruct (token =? "") eqn:E; cbn [negb fst snd token_cache localStorage JS.truthy];
      rewrite ?getItem_setItem; cbn [JS.truthy]; rewrite ?E; cbn [negb fst];
      rewrite ?getItem_setItem; reflexivity.
  - repeat match goal with |- _ /\ _ => split end; try reflexivity.
    + unfold getToken, clearToken. cbn. apply getItem_removeItem.
    + apply getItem_removeItem.
Qed.

(** ** [getBeginnerFriendlyRepos] *)

Lemma beginnerReposLoop_resolves token fetch_repository
    (repoSubset : list string) (repos : list GitHubRepository) :
  beginnerReposLoop token fetch_repository repoSubset repos
  = Resolved (List.app repos
                (flat_map (fetchedRepo token fetch_repository) repoSubset)).
Proof.
  revert repos. induction repoSubset as [|repoPath rest IH]; intros repos.
  - simpl. now rewrite app_nil_r.
  - cbn [beginnerReposLoop flat_map]. unfold fetchedRepo at 1.
    destruct (getRepository token fetch_repository _ _) as [r|e]; simpl.
    + rewrite IH. now rewrite <- app_assoc.
    + now rewrite IH.
Qed.

Lemma flat_map_length_le {A B} (f : A -> list B) (n : nat) (l : list A) :
  (forall x, List.length (f x) <= n)%nat ->
  (List.length (flat_map f l) <= n * List.length l)%nat.
Proof.
  intros Hf. induction l as [|x l IH]; simpl; [lia|].
  rewrite length_app. specialize (Hf x). lia.
Qed.

(** [getBeginnerFriendlyRepos] never rejects: it returns, in the order of the
    list, the repositories among the first 20 entries whose fetch succeeds,
    so at most 20 and none when every fetch fails; the entries after the
    twentieth have no part in the result. *)
Theorem getBeginnerFriendlyRepos_resolves token
    (fetch_repository : Request -> Response GitHubRepository) :
  exists repos,
    getBeginnerFriendlyRepos token fetch_repository = Resolved repos
    /\ repos = flat_map (fetchedRepo token fetch_repository) (firstn 20 beginnerRepos)
    /\ (List.length repos <= 20)%nat
    /\ ((forall repoPath, In repoPath (firstn 20 beginnerRepos) ->
           fetchedRepo token fetch_repository repoPath = []) -> repos = []).
Proof.
  eexists. split; [|split; [reflexivity|split]].
  - unfold getBeginnerFriendlyRepos. rewrite beginnerReposLoop_resolves.
    reflexivity.
  - pose proof (flat_map_length_le (fetchedRepo token fetch_repository) 1
                  (firstn 20 beginnerRepos)) as H.
    rewrite H.
    + now vm_compute.
    + intros x. unfold fetchedRepo.
      destruct (getRepository _ _ _ _); simpl; lia.
  - intros Hall. induction (firstn 20 beginnerRepos) as [|p l IH]; [reflexivity|].
    simpl. rewrite (Hall p) by now left.
    apply IH. intros q Hq. apply Hall. now right.
Qed.

(** ** Batching and the bounds of the aggregation *)

Lemma batchLoop_bounds {A} (repositories : list A) (fuel i : nat) :
  (List.length repositories - i <= fuel)%nat ->
  Forall (fun batch => 1 <= List.length batch <= batchSize)%nat
         (batchLoop fuel i repositories)
  /\ (List.length repositories - i <= batchSize * List.length (batchLoop fuel i repositories))%nat
  /\ (batchSize * List.length (batchLoop fuel i repositories)
      < List.length repositories - i + batchSize)%nat.
Proof.
  unfold batchSize.
  revert i. induction fuel as [|fuel IH]; intros i Hfuel; simpl.
  - split; [constructor | lia].
  - destruct (Nat.ltb_spec i (List.length repositories)) as [Hlt|Hge].
    + assert (Hfuel' : (List.length repositories - (i + 3) <= fuel)%nat) by lia.
      destruct (IH (i + 3)%nat Hfuel') as (Hall & Hlo & Hhi).
      unfold batchSize.
      split; [|simpl List.length; lia].
      constructor; [|exact Hall].
      unfold slice. rewrite length_firstn, length_skipn. lia.
    + split; [constructor | simpl; lia].
Qed.

(** The batches cut the repositories, in their order, into groups of one to
    three, as few as possible: [ceil(n / 3)] of them for [n] repositories (and
    none for no repository). *)
Theorem makeBatches_partition {A} (repositories : list A) :
  concat (makeBatches repositories) = repositories
  /\ Forall (fun batch => 1 <= List.length batch <= 3)%nat (makeBatches repositories)
  /\ (List.length repositories <= 3 * List.length (makeBatches repositories))%nat
  /\ (3 * List.length (makeBatches repositories) < List.length repositories + 3)%nat.
Proof.
  split; [apply concat_makeBatches|].
  unfold makeBatches.
  destruct (batchLoop_bounds repositories (List.length repositories) 0 ltac:(lia))
    as (Hall & Hlo & Hhi).
  unfold batchSize in *. rewrite Nat.sub_0_r in *. auto.
Qed.

Lemma filter_length_le {A} (p : A -> bool) (l : list A) :
  (List.length (filter p l) <= List.length l)%nat.
Proof. induction l as [|x l IH]; simpl; [lia|]. destruct (p x); simpl; lia. Qed.

(** One run of the aggregation never rejects, and what it hands to the view
    is bounded and filtered: at most 20 issues for each monitored repository,
    every one of a category the user selected, and every one attributed to a
    monitored repository whose fetch succeeded. *)
Theorem aggregate_bounded_and_filtered token platform toLocaleDateString
    (repositories : list Types.Repository) (issueTypes : list string) :
  exists issues,
    aggregate token platform toLocaleDateString repositories issueTypes
    = Resolved issues
    /\ (List.length issues <= 20 * List.length repositories)%nat
    /\ Forall (fun issue => In (Types.type issue) issueTypes) issues
    /\ Forall (fun issue =>
                 exists repo, In repo repositories
                   /\ fetchSucceeds token platform repo = true
                   /\ Types.repositoryFullName issue = Some (Types.full_name repo)
                   /\ Types.repository issue = Types.name repo) issues.
Proof.
  eexists. split; [apply aggregate_resolves|].
  split; [|split].
  - etransitivity; [apply filter_length_le|].
    etransitivity; [apply (flat_map_length_le _ 20)|].
    + intros repo. unfold contribution.
      destruct (repoFetch token platform repo); [|simpl; lia].
      rewrite length_map. unfold JS.slice0. apply firstn_le_length.
    + pose proof (filter_length_le (fetchSucceeds token platform) repositories). lia.
  - apply Forall_forall. intros issue Hin. apply filter_In in Hin.
    destruct Hin as [_ Hw]. unfold wanted in Hw.
    apply existsb_exists in Hw. destruct Hw as (t & Ht & Heq).
    apply String.eqb_eq in Heq. now rewrite Heq.
  - apply Forall_forall. intros issue Hin. apply filter_In in Hin.
    destruct Hin as [Hin _]. apply in_flat_map in Hin.
    destruct Hin as (repo & Hrepo & Hissue). apply filter_In in Hrepo.
    destruct Hrepo as [Hrepo Hok].
    exists repo. split; [exact Hrepo|]. split; [exact Hok|].
    unfold contribution in Hissue.
    destruct (repoFetch token platform repo); [|contradiction].
    apply in_map_iff in Hissue. destruct Hissue as (gi & <- & _). now split.
Qed.

(** ** Bounds and content of the search results *)

Lemma incl_firstn {A} (n : nat) (l : list A) : incl (firstn n l) l.
Proof.
  revert n. induction l as [|x l IH]; intros [|n]; simpl; intros y Hy;
    try contradiction.
  destruct Hy as [<-|Hy]; [now left | right; now apply (IH n)].
Qed.

(** Outside the hybrid combination of keys, [searchBeginnerIssues] rejects
    exactly when its one request is rejected, with the same error, and
    otherwise returns the first 50 of the platform's items after sorting:
    never more than 50, and never an item the platform did not return. *)
Theorem searchBeginnerIssues_bounded Date_getTime now token platform
    (language label : option string)
    (primarySort : IssueSort.t) (secondarySort : option IssueSort.t) :
  (primarySort, secondarySort) <> (IssueSort.updated, Some IssueSort.stars) ->
  match makeRequest token (fetch_issues platform)
          (issueSearchEndpoint language label primarySort) with
  | Rejected e =>
      searchBeginnerIssues Date_getTime now token platform language label
        primarySort secondarySort = Rejected e
  | Resolved response =>
      exists result,
        searchBeginnerIssues Date_getTime now token platform language label
          primarySort secondarySort = Resolved result
        /\ List.length (items result)
           = Nat.min 50 (List.length (items response))
        /\ incl (items result) (items response)
  end.
Proof.
  intros Hkeys. rewrite searchBeginnerIssues_single_stage by exact Hkeys.
  unfold searchIssuesSingleStage.
  destruct (makeRequest token (fetch_issues platform) _) as [response|e];
    [|reflexivity].
  unfold bind.
  set (sorted := JS.sort _ (items response)).
  assert (Hperm : Permutation (items response) sorted) by apply sort_perm.
  assert (Hlen : List.length sorted = List.length (items response))
    by (symmetry; now apply Permutation_length).
  assert (Hincl : incl sorted (items response)).
  { intros x Hx. eapply Permutation_in; [symmetry; exact Hperm | exact Hx]. }
  destruct (Nat.ltb_spec 50 (List.length sorted)) as [Hlt|Hge].
  - eexists. split; [reflexivity|]. cbn [items]. unfold JS.slice0. split.
    + rewrite length_firstn. lia.
    + intros x Hx. apply Hincl. now apply (incl_firstn 50).
  - eexists. split; [reflexivity|]. cbn [items]. split; [lia | exact Hincl].
Qed.

Lemma searchBeginnerIssues_bounded_witness :
  exists result,
    searchBeginnerIssues Iso8601.getTime 1704672000000 None threeIssuesPlatform
      (Some "Go") None IssueSort.created (Some IssueSort.stars) = Resolved result
    /\ List.length (items result) = Nat.min 50 3
    /\ incl (items result) [issueOld5; issueNew5; issueMid9].
Proof.
  apply (searchBeginnerIssues_bounded Iso8601.getTime 1704672000000 None
           threeIssuesPlatform (Some "Go") None IssueSort.created
           (Some IssueSort.stars)).
  discriminate.
Defined.

Lemma searchIssuesSingleStage_composes_witness :
  exists sorted,
    searchIssuesSingleStage Iso8601.getTime None threeIssuesPlatform None None
      IssueSort.stars (Some IssueSort.updated)
    = Resolved {| items := firstn 50 sorted |}
    /\ Permutation [issueOld5; issueNew5; issueMid9] sorted
    /\ StronglySorted
         (fun x y => (issueKeyValue Iso8601.getTime IssueSort.stars y
                      <= issueKeyValue Iso8601.getTime IssueSort.stars x)%Z) sorted.
Proof.
  destruct (searchIssuesSingleStage_composes Iso8601.getTime None
              threeIssuesPlatform None None IssueSort.stars
              (Some IssueSort.updated)
              {| items := [issueOld5; issueNew5; issueMid9] |} eq_refl)
    as (sorted & Hres & Hperm & Hsorted & _).
  - repeat constructor; vm_compute; discriminate.
  - exists sorted. auto.
Defined.

(** [searchRepositories] rejects exactly when its request is rejected, and
    otherwise returns all of the platform's items and no other, each as
    often as the platform returned it; without a secondary key, or with one
    equal to the primary key, it returns the platform's answer as it is. *)
Theorem searchRepositories_rearranges Date_getTime token platform
    (query : string) (primarySort : RepoSort.t)
    (secondarySort : option RepoSort.t) :
  match makeRequest token (fetch_repositories platform)
          ("/search/repositories?"
           ++ URL.toString [ ("q", query); ("sort", RepoSort.to_string primarySort);
                             ("order", "desc"); ("per_page", "50") ]) with
  | Rejected e =>
      searchRepositories Date_getTime token platform query primarySort secondarySort
      = Rejected e
  | Resolved response =>
      exists result,
        searchRepositories Date_getTime token platform query primarySort secondarySort
        = Resolved result
        /\ Permutation (items response) (items result)
        /\ (secondarySort = None \/ secondarySort = Some primarySort ->
            result = response)
  end.
Proof.
  unfold searchRepositories.
  destruct (makeRequest token (fetch_repositories platform) _) as [response|e];
    [|reflexivity].
  unfold bind. destruct secondarySort as [secondary|].
  - destruct (RepoSort.eqb secondary primarySort) eqn:E; cbn [negb].
    + eexists. split; [reflexivity|]. split; [reflexivity|]. auto.
    + eexists. split; [reflexivity|]. split; [apply sort_perm|].
      intros [H|H]; [discriminate|]. injection H as ->.
      destruct primarySort; discriminate.
  - eexists. split; [reflexivity|]. split; [reflexivity|]. auto.
Qed.

(** ** Two-stage strategy: failure and join *)

(** The two-stage strategy fails only when its fallback fails: a rejection
    it returns is the rejection of the single-stage search by [updated]; a
    failure of either stage alone is never passed on. *)
Theorem searchRecentIssuesFromStarredRepos_rejects_only_with_fallback
    Date_getTime now token platform (language label : option string) (e : exn) :
  searchRecentIssuesFromStarredRepos Date_getTime now token platform language label
    = Rejected e ->
  searchBeginnerIssues Date_getTime now token platform language label
    IssueSort.updated None = Rejected e.
Proof.
  unfold searchRecentIssuesFromStarredRepos, try_catch.
  destruct (makeRequest token (fetch_repositories platform) _) as [repoResponse|eA];
    unfold bind; [|intros H; exact H].
  destruct (makeRequest token (fetch_issues platform) _) as [issueResponse|eB];
    [discriminate | intros H; exact H].
Qed.

Lemma searchRecentIssuesFromStarredRepos_rejects_only_with_fallback_witness :
  searchBeginnerIssues Iso8601.getTime 1704672000000 None downPlatform
    (Some "Rust") None IssueSort.updated None
  = Rejected (JsError "TypeError" "Failed to fetch").
Proof.
  apply (searchRecentIssuesFromStarredRepos_rejects_only_with_fallback
           Iso8601.getTime 1704672000000 None downPlatform (Some "Rust") None
           (JsError "TypeError" "Failed to fetch")).
  reflexivity.
Defined.

Lemma split_not_nil (c : ascii) (s : string) : JS.split c s <> [].
Proof.
  induction s as [|a s IH]; simpl; [discriminate|].
  destruct (Ascii.eqb a c); [discriminate|].
  destruct (JS.split c s); [contradiction | discriminate].
Qed.

(** The pieces of [x], then the pieces of [y]. *)
Lemma split_app (c : ascii) (x y : string) :
  JS.split c (x ++ String c y) = List.app (JS.split c x) (JS.split c y).
Proof.
  induction x as [|a x IH]; simpl.
  - now rewrite Ascii.eqb_refl.
  - destruct (Ascii.eqb a c); [now rewrite IH|].
    rewrite IH. pose proof (split_not_nil c x) as Hx.
    destruct (JS.split c x); [contradiction | reflexivity].
Qed.

Lemma split_no_slash (s : string) : no_slash s -> JS.split "/" s = [s].
Proof.
  induction s as [|a s IH]; intros Hns; [reflexivity|].
  apply no_slash_cons in Hns. destruct Hns as [Ha Hns]. simpl.
  destruct (Ascii.eqb_spec a "/"); [contradiction|]. now rewrite (IH Hns).
Qed.

(** The join key read off a [repository_url]: its last two segments. *)
Lemma repoFullName_of_url (base owner name : string) :
  no_slash owner -> no_slash name ->
  JS.join "/" (JS.slice_last 2
                 (JS.split "/" (base ++ "/" ++ owner ++ "/" ++ name)))
  = owner ++ "/" ++ name.
Proof.
  intros Ho Hn.
  change (base ++ "/" ++ owner ++ "/" ++ name)
    with (base ++ String "/" (owner ++ String "/" name)).
  rewrite !split_app, (split_no_slash owner Ho), (split_no_slash name Hn).
  unfold JS.slice_last. rewrite length_app. cbn [List.length List.app].
  replace (List.length (JS.split "/" base) + 2 - 2)%nat
    with (List.length (JS.split "/" base) + 0)%nat by lia.
  rewrite skipn_app, Nat.add_0_r, skipn_all, Nat.sub_diag. reflexivity.
Qed.

(** When both stages succeed, an issue whose [repository_url] ends in
    [/owner/name] is returned with the star count of the first candidate
    repository named [owner/name], and with 0 stars when no candidate has
    that name. *)
Theorem searchRecentIssuesFromStarredRepos_attaches_stars
    Date_getTime now token platform (language label : option string)
    (repoResponse : SearchResult GitHubRepository)
    (issueResponse : SearchResult GitHubIssue)
    (issue : GitHubIssue) (base owner name : string) :
  makeRequest token (fetch_repositories platform) (repoSearchEndpoint language)
    = Resolved repoResponse ->
  makeRequest token (fetch_issues platform)
    (scopedIssueEndpoint label (firstn 10 (map full_name (items repoResponse))))
    = Resolved issueResponse ->
  In issue (items issueResponse) ->
  repository_url issue = base ++ "/" ++ owner ++ "/" ++ name ->
  no_slash owner -> no_slash name ->
  exists result,
    searchRecentIssuesFromStarredRepos Date_getTime now token platform language label
    = Resolved result
    /\ List.length (items result) = List.length (items issueResponse)
    /\ In (with_repository_stars issue
             match find (fun r => full_name r =? owner ++ "/" ++ name)
                        (items repoResponse) with
             | Some r => stargazers_count r
             | None => 0%Z
             end)
          (items result).
Proof.
  intros HA HB Hin Hurl Ho Hn.
  unfold searchRecentIssuesFromStarredRepos, try_catch, bind.
  rewrite HA. unfold JS.slice0. rewrite HB.
  eexists. split; [reflexivity|]. cbn [items]. split.
  - rewrite <- (Permutation_length (sort_perm _ _)). apply length_map.
  - eapply Permutation_in; [apply sort_perm|].
    apply in_map_iff. exists issue. split; [|exact Hin].
    now rewrite Hurl, (repoFullName_of_url base owner name Ho Hn).
Qed.

Lemma searchRecentIssuesFromStarredRepos_attaches_stars_witness :
  exists result,
    searchRecentIssuesFromStarredRepos Iso8601.getTime 1704672000000 None
      starredPlatform (Some "Go") None = Resolved result
    /\ List.length (items result) = 1%nat
    /\ In (with_repository_stars
             (mkIssueOf "Document the CLI" "https://api.github.com/repos/octo/popular")
             900)
          (items result).
Proof.
  apply (searchRecentIssuesFromStarredRepos_attaches_stars Iso8601.getTime
           1704672000000 None starredPlatform (Some "Go") None
           {| items := [popularRepo; recentRepo] |}
           {| items := [ mkIssueOf "Document the CLI"
                           "https://api.github.com/repos/octo/popular" ] |}
           (mkIssueOf "Document the CLI" "https://api.github.com/repos/octo/popular")
           "https://api.github.com/repos" "octo" "popular");
    try reflexivity.
  now left.
Defined.

(** ** More on the scoring function *)

Lemma ln_10_pos : (0 < ln 10)%R.
Proof. rewrite <- ln_1. apply ln_increasing; lra. Qed.

Lemma log10_nonneg (x : R) : (1 <= x)%R -> (0 <= log10 x)%R.
Proof.
  intros Hx. unfold log10. pose proof ln_10_pos.
  apply Rmult_le_pos; [|left; now apply Rinv_0_lt_compat].
  rewrite <- ln_1. destruct Hx as [Hx|<-]; [|lra].
  left. apply ln_increasing; lra.
Qed.

Lemma log10_monotone (x y : R) : (0 < x)%R -> (x <= y)%R -> (log10 x <= log10 y)%R.
Proof.
  intros Hx Hxy. unfold log10. pose proof ln_10_pos.
  apply Rmult_le_compat_r; [left; now apply Rinv_0_lt_compat|].
  destruct Hxy as [Hxy|<-]; [|lra]. left. now apply ln_increasing.
Qed.

Lemma log10_pow10 (k : nat) : log10 (IZR (10 ^ Z.of_nat k)) = INR k.
Proof.
  rewrite <- pow_IZR. unfold log10. rewrite ln_pow by lra.
  pose proof ln_10_pos. field. lra.
Qed.

(** The score of an issue with a valid date is never negative, is at most
    [60 + 4 * log10(max(1, repoStars))] when the issue was not updated in the
    future, and does not decrease when the star count grows. *)
Theorem calculateHybridScore_bounds (Date_getTime : string -> option Z)
    (now : Z) (issue : GitHubIssue) (updated repoStars moreStars : Z) :
  Date_getTime (updated_at issue) = Some updated ->
  exists score,
    calculateHybridScore Date_getTime now issue repoStars = Some score
    /\ (0 <= score)%R
    /\ ((updated <= now)%Z ->
        (score <= 60 + 4 * log10 (Rmax 1 (IZR repoStars)))%R)
    /\ ((repoStars <= moreStars)%Z ->
        exists score',
          calculateHybridScore Date_getTime now issue moreStars = Some score'
          /\ (score <= score')%R).
Proof.
  intros Hdate.
  rewrite (calculateHybridScore_valid Date_getTime now issue repoStars updated Hdate).
  eexists. split; [reflexivity|].
  pose proof (Rmax_l 0 (100 - daysSince now updated)) as Hrec.
  pose proof (log10_nonneg (Rmax 1 (IZR repoStars)) (Rmax_l _ _)) as Hpop.
  split; [lra|]. split.
  - intros Hpast.
    assert (Hdays : (0 <= daysSince now updated)%R).
    { unfold daysSince. apply Rmult_le_pos; [apply IZR_le; lia | lra]. }
    assert (Hcap : (Rmax 0 (100 - daysSince now updated) <= 100)%R)
      by (apply Rmax_lub; lra).
    lra.
  - intros Hstars.
    rewrite (calculateHybridScore_valid Date_getTime now issue moreStars updated Hdate).
    eexists. split; [reflexivity|].
    assert (Hmono : (log10 (Rmax 1 (IZR repoStars))
                     <= log10 (Rmax 1 (IZR moreStars)))%R).
    { apply log10_monotone.
      - pose proof (Rmax_l 1 (IZR repoStars)). lra.
      - apply Rle_max_compat_l. now apply IZR_le. }
    lra.
Qed.

Lemma calculateHybridScore_bounds_witness :
  exists score,
    calculateHybridScore Iso8601.getTime 1704672000000
      (mkIssueAt "Newer" ["help wanted"] "2024-01-05T08:30:00Z") 1200 = Some score
    /\ (0 <= score)%R.
Proof.
  destruct (calculateHybridScore_bounds Iso8601.getTime 1704672000000
              (mkIssueAt "Newer" ["help wanted"] "2024-01-05T08:30:00Z")
              1704443400000 1200 5000 ltac:(vm_compute; reflexivity))
    as (score & Hs & Hpos & _).
  exists score. now split.
Defined.

(** Where the two components stop counting: an issue last updated 100 days
    ago or more scores by its repository's stars alone, whatever its age; a
    repository with at most one star adds nothing to the score; and a
    repository with [10^k] stars adds [4 * k]. *)
Theorem calculateHybridScore_saturation (Date_getTime : string -> option Z)
    (now : Z) (issue : GitHubIssue) (updated : Z) :
  Date_getTime (updated_at issue) = Some updated ->
  (forall repoStars, (8640000000 <= now - updated)%Z ->
     calculateHybridScore Date_getTime now issue repoStars
     = Some (0.4 * (log10 (Rmax 1 (IZR repoStars)) * 10))%R)
  /\ (forall repoStars, (repoStars <= 1)%Z ->
        calculateHybridScore Date_getTime now issue repoStars
        = Some (0.6 * Rmax 0 (100 - daysSince now updated))%R)
  /\ (forall k : nat,
        calculateHybridScore Date_getTime now issue (10 ^ Z.of_nat k)
        = Some (0.6 * Rmax 0 (100 - daysSince now updated) + 4 * INR k)%R).
Proof.
  intros Hdate. split; [|split].
  - intros repoStars Hold.
    rewrite (calculateHybridScore_valid Date_getTime now issue repoStars updated Hdate).
    f_equal.
    assert (Hdays : (100 <= daysSince now updated)%R).
    { unfold daysSince. apply IZR_le in Hold. lra. }
    rewrite (Rmax_left 0 (100 - daysSince now updated)) by lra. lra.
  - intros repoStars Hfew.
    rewrite (calculateHybridScore_valid Date_getTime now issue repoStars updated Hdate).
    f_equal.
    rewrite (Rmax_left 1 (IZR repoStars)) by (apply IZR_le in Hfew; lra).
    unfold log10. rewrite ln_1. lra.
  - intros k.
    rewrite (calculateHybridScore_valid Date_getTime now issue _ updated Hdate).
    f_equal.
    assert (Hbig : (1 <= IZR (10 ^ Z.of_nat k))%R).
    { apply IZR_le. apply (Z.pow_le_mono_r 10 0 (Z.of_nat k)); lia. }
    rewrite (Rmax_right 1 (IZR (10 ^ Z.of_nat k))) by exact Hbig.
    rewrite log10_pow10. lra.
Qed.

Lemma calculateHybridScore_saturation_witness :
  calculateHybridScore Iso8601.getTime 1704672000000
    (mkIssueAt "Older" ["help wanted"] "2023-06-01T00:00:00Z") 100000
  = Some (0.4 * (log10 (Rmax 1 (IZR 100000)) * 10))%R.
Proof.
  apply (calculateHybridScore_saturation Iso8601.getTime 1704672000000
           (mkIssueAt "Older" ["help wanted"] "2023-06-01T00:00:00Z")
           1685577600000 ltac:(vm_compute; reflexivity)).
  lia.
Defined.

(** ** More on the classification engine *)

(** [categorizeIssue] returns one of eighteen fixed categories, whatever the
    labels and the title are. *)
Theorem categorizeIssue_closed_set (issue : GitHubIssue) :
  In (categorizeIssue issue) allCategories.
Proof.
  unfold categorizeIssue. cbv zeta.
  repeat match goal with
         | |- context [if ?b then _ else _] => destruct b
         end;
    simpl; tauto.
Qed.

Lemma some_false_weaken {A} (p q : A -> bool) (l : list A) :
  (forall x, p x = false -> q x = false) ->
  JS.some p l = false -> JS.some q l = false.
Proof.
  intros Hpq Hp. destruct (JS.some q l) eqn:Hq; [|reflexivity].
  apply some_true_iff in Hq. destruct Hq as (x & Hin & Hx).
  now rewrite (Hpq x (some_false_all p l Hp x Hin)) in Hx.
Qed.

Lemma some_true_weaken {A} (p q : A -> bool) (l : list A) :
  (forall x, p x = true -> q x = true) ->
  JS.some p l = true -> JS.some q l = true.
Proof.
  intros Hpq Hp. apply some_true_iff in Hp. destruct Hp as (x & Hin & Hx).
  apply some_true_iff. exists x. auto.
Qed.

(** The three functions agree on beginner issues: an issue given one of the
    four beginner categories has priority [low], and one given
    [beginner-friendly] also has difficulty [beginner]. *)
Theorem beginner_category_consistent (issue : GitHubIssue) :
  In (categorizeIssue issue) beginnerCategories ->
  getPriorityFromIssue issue = low
  /\ (categorizeIssue issue = "beginner-friendly" ->
      getDifficultyFromIssue issue = beginner).
Proof.
  intros Hcat. split.
  - unfold getPriorityFromIssue.
    destruct (hasBeginnerLabel (lowerLabels issue)) eqn:Hb; [reflexivity|].
    exfalso. revert Hcat. unfold categorizeIssue. cbv zeta. rewrite Hb.
    repeat match goal with
           | |- context [if ?b then _ else _] => destruct b
           end;
      simpl; intuition discriminate.
  - clear Hcat. unfold categorizeIssue, getDifficultyFromIssue. cbv zeta.
    destruct (hasBeginnerLabel (lowerLabels issue)).
    + destruct (JS.some _ (lowerLabels issue)); [discriminate|].
      destruct (JS.some _ (lowerLabels issue)); [discriminate|].
      destruct (JS.some (fun l => JS.includes l "beginner" || JS.includes l "easy")
                        (lowerLabels issue)) eqn:E3.
      * intros _.
        assert (Hd : JS.some
                       (fun l => JS.includes l "good first issue"
                                 || JS.includes l "beginner" || JS.includes l "easy"
                                 || JS.includes l "starter"
                                 || JS.includes l "first-timers-only"
                                 || JS.includes l "documentation"
                                 || JS.includes l "typo")
                       (lowerLabels issue) = true).
        { revert E3. apply some_true_weaken. intros l Hl.
          apply orb_true_iff in Hl.
          destruct Hl as [-> | ->]; rewrite ?orb_true_r; reflexivity. }
        now rewrite Hd.
      * destruct (JS.some _ (lowerLabels issue)); [discriminate|].
        repeat match goal with
               | |- context [if ?b then _ else _] => destruct b
               end; discriminate.
    + repeat match goal with
             | |- context [if ?b then _ else _] => destruct b
             end; discriminate.
Qed.

Lemma beginner_category_consistent_witness :
  let issue := mkIssue "Tidy the examples" ["Easy pickings"; "urgent"] in
  getPriorityFromIssue issue = low
  /\ (categorizeIssue issue = "beginner-friendly" ->
      getDifficultyFromIssue issue = beginner).
Proof.
  apply (beginner_category_consistent
           (mkIssue "Tidy the examples" ["Easy pickings"; "urgent"])).
  vm_compute. tauto.
Defined.

(** Title evidence can outrank label evidence: when no label maps to a
    beginner category and the lowercase title contains [add ] or
    [implement], the category is [feature], whatever the labels say
    (security, bug, performance, ...). *)
Theorem categorizeIssue_title_feature (issue : GitHubIssue) :
  JS.some mapsToBeginnerCategory (lowerLabels issue) = false ->
  JS.includes (JS.toLowerCase (title issue)) "add " = true
  \/ JS.includes (JS.toLowerCase (title issue)) "implement" = true ->
  categorizeIssue issue = "feature".
Proof.
  intros Hnone Htitle. unfold categorizeIssue. cbv zeta.
  assert (H1 : JS.some (fun l => JS.includes l "good first issue"
                                 || JS.includes l "good-first-issue")
                       (lowerLabels issue) = false).
  { revert Hnone. apply some_false_weaken. unfold mapsToBeginnerCategory.
    intros l Hl. cbv beta.
    repeat (apply orb_false_iff in Hl; destruct Hl as [Hl ?]).
    repeat match goal with
           | H : _ = false |- _ => rewrite ?H; clear H
           end.
    reflexivity. }
  assert (H2 : JS.some (fun l => JS.includes l "documentation" || JS.includes l "docs")
                       (lowerLabels issue) = false).
  { revert Hnone. apply some_false_weaken. unfold mapsToBeginnerCategory.
    intros l Hl. cbv beta.
    repeat (apply orb_false_iff in Hl; destruct Hl as [Hl ?]).
    repeat match goal with
           | H : _ = false |- _ => rewrite ?H; clear H
           end.
    reflexivity. }
  assert (H3 : JS.some (fun l => JS.includes l "beginner" || JS.includes l "easy")
                       (lowerLabels issue) = false).
  { revert Hnone. apply some_false_weaken. unfold mapsToBeginnerCategory.
    intros l Hl. cbv beta.
    repeat (apply orb_false_iff in Hl; destruct Hl as [Hl ?]).
    repeat match goal with
           | H : _ = false |- _ => rewrite ?H; clear H
           end.
    reflexivity. }
  assert (H4 : JS.some (fun l => JS.includes l "help wanted"
                                 || JS.includes l "up-for-grabs")
                       (lowerLabels issue) = false).
  { revert Hnone. apply some_false_weaken. unfold mapsToBeginnerCategory.
    intros l Hl. cbv beta.
    repeat (apply orb_false_iff in Hl; destruct Hl as [Hl ?]).
    repeat match goal with
           | H : _ = false |- _ => rewrite ?H; clear H
           end.
    reflexivity. }
  rewrite H1, H2, H3, H4.
  assert (Hfeat : JS.some (fun l => JS.includes l "feature" || JS.includes l "new feature")
                          (lowerLabels issue)
                  || JS.includes (JS.toLowerCase (title issue)) "add "
                  || JS.includes (JS.toLowerCase (title issue)) "implement" = true).
  { destruct Htitle as [-> | ->]; rewrite ?orb_true_r; reflexivity. }
  rewrite Hfeat. now destruct (hasBeginnerLabel (lowerLabels issue)).
Qed.

Lemma categorizeIssue_title_feature_witness :
  categorizeIssue (mkIssue "Implement token rotation" ["security"; "critical"])
  = "feature".
Proof.
  apply (categorizeIssue_title_feature
           (mkIssue "Implement token rotation" ["security"; "critical"]));
    [reflexivity | right; reflexivity].
Defined.

(** ** Selecting repositories *)

Lemma NoDup_map_filter {Item Key} (key : Item -> Key) (keep : Item -> bool)
    (items : list Item) (Hunique : NoDup (map key items)) :
  NoDup (map key (filter keep items)).
Proof.
  induction items as [|x rest IH]; simpl in *; [constructor|].
  apply NoDup_cons_iff in Hunique. destruct Hunique as [Hx Hrest].
  destruct (keep x); simpl; [|now apply IH].
  constructor; [|now apply IH].
  intros Hin. apply Hx. apply in_map_iff in Hin.
  destruct Hin as (y & Hy & Hin). apply filter_In in Hin.
  apply in_map_iff. exists y. tauto.
Qed.

Lemma NoDup_map_snoc {A B} (f : A -> B) (l : list A) (x : A) :
  NoDup (map f l) -> ~ In (f x) (map f l) -> NoDup (map f (List.app l [x])).
Proof.
  intros Hl Hx. rewrite map_app. simpl.
  apply (Permutation_NoDup (l := f x :: map f l)).
  - apply Permutation_cons_append.
  - now constructor.
Qed.

Lemma some_id_false (ids : Z) (l : list Selector.Repository) :
  JS.some (fun r => (Selector.id r =? ids)%Z) l = false ->
  ~ In ids (map Selector.id l).
Proof.
  intros Hs Hin. apply in_map_iff in Hin. destruct Hin as (r & Hr & Hin).
  pose proof (some_false_all _ _ Hs r Hin) as H. cbv beta in H.
  apply Z.eqb_neq in H. contradiction.
Qed.

Lemma filter_id_absent (ids : Z) (l : list Selector.Repository) :
  JS.some (fun r => (Selector.id r =? ids)%Z) l = false ->
  filter (fun r => negb (Selector.id r =? ids)%Z) l = l.
Proof.
  intros Hs. induction l as [|x l IH]; [reflexivity|].
  simpl in Hs. apply orb_false_iff in Hs. destruct Hs as [Hx Hs].
  simpl. rewrite Hx. simpl. now rewrite (IH Hs).
Qed.

(** A click on a repository flips whether a repository with its id is
    selected and leaves the repositories with other ids as they are; ids that
    were unique stay unique; and selecting a repository that was not selected
    and clicking it again gives back the selection. *)
Theorem handleRepositoryToggle_flips (selected : list Selector.Repository)
    (repo : Selector.Repository) :
  let toggled := Selector.handleRepositoryToggle selected repo in
  JS.some (fun r => (Selector.id r =? Selector.id repo)%Z) toggled
  = negb (JS.some (fun r => (Selector.id r =? Selector.id repo)%Z) selected)
  /\ (forall other, Selector.id other <> Selector.id repo ->
        (In other toggled <-> In other selected))
  /\ (NoDup (map Selector.id selected) -> NoDup (map Selector.id toggled))
  /\ (JS.some (fun r => (Selector.id r =? Selector.id repo)%Z) selected = false ->
      Selector.handleRepositoryToggle toggled repo = selected).
Proof.
  cbv zeta. unfold Selector.handleRepositoryToggle.
  destruct (JS.some (fun r => (Selector.id r =? Selector.id repo)%Z) selected) eqn:E.
  - repeat match goal with |- _ /\ _ => split end.
    + simpl. destruct (JS.some _ (filter _ selected)) eqn:F; [|reflexivity].
      apply some_true_iff in F. destruct F as (r & Hr & Hid).
      apply filter_In in Hr. destruct Hr as [_ Hr]. now rewrite Hid in Hr.
    + intros other Hne. rewrite filter_In.
      assert (negb (Selector.id other =? Selector.id repo)%Z = true)
        by (apply negb_true_iff; now apply Z.eqb_neq).
      tauto.
    + apply NoDup_map_filter.
    + discriminate.
  - repeat match goal with |- _ /\ _ => split end.
    + unfold JS.some. rewrite existsb_app. simpl.
      rewrite Z.eqb_refl. now rewrite orb_true_r.
    + intros other Hne. rewrite in_app_iff. simpl.
      split; [intros [H|[H|[]]]; [exact H | now subst] | tauto].
    + intros Hnd. apply NoDup_map_snoc; [exact Hnd | now apply some_id_false].
    + intros _. unfold JS.some at 1. rewrite existsb_app. simpl.
      rewrite Z.eqb_refl, orb_true_r.
      rewrite filter_app. simpl. rewrite Z.eqb_refl. simpl.
      rewrite app_nil_r. now apply filter_id_absent.
Qed.

(** Adding a repository by its address never removes a selected repository
    and adds at most one, whose id was not selected before, so ids that were
    unique stay unique; an address that does not parse changes nothing at
    all; and a repository that cannot be fetched leaves the selection and the
    typed address as they were. *)
Theorem handleCustomRepoAdd_selection token
    (fetch_repository : Request -> Response GitHubRepository)
    (st : Selector.State) :
  let st' := handleCustomRepoAdd token fetch_repository st in
  incl (Selector.selectedRepositories st) (Selector.selectedRepositories st')
  /\ (List.length (Selector.selectedRepositories st')
      <= S (List.length (Selector.selectedRepositories st)))%nat
  /\ (NoDup (map Selector.id (Selector.selectedRepositories st)) ->
      NoDup (map Selector.id (Selector.selectedRepositories st')))
  /\ (parseRepositoryUrl (Selector.customRepoUrl st) = None -> st' = st)
  /\ (forall parsed e,
        parseRepositoryUrl (Selector.customRepoUrl st) = Some parsed ->
        getRepository token fetch_repository
          (Parsed.owner parsed) (Parsed.repo parsed) = Rejected e ->
        Selector.selectedRepositories st' = Selector.selectedRepositories st
        /\ Selector.customRepoUrl st' = Selector.customRepoUrl st).
Proof.
  cbv zeta. unfold handleCustomRepoAdd.
  destruct (parseRepositoryUrl (Selector.customRepoUrl st)) as [parsed|].
  2:{ repeat match goal with |- _ /\ _ => split end;
        auto using incl_refl; discriminate. }
  destruct (getRepository token fetch_repository _ _) as [repo|e] eqn:Hget.
  - cbn [Selector.selectedRepositories Selector.customRepoUrl Selector.id].
    destruct (JS.some _ (Selector.selectedRepositories st)) eqn:E; cbn [negb].
    + repeat match goal with |- _ /\ _ => split end;
        auto using incl_refl; try discriminate.
      intros p e [= <-]. rewrite Hget. discriminate.
    + repeat match goal with |- _ /\ _ => split end; try discriminate.
      * apply incl_appl, incl_refl.
      * rewrite length_app. simpl. lia.
      * intros Hnd. apply NoDup_map_snoc; [exact Hnd|].
        now apply some_id_false.
      * intros p e [= <-]. rewrite Hget. discriminate.
  - cbn [Selector.selectedRepositories Selector.customRepoUrl].
    repeat match goal with |- _ /\ _ => split end;
      auto using incl_refl; try discriminate.
Qed.

(** ** The set-up form *)

(** Ticking an issue type flips whether it is chosen and leaves every other
    chosen type, the user name and the repositories as they are; ticking a
    type that was not chosen twice gives back the form. *)
Theorem handleIssueTypeToggle_flips (type : string) (prev : FormData) :
  let next := handleIssueTypeToggle type prev in
  (In type (form_issueTypes next) <-> ~ In type (form_issueTypes prev))
  /\ (forall other, other <> type ->
        (In other (form_issueTypes next) <-> In other (form_issueTypes prev)))
  /\ form_username next = form_username prev
  /\ form_repositories next = form_repositories prev
  /\ (~ In type (form_issueTypes prev) ->
      handleIssueTypeToggle type next = prev).
Proof.
  cbv zeta. unfold handleIssueTypeToggle.
  cbn [form_issueTypes form_username form_repositories].
  destruct (existsb (String.eqb type) (form_issueTypes prev)) eqn:E.
  - assert (Hin : In type (form_issueTypes prev)).
    { apply existsb_exists in E. destruct E as (t & Ht & Heq).
      apply String.eqb_eq in Heq. now subst. }
    split; [|split; [|split; [|split]]]; try reflexivity.
    + rewrite filter_In, String.eqb_refl. simpl. intuition discriminate.
    + intros other Hne. rewrite filter_In.
      destruct (String.eqb_spec other type); [contradiction|]. simpl. tauto.
    + intros Hnot. contradiction.
  - assert (Hnot : ~ In type (form_issueTypes prev)).
    { intros Hin. assert (existsb (String.eqb type) (form_issueTypes prev) = true).
      { apply existsb_exists. exists type. split; [exact Hin|].
        apply String.eqb_refl. }
      congruence. }
    split; [|split; [|split; [|split]]]; try reflexivity.
    + split; [intros _; exact Hnot|].
      intros _. apply in_app_iff. right. now left.
    + intros other Hne. rewrite in_app_iff. simpl.
      split; [intros [H|[H|[]]]; [exact H | now subst] | tauto].
    + intros _. rewrite existsb_app. simpl. rewrite String.eqb_refl, orb_true_r.
      rewrite filter_app. simpl. rewrite String.eqb_refl. simpl.
      rewrite app_nil_r.
      assert (Hf : filter (fun t => negb (t =? type)) (form_issueTypes prev)
                   = form_issueTypes prev).
      { clear E. induction (form_issueTypes prev) as [|t l IH]; [reflexivity|].
        simpl. destruct (String.eqb_spec t type) as [->|Hne]; simpl.
        - exfalso. apply Hnot. now left.
        - f_equal. apply IH. intros H. apply Hnot. now right. }
      rewrite Hf. now destruct prev.
Qed.

(** The form is handed on only when complete: the data it produces has a
    non-empty user name, at least one issue type and at least one
    repository, with instant notifications only; so the dashboard's first
    refresh on it runs the aggregation and records its time instead of
    returning early. *)
Theorem handleSubmit_complete (formData : FormData) (user : option User.t)
    (userData : Types.UserData) :
  handleSubmit formData user = Some userData ->
  Types.username userData <> ""
  /\ Types.issueTypes userData <> []
  /\ (exists repo rest, Types.repositories userData = Some (repo :: rest))
  /\ Types.notificationPreferences userData
     = {| Types.instant := true; Types.daily := false; Types.weekly := false |}
  /\ forall token platform toLocaleDateString now st,
       lastRefresh (fetchAllIssues token platform toLocaleDateString now userData st)
       = now.
Proof.
  unfold handleSubmit.
  destruct (String.eqb_spec (form_username formData) "") as [|Hname];
    [discriminate|].
  destruct (form_issueTypes formData) as [|t types] eqn:Ht; [discriminate|].
  destruct (form_repositories formData) as [|repo rest] eqn:Hr; [discriminate|].
  cbn. intros [= <-]. cbn.
  repeat match goal with |- _ /\ _ => split end;
    [exact Hname | discriminate | now exists repo, rest | reflexivity |].
  intros token platform toLocaleDateString now st.
  unfold fetchAllIssues. cbn [Types.repositories Types.issueTypes].
  rewrite aggregate_resolves. reflexivity.
Qed.

Lemma handleSubmit_complete_witness :
  lastRefresh
    (fetchAllIssues None flakyPlatform (fun s => s) 1704067200000
       {| Types.username := "newcomer"; Types.githubUsername := None;
          Types.repositoryUrl := None;
          Types.issueTypes := ["bug"];
          Types.repositories := Some [mkRepository "octo" "alpha"];
          Types.notificationPreferences :=
            {| Types.instant := true; Types.daily := false;
               Types.weekly := false |} |}
       emptyDashboard)
  = 1704067200000%Z.
Proof.
  apply (handleSubmit_complete
           {| form_username := "newcomer"; form_issueTypes := ["bug"];
              form_repositories := [mkRepository "octo" "alpha"] |}
           None _ eq_refl).
Defined.

(** ** The dashboard's lists *)

Lemma filter_sort_incl {A} (cmp : A -> A -> comparison) (p : A -> bool)
    (l : list A) (x : A) :
  In x (JS.sort cmp (filter p l)) -> In x l /\ p x = true.
Proof.
  intros Hin. apply filter_In.
  eapply Permutation_in; [symmetry; apply sort_perm | exact Hin].
Qed.

Lemma filter_and_length_le {A} (p q : A -> bool) (l : list A) :
  (List.length (filter (fun x => p x && q x) l) <= List.length (filter p l))%nat.
Proof.
  induction l as [|x l IH]; simpl; [lia|].
  destruct (p x), (q x); simpl; lia.
Qed.

(** What the overview shows: every notification is an open issue of category
    [good-first-issue], [beginner-friendly] or [documentation] taken from the
    aggregated issues, and there are at most 10; a [help-wanted] issue is
    never among them; and the beginner list is never longer than the list of
    open issues, which is never longer than the aggregate. *)
Theorem notifications_content (Date_getTime : string -> option Z)
    (allIssues : list Types.Issue) :
  (List.length (notifications Date_getTime allIssues) <= 10)%nat
  /\ Forall (fun issue =>
               In issue allIssues
               /\ Types.status issue = open
               /\ In (Types.type issue)
                    ["good-first-issue"; "beginner-friendly"; "documentation"])
            (notifications Date_getTime allIssues)
  /\ Forall (fun issue => Types.type issue <> "help-wanted")
            (notifications Date_getTime allIssues)
  /\ (List.length (beginnerFriendlyIssues Date_getTime allIssues)
      <= List.length (openIssues Date_getTime allIssues)
      <= List.length allIssues)%nat.
Proof.
  assert (Hcontent : forall issue,
             In issue (notifications Date_getTime allIssues) ->
             In issue allIssues /\ Types.status issue = open
             /\ In (Types.type issue)
                  ["good-first-issue"; "beginner-friendly"; "documentation"]).
  { intros issue Hin. unfold notifications, JS.slice0 in Hin.
    apply incl_firstn in Hin. unfold beginnerFriendlyIssues in Hin.
    apply filter_sort_incl in Hin. destruct Hin as [Hin Hp].
    apply andb_true_iff in Hp. destruct Hp as [Hopen Htype].
    split; [exact Hin|]. split.
    - unfold isOpen in Hopen. now destruct (Types.status issue).
    - apply existsb_exists in Htype. destruct Htype as (t & Ht & Heq).
      apply String.eqb_eq in Heq. now rewrite Heq. }
  repeat match goal with |- _ /\ _ => split end.
  - unfold notifications, JS.slice0. rewrite length_firstn. lia.
  - apply Forall_forall. exact Hcontent.
  - apply Forall_forall. intros issue Hin.
    destruct (Hcontent issue Hin) as (_ & _ & Ht). intros Heq.
    rewrite Heq in Ht. simpl in Ht. intuition discriminate.
  - unfold beginnerFriendlyIssues, openIssues.
    rewrite <- !(Permutation_length (sort_perm _ _)).
    apply filter_and_length_le.
  - unfold openIssues. rewrite <- (Permutation_length (sort_perm _ _)).
    apply filter_length_le.
Qed.

(** Removing a monitored repository: afterwards no repository with that id is
    monitored, the repositories with other ids are kept, the rest of the user
    data is untouched, the new data is what the browser's store holds under
    [giteasy_user_data], the stored token is untouched, and removing the same
    id again changes nothing. *)
Theorem handleRemoveRepository_removes (JSON_stringify : Types.UserData -> string)
    (repoId : Z) (userData : Types.UserData) (storage : Storage.t) :
  let (userData', storage') :=
    handleRemoveRepository JSON_stringify repoId (userData, storage) in
  (exists remaining,
      Types.repositories userData' = Some remaining
      /\ Forall (fun repo => Types.id repo <> repoId) remaining
      /\ forall repo, Types.id repo <> repoId ->
           (In repo remaining <->
            exists repositories,
              Types.repositories userData = Some repositories
              /\ In repo repositories))
  /\ Types.username userData' = Types.username userData
  /\ Types.issueTypes userData' = Types.issueTypes userData
  /\ Storage.getItem "giteasy_user_data" storage' = Some (JSON_stringify userData')
  /\ Storage.getItem "github_token" storage' = Storage.getItem "github_token" storage
  /\ fst (handleRemoveRepository JSON_stringify repoId (userData', storage'))
     = userData'.
Proof.
  unfold handleRemoveRepository at 1.
  split; [|split; [reflexivity|split; [reflexivity|split;
    [apply getItem_setItem|split]]]].
  - eexists. split; [reflexivity|]. split.
    + apply Forall_forall. intros repo Hin.
      destruct (Types.repositories userData); [|contradiction].
      apply filter_In in Hin. destruct Hin as [_ Hne].
      apply negb_true_iff in Hne. now apply Z.eqb_neq.
    + intros repo Hne.
      assert (Hb : negb (Types.id repo =? repoId)%Z = true)
        by (apply negb_true_iff; now apply Z.eqb_neq).
      destruct (Types.repositories userData) as [repositories|].
      * rewrite filter_In. split.
        -- intros [Hin _]. now exists repositories.
        -- intros (l & [= <-] & Hin). now split.
      * split; [contradiction | intros (l & Hl & _); discriminate].
  - unfold Storage.setItem, Storage.getItem at 1. cbn [find fst].
    apply getItem_removeItem_other. discriminate.
  - unfold handleRemoveRepository. cbn [fst Types.repositories Types.username
      Types.githubUsername Types.repositoryUrl Types.issueTypes
      Types.notificationPreferences].
    f_equal. f_equal.
    destruct (Types.repositories userData) as [repositories|]; [|reflexivity].
    induction repositories as [|r l IH]; [reflexivity|].
    simpl. destruct (Types.id r =? repoId)%Z eqn:E; simpl; [exact IH|].
    rewrite E. simpl. now f_equal.
Qed.

(** ** The request lines of the search endpoints *)

Lemma count_char_cons (d c : ascii) (s : string) :
  count_occurrences (String d "") (String c s)
  = ((if Ascii.eqb d c then 1 else 0) + count_occurrences (String d "") s)%nat.
Proof.
  cbn [count_occurrences]. rewrite prefix_cons, prefix_empty.
  now destruct (Ascii.eqb d c).
Qed.

Lemma count_char_app (d : ascii) (a b : string) :
  count_occurrences (String d "") (a ++ b)
  = (count_occurrences (String d "") a + count_occurrences (String d "") b)%nat.
Proof.
  induction a as [|c a IH]; [reflexivity|].
  change (String c a ++ b) with (String c (a ++ b)).
  rewrite !count_char_cons, IH. lia.
Qed.

Lemma encode_char_no_delimiter (d c : ascii) :
  In d delimiters -> count_occurrences (String d "") (URL.encode_char c) = 0%nat.
Proof.
  intros Hd. simpl in Hd.
  destruct Hd as [<-|[<-|[<-|[<-|[<-|[]]]]]];
    destruct c as [[] [] [] [] [] [] [] []]; vm_compute; reflexivity.
Qed.

(** A serialised name or value holds none of the characters that delimit the
    parts of a request line. *)
Lemma encode_no_delimiter (d : ascii) (s : string) :
  In d delimiters -> count_occurrences (String d "") (URL.encode s) = 0%nat.
Proof.
  intros Hd. induction s as [|c s IH]; [reflexivity|].
  cbn [URL.encode]. now rewrite count_char_app, IH, encode_char_no_delimiter.
Qed.

Lemma count_toString_four (d : ascii) (k1 v1 k2 v2 k3 v3 k4 v4 : string) :
  In d delimiters ->
  count_occurrences (String d "")
    (URL.toString [ (k1, v1); (k2, v2); (k3, v3); (k4, v4) ])
  = (3 * count_occurrences (String d "") "&"
     + 4 * count_occurrences (String d "") "=")%nat.
Proof.
  intros Hd. unfold URL.toString. cbn [map JS.join fst snd].
  rewrite !count_char_app, !(encode_no_delimiter d) by exact Hd. lia.
Qed.

(** Whatever language, label and repository names are searched for, the
    request lines of the three search requests consist of one path and
    exactly four parameters: the text of a filter cannot add, remove or cut a
    parameter, nor start a fragment. *)
Theorem search_request_lines (language label : option string)
    (primarySort : IssueSort.t) (repoNames : list string) (endpoint : string) :
  In endpoint [ issueSearchEndpoint language label primarySort;
                repoSearchEndpoint language;
                scopedIssueEndpoint label repoNames ] ->
  count_occurrences "?" endpoint = 1%nat
  /\ count_occurrences "&" endpoint = 3%nat
  /\ count_occurrences "=" endpoint = 4%nat
  /\ count_occurrences "#" endpoint = 0%nat
  /\ count_occurrences " " endpoint = 0%nat.
Proof.
  intros Hin. simpl in Hin.
  destruct Hin as [<-|[<-|[<-|[]]]];
    unfold issueSearchEndpoint, repoSearchEndpoint, scopedIssueEndpoint;
    cbv zeta;
    repeat match goal with |- _ /\ _ => split end;
    rewrite count_char_app, count_toString_four by (simpl; tauto);
    reflexivity.
Qed.

Lemma search_request_lines_witness :
  count_occurrences "?" (issueSearchEndpoint (Some "C#&sort=stars") (Some "a=b?") IssueSort.stars) = 1%nat
  /\ count_occurrences "&" (issueSearchEndpoint (Some "C#&sort=stars") (Some "a=b?") IssueSort.stars) = 3%nat
  /\ count_occurrences "=" (issueSearchEndpoint (Some "C#&sort=stars") (Some "a=b?") IssueSort.stars) = 4%nat
  /\ count_occurrences "#" (issueSearchEndpoint (Some "C#&sort=stars") (Some "a=b?") IssueSort.stars) = 0%nat
  /\ count_occurrences " " (issueSearchEndpoint (Some "C#&sort=stars") (Some "a=b?") IssueSort.stars) = 0%nat.
Proof.
  apply (search_request_lines (Some "C#&sort=stars") (Some "a=b?")
           IssueSort.stars []).
  simpl. tauto.
Defined.

(** ** The search hooks *)

Lemma trimStart_spaces (s : string) :
  (forall c, In c (list_ascii_of_string s) -> is_space c = true) ->
  trimStart s = "".
Proof.
  induction s as [|c s IH]; intros Hall; [reflexivity|].
  simpl. rewrite (Hall c) by (simpl; now left).
  apply IH. intros d Hd. apply Hall. simpl. now right.
Qed.

(** A repository search for a blank query (only spaces, tabs or line breaks)
    empties the results whatever the platform would answer; otherwise a
    rejected search empties the results and shows the error's message, and a
    successful one shows exactly the platform's items, rearranged. *)
Theorem hookSearch_outcome Date_getTime token platform (query : string)
    (primarySort : RepoSort.t) (secondarySort : option RepoSort.t)
    (st : RepoSearch.State) :
  let st' := hookSearch Date_getTime token platform query primarySort
               secondarySort st in
  ((forall c, In c (list_ascii_of_string query) -> is_space c = true) ->
     RepoSearch.results st' = []
     /\ RepoSearch.error st' = RepoSearch.error st
     /\ RepoSearch.loading st' = RepoSearch.loading st)
  /\ (trim query <> "" ->
      match makeRequest token (fetch_repositories platform)
              ("/search/repositories?"
               ++ URL.toString [ ("q", query);
                                 ("sort", RepoSort.to_string primarySort);
                                 ("order", "desc"); ("per_page", "50") ]) with
      | Rejected e =>
          RepoSearch.results st' = [] /\ RepoSearch.error st' = Some (message e)
      | Resolved response =>
          Permutation (items response) (RepoSearch.results st')
          /\ RepoSearch.error st' = None
      end).
Proof.
  cbv zeta. unfold hookSearch. split.
  - intros Hblank. unfold trim. rewrite (trimStart_spaces query Hblank).
    cbn. auto.
  - intros Hquery. destruct (String.eqb_spec (trim query) ""); [contradiction|].
    unfold searchRepositories.
    destruct (makeRequest token (fetch_repositories platform) _) as [response|e];
      unfold bind; [|cbn; auto].
    destruct secondarySort as [secondary|]; [|cbn; auto].
    destruct (negb (RepoSort.eqb secondary primarySort)); cbn; [|auto].
    split; [apply sort_perm | reflexivity].
Qed.

(** ** Saved sessions and signing out *)

(** Loading the saved session: it always ends the initialising state; it
    opens the dashboard only when a non-empty token is stored and the saved
    data parses to a value with a user name; saved data that does not parse
    takes both stored items away and leaves the page as it was; and in every
    other case the store is left as it was. *)
Theorem loadSavedSession_outcome (JSON_parse : string -> result json)
    (asUserData : json -> Types.UserData) (st : AppState) (storage : Storage.t) :
  let (st', storage') := loadSavedSession JSON_parse asUserData (st, storage) in
  isInitializing st' = false
  /\ (currentPage st' <> currentPage st ->
      currentPage st' = dashboard
      /\ JS.truthy (Storage.getItem "github_token" storage) = true
      /\ storage' = storage
      /\ exists saved parsedData username,
           Storage.getItem "giteasy_user_data" storage = Some saved
           /\ JSON_parse saved = Resolved parsedData
           /\ get_username parsedData = Resolved username
           /\ js_truthy username = true
           /\ userData st' = Some (asUserData parsedData))
  /\ (forall saved e,
        Storage.getItem "giteasy_user_data" storage = Some saved ->
        saved <> "" -> JSON_parse saved = Rejected e ->
        Storage.getItem "giteasy_user_data" storage' = None
        /\ Storage.getItem "github_token" storage' = None
        /\ currentPage st' = currentPage st /\ userData st' = userData st)
  /\ (JS.truthy (Storage.getItem "github_token" storage) = false ->
      currentPage st' = currentPage st /\ userData st' = userData st).
Proof.
  unfold loadSavedSession.
  destruct (Storage.getItem "giteasy_user_data" storage) as [saved|] eqn:Hsaved.
  2:{ cbn. split; [reflexivity|]. split; [intros H; now contradiction H|].
      split; [intros; discriminate | auto]. }
  cbn [JS.truthy]. destruct (String.eqb_spec saved "") as [->|Hne]; cbn [negb].
  { cbn. split; [reflexivity|]. split; [intros H; now contradiction H|].
    split; [|auto]. intros s e [= <-] Hs. now contradiction Hs. }
  destruct (JSON_parse saved) as [parsedData|e] eqn:Hparse; unfold bind.
  2:{ cbn. split; [reflexivity|]. split; [intros H; now contradiction H|].
      split; [|auto]. intros s e' _ _ _.
      split; [|split; [apply getItem_removeItem | auto]].
      rewrite getItem_removeItem_other by discriminate.
      apply getItem_removeItem. }
  destruct (JS.truthy (Storage.getItem "github_token" storage)) eqn:Htok.
  2:{ cbn. split; [reflexivity|]. split; [intros H; now contradiction H|].
      split; [|auto]. intros s e [= <-] _ He. congruence. }
  destruct (get_username parsedData) as [username|e] eqn:Huser.
  2:{ cbn. split; [reflexivity|]. split; [intros H; now contradiction H|].
      split; [|intros; discriminate]. intros s e' [= <-] _ He. congruence. }
  destruct (js_truthy username) eqn:Htruthy.
  - cbn. split; [reflexivity|]. split.
    + intros _. split; [reflexivity|]. split; [reflexivity|]. split; [reflexivity|].
      exists saved, parsedData, username. auto.
    + split; [|intros; discriminate]. intros s e [= <-] _ He. congruence.
  - cbn. split; [reflexivity|]. split; [intros H; now contradiction H|].
    split; [|intros; discriminate]. intros s e [= <-] _ He. congruence.
Qed.

(** Signing out from the dashboard leaves nothing behind: the next read of
    the credential finds none, neither the token nor the user data is in the
    browser's store, the hook is signed out, and the shell is back on the
    landing page without user data. *)
Theorem dashboardHandleLogout_clears (svc : ServiceState) (auth : Auth.State)
    (app : AppState) :
  let '(svc', auth', app') := dashboardHandleLogout (svc, auth, app) in
  fst (getToken svc') = None
  /\ Storage.getItem "github_token" (localStorage svc') = None
  /\ Storage.getItem "giteasy_user_data" (localStorage svc') = None
  /\ Auth.isAuthenticated auth' = false /\ Auth.user auth' = None
  /\ currentPage app' = landing /\ userData app' = None.
Proof.
  unfold dashboardHandleLogout, Auth.logout, appHandleLogout, clearToken.
  cbn [fst snd localStorage token_cache].
  assert (Htok : forall st, Storage.getItem "github_token"
                   (Storage.removeItem "github_token" st) = None)
    by (intros; apply getItem_removeItem).
  split; [|split; [|split]]; [| apply Htok | | cbn; auto].
  - unfold getToken. cbn. apply Htok.
  - rewrite getItem_removeItem_other by discriminate.
    apply getItem_removeItem.
Qed.

(** A session that was saved is restored: after [handleGetStarted], with a
    non-empty token in the store, loading the saved session opens the
    dashboard on the same user data, provided parsing gives back what was
    written and it has a user name. *)
Theorem saved_session_restored (JSON_stringify : Types.UserData -> string)
    (JSON_parse : string -> result json) (asUserData : json -> Types.UserData)
    (data : Types.UserData) (j : json) (username : option json)
    (st st0 : AppState) (storage : Storage.t) :
  JSON_stringify data <> "" ->
  JSON_parse (JSON_stringify data) = Resolved j ->
  asUserData j = data ->
  get_username j = Resolved username -> js_truthy username = true ->
  JS.truthy (Storage.getItem "github_token" storage) = true ->
  let (st', storage') :=
    loadSavedSession JSON_parse asUserData
      (st0, snd (handleGetStarted JSON_stringify data (st, storage))) in
  currentPage st' = dashboard /\ userData st' = Some data
  /\ isInitializing st' = false
  /\ storage' = snd (handleGetStarted JSON_stringify data (st, storage)).
Proof.
  intros Hne Hparse Has Huser Htruthy Htok.
  unfold loadSavedSession, handleGetStarted. cbn [snd].
  rewrite getItem_setItem. cbn [JS.truthy].
  destruct (String.eqb_spec (JSON_stringify data) ""); [contradiction|].
  cbn [negb]. rewrite Hparse. unfold bind.
  assert (Htok' : Storage.getItem "github_token"
                    (Storage.setItem "giteasy_user_data" (JSON_stringify data) storage)
                  = Storage.getItem "github_token" storage).
  { unfold Storage.setItem, Storage.getItem at 1. cbn [find fst].
    apply getItem_removeItem_other. discriminate. }
  rewrite Htok'. simpl in Htok. rewrite Htok.
  rewrite Huser, Htruthy. cbn. now rewrite Has.
Qed.

Lemma saved_session_restored_witness :
  let (st', storage') :=
    loadSavedSession sampleParse (fun _ => fiveReposUser)
      ({| currentPage := landing; userData := None; isInitializing := true |},
       snd (handleGetStarted sampleStringify fiveReposUser
              ({| currentPage := landing; userData := None;
                  isInitializing := false |},
               [("github_token", "ghp_example")]))) in
  currentPage st' = dashboard /\ userData st' = Some fiveReposUser
  /\ isInitializing st' = false
  /\ storage' = snd (handleGetStarted sampleStringify fiveReposUser
                       ({| currentPage := landing; userData := None;
                           isInitializing := false |},
                        [("github_token", "ghp_example")])).
Proof.
  apply (saved_session_restored sampleStringify sampleParse
           (fun _ => fiveReposUser) fiveReposUser
           (JObj [("username", JStr "newcomer")]) (Some (JStr "newcomer"))
           {| currentPage := landing; userData := None; isInitializing := false |}
           {| currentPage := landing; userData := None; isInitializing := true |}
           [("github_token", "ghp_example")]);
    try reflexivity.
  discriminate.
Defined.

(** ** The request for a repository's issues *)

(** The aggregation asks for the open issues of exactly the monitored
    repository, most recently updated first, 100 at most, when its full name
    is [owner/name]; a full name without a [/] leaves the repository part
    undefined, and the request goes to [/repos/<full name>/undefined/issues]. *)
Theorem repoFetch_request token platform (repo : Types.Repository)
    (owner name : string) :
  no_slash owner -> no_slash name ->
  (Types.full_name repo = owner ++ "/" ++ name ->
   repoFetch token platform repo
   = makeRequest token (fetch_repo_issues platform)
       ("/repos/" ++ owner ++ "/" ++ name
        ++ "/issues?state=open&sort=updated&per_page=100"))
  /\ (Types.full_name repo = owner ->
      repoFetch token platform repo
      = makeRequest token (fetch_repo_issues platform)
          ("/repos/" ++ owner ++ "/undefined"
           ++ "/issues?state=open&sort=updated&per_page=100")).
Proof.
  intros Ho Hn. unfold repoFetch, getRepositoryIssues. split; intros ->.
  - change (owner ++ "/" ++ name) with (owner ++ String "/" name).
    rewrite split_app, (split_no_slash owner Ho), (split_no_slash name Hn).
    reflexivity.
  - rewrite (split_no_slash owner Ho). reflexivity.
Qed.

Lemma repoFetch_request_witness :
  repoFetch None flakyPlatform (mkRepository "octo" "alpha")
  = makeRequest None (fetch_repo_issues flakyPlatform)
      ("/repos/" ++ "octo" ++ "/" ++ "alpha"
       ++ "/issues?state=open&sort=updated&per_page=100")
  /\ repoFetch None flakyPlatform soloRepository
     = makeRequest None (fetch_repo_issues flakyPlatform)
         ("/repos/" ++ "solo" ++ "/undefined"
          ++ "/issues?state=open&sort=updated&per_page=100").
Proof.
  split.
  - exact (proj1 (repoFetch_request None flakyPlatform
                    (mkRepository "octo" "alpha") "octo" "alpha"
                    eq_refl eq_refl) eq_refl).
  - exact (proj2 (repoFetch_request None flakyPlatform soloRepository "solo" "x"
                    eq_refl eq_refl) eq_refl).
Defined.
